(** * helpers.py: a shallow embedding and its properties

    The Python module [helpers.py] is a set of nine functions that glue
    pandas, NumPy, scikit-learn and matplotlib together.  Every function is a
    straight sequence of library calls, so each one is embedded as a program
    in a free monad whose instructions are those library calls ([call]); a
    [handler] gives them a meaning on a [world] made of an object heap
    (DataFrames and arrays are mutable Python objects passed by reference),
    a file system, the standard output and NumPy's global random state.

    - [Py]      strings, numbers and exceptions of the host language;
    - [Pandas]  the fragment of pandas the helpers use, as pure functions on
                tables (documented behaviour of [read_csv], [merge],
                [isin], [unique], [iloc], boolean indexing);
    - [Lib]     the instruction set, the world and the handler;
    - [Helpers] the nine functions of [helpers.py], line by line;
    - the notions in which the properties are stated, and sample data;
    - then the lemmas and the properties of the helpers.

    Limits of the pandas fragment: a CSV field is an integer literal, a text
    or missing (floating-point, boolean and date fields, quoting, NA
    spellings such as [NA] and duplicate header names are outside it);
    floating-point numbers are idealised as rationals plus NaN and their
    printing is a parameter. *)

From Stdlib Require Import Ascii String ZArith QArith DecimalString.
From stdpp Require Import gmap strings list fin_maps.

Local Open Scope string_scope.

(* ===================================================================== *)
(** * Host-language data                                                  *)
(* ===================================================================== *)

Module Py.

(** Python exceptions that the modelled library calls raise. *)
Inductive exn : Type :=
| FileNotFoundError (path : string)
| EmptyDataError
| ParserError
| KeyError (key : string)
| AttributeError (name : string)
| IndexError
| IndexingError
| TypeError
| ValueError
| ImportError (module : string)
| LibraryError (msg : string).

(** Outcome of a computation that may raise. *)
Inductive result (A : Type) : Type :=
| Ok (a : A)
| Raise (e : exn).
Arguments Ok {A} a.
Arguments Raise {A} e.

Definition rbind {A B} (r : result A) (f : A → result B) : result B :=
  match r with Ok a => f a | Raise e => Raise e end.

Definition rmap {A B} (f : A → B) (r : result A) : result B :=
  rbind r (λ a, Ok (f a)).

Fixpoint rmapM {A B} (f : A → result B) (l : list A) : result (list B) :=
  match l with
  | [] => Ok []
  | x :: l' => rbind (f x) (λ y, rbind (rmapM f l') (λ ys, Ok (y :: ys)))
  end.

(** A float, idealised: a rational or NaN. *)
Inductive pyfloat : Type :=
| FNum (q : Q)
| FNan.

(** A NumPy scalar. *)
Inductive scalar : Type :=
| SInt (z : Z)
| SFloat (x : pyfloat).

(** [str(i)] for a Python int. *)
Definition str_Z (z : Z) : string := NilZero.string_of_int (Z.to_int z).

(** The line feed, Python's ['\n']. *)
Definition nl_char : ascii := ascii_of_nat 10.
Definition nl : string := String nl_char "".
Definition comma_char : ascii := ascii_of_nat 44.

(** [sep.join(l)]. *)
Definition join (sep : string) (l : list string) : string := String.concat sep l.

(** [s.split(sep)] for a non-empty separator: the leftmost, non-overlapping
    occurrences of [sep] cut [s].  [skip] counts the characters of a
    separator that are still to be dropped, [cur] is the field being read. *)
Fixpoint split_go (sep : string) (skip : nat) (cur s : string) : list string :=
  match s with
  | "" => [cur]
  | String c s' =>
      match skip with
      | S k => split_go sep k cur s'
      | O =>
          if String.prefix sep s
          then cur :: split_go sep (String.length sep - 1) "" s'
          else split_go sep 0 (cur +:+ String c "") s'
      end
  end.

Definition split (sep s : string) : list string :=
  match sep with
  | "" => [s]
  | _ => split_go sep 0 "" s
  end.

(** The lines of a text, as [str.splitlines] gives them: a final line feed
    does not open a further, empty line. *)
Definition splitlines (s : string) : list string :=
  let ls := split nl s in
  match last ls with
  | Some "" => removelast ls
  | _ => ls
  end.

Definition is_digit (c : ascii) : bool :=
  let n := nat_of_ascii c in (48 <=? n)%nat && (n <=? 57)%nat.

Fixpoint parse_digits (acc : Z) (s : string) : option Z :=
  match s with
  | "" => Some acc
  | String c s' =>
      if is_digit c
      then parse_digits (10 * acc + Z.of_nat (nat_of_ascii c - 48)) s'
      else None
  end.

(** An integer literal: digits, with an optional minus sign. *)
Definition parse_int (s : string) : option Z :=
  match s with
  | "" => None
  | String c s' =>
      if Ascii.eqb c "-"
      then match s' with "" => None | _ => Z.opp <$> parse_digits 0 s' end
      else parse_digits 0 s
  end.

(** Characters of the text that Python prints for a number: digits, sign,
    point, exponent, and the letters of [inf] and [nan]. *)
Definition numeric_char (c : ascii) : bool :=
  is_digit c || bool_decide (c ∈ list_ascii_of_string "+-.einfa").

Fixpoint all_chars (p : ascii → bool) (s : string) : bool :=
  match s with
  | "" => true
  | String c s' => p c && all_chars p s'
  end.

(** A numeric CSV field: non-empty, numeric characters only. *)
Definition numeric_field (s : string) : bool :=
  negb (String.eqb s "") && all_chars numeric_char s.

End Py.
Export Py.

(* ===================================================================== *)
(** * The pandas fragment                                                 *)
(* ===================================================================== *)

Module Pandas.

(** A table cell: an integer, a text, or a missing value (NaN). *)
Inductive cell : Type :=
| VInt (z : Z)
| VStr (s : string)
| VNaN.

#[global] Instance cell_eq_dec : EqDecision cell.
Proof. solve_decision. Defined.

(** Element-wise [==]: NaN is different from everything, itself included. *)
Definition py_eqb (a b : cell) : bool :=
  match a, b with
  | VInt x, VInt y => bool_decide (x = y)
  | VStr s, VStr t => bool_decide (s = t)
  | _, _ => false
  end.

(** A DataFrame: column names, and rows that carry their index label. *)
Record frame : Type := Frame {
  columns : list string;
  rows : list (Z * list cell)
}.

(** A Series (one column with its labels), a boolean Series. *)
Definition series : Type := list (Z * cell).
Definition mask : Type := list (Z * bool).

Fixpoint index_of (c : string) (cols : list string) : option nat :=
  match cols with
  | [] => None
  | x :: cols' => if bool_decide (x = c) then Some 0%nat else S <$> index_of c cols'
  end.

(** A row is read through [field_at]: what is not there is missing. *)
Definition field_at (i : nat) (cells : list cell) : cell := default VNaN (cells !! i).

Definition pad (n : nat) (cells : list cell) : list cell :=
  take n (cells ++ replicate n VNaN)%list.

(** The cell of [row] under column [c]. *)
Definition cell_at (f : frame) (row : Z * list cell) (c : string) : option cell :=
  (λ i, field_at i row.2) <$> index_of c (columns f).

(** The values of column [c], when [f] has it. *)
Definition column_values (f : frame) (c : string) : option (list cell) :=
  (λ i, (λ row : Z * list cell, field_at i row.2) <$> rows f) <$> index_of c (columns f).

Definition reindex (rs : list (list cell)) : list (Z * list cell) :=
  imap (λ i cells, (Z.of_nat i, cells)) rs.

(** [df[c]] *)
Definition get_column (f : frame) (c : string) : result series :=
  match index_of c (columns f) with
  | Some i => Ok ((λ row : Z * list cell, (row.1, field_at i row.2)) <$> rows f)
  | None => Raise (KeyError c)
  end.

(** [s == v] *)
Definition series_eq (s : series) (v : cell) : mask :=
  (λ p : Z * cell, (p.1, py_eqb p.2 v)) <$> s.

Fixpoint select {A} (rs : list A) (bs : list bool) : list A :=
  match rs, bs with
  | r :: rs', b :: bs' => if b then r :: select rs' bs' else select rs' bs'
  | _, _ => []
  end.

(** [df.loc[m]] for a boolean Series [m] that carries the labels of [df],
    in the same order (the one case the helpers produce; pandas realigns a
    mask whose labels are permuted). *)
Definition loc_mask (f : frame) (m : mask) : result frame :=
  if bool_decide (m.*1 = (rows f).*1)
  then Ok (Frame (columns f) (select (rows f) m.*2))
  else Raise IndexingError.

(** [s.isin(values)]: membership of each value; NaN is in a collection
    that holds NaN. *)
Definition isin (s values : series) : mask :=
  (λ p : Z * cell, (p.1, bool_decide (p.2 ∈ values.*2))) <$> s.

(** [s.unique()]: the distinct values, in order of first appearance. *)
Fixpoint unique_from (seen l : list cell) : list cell :=
  match l with
  | [] => []
  | x :: l' =>
      if bool_decide (x ∈ seen) then unique_from seen l'
      else x :: unique_from (x :: seen) l'
  end.

Definition unique (s : series) : list cell := unique_from [] s.*2.

(** [sep.join(a)]: every item has to be a [str]. *)
Definition as_str (c : cell) : result string :=
  match c with VStr s => Ok s | _ => Raise TypeError end.

Definition join_cells (sep : string) (a : list cell) : result string :=
  rmap (join sep) (rmapM as_str a).

(** [df.size] *)
Definition size (f : frame) : Z := Z.of_nat (length (rows f) * length (columns f)).

(** An integer position, counted from the end when negative. *)
Definition position (n : nat) (p : cell) : result nat :=
  match p with
  | VInt z =>
      if bool_decide (0 ≤ z < Z.of_nat n)%Z then Ok (Z.to_nat z)
      else if bool_decide (- Z.of_nat n ≤ z < 0)%Z then Ok (Z.to_nat (Z.of_nat n + z))
      else Raise IndexError
  | _ => Raise IndexError
  end.

Definition row_at {A} (rs : list A) (p : cell) : result A :=
  rbind (position (length rs) p)
        (λ i, match rs !! i with Some r => Ok r | None => Raise IndexError end).

(** [df.iloc[ps, :]]: the rows at the listed positions, in the listed
    order, with their labels. *)
Definition iloc (f : frame) (ps : list cell) : result frame :=
  rmap (Frame (columns f)) (rmapM (row_at (rows f)) ps).

(** [l.merge(r, how='inner', on=key)]: for each row of [l], in order, the
    rows of [r] with the same key, in order; the columns of [l], then those
    of [r] but the key; a name that both sides have gets [_x] and [_y]; a
    fresh range index. *)
Definition merge_inner (l r : frame) (key : string) : result frame :=
  match index_of key (columns l), index_of key (columns r) with
  | Some kl, Some kr =>
      let lothers := delete kl (columns l) in
      let rothers := delete kr (columns r) in
      let lcols := (λ c, if bool_decide (c ≠ key ∧ c ∈ rothers) then c +:+ "_x" else c)
                     <$> columns l in
      let rcols := (λ c, if bool_decide (c ∈ lothers) then c +:+ "_y" else c)
                     <$> rothers in
      let nl := length (columns l) in
      let nr := length (columns r) in
      let joined :=
        lrow ← rows l;
        rrow ← filter (λ rrow : Z * list cell,
                         field_at kr rrow.2 = field_at kl lrow.2) (rows r);
        [(pad nl lrow.2 ++ delete kr (pad nr rrow.2))%list] in
      Ok (Frame (lcols ++ rcols)%list (reindex joined))
  | _, _ => Raise (KeyError key)
  end.

(** ** Reading a CSV file *)

(** The arguments of [pd.read_csv] that the helpers set.  [sep] is the
    text that the separator pattern matches: [","] by default, ["||"] for
    the pattern ["\|\|"] (which only the Python engine accepts, hence
    [engine="python"] in the source). *)
Record csv_opts : Type := CsvOpts {
  sep : string;
  skiprows : nat;
  names : option (list string)
}.

Definition typed_cell (int_col : bool) (s : string) : cell :=
  if int_col
  then match parse_int s with Some z => VInt z | None => VNaN end
  else if bool_decide (s = "") then VNaN else VStr s.

Definition raw_field (j : nat) (rec : list string) : string := default "" (rec !! j).

(** A column is an integer column when every record has an integer there. *)
Definition int_columns (ncols : nat) (recs : list (list string)) : list bool :=
  (λ j, forallb (λ rec, bool_decide (is_Some (parse_int (raw_field j rec)))) recs)
    <$> seq 0 ncols.

Definition typed_row (flags : list bool) (rec : list string) : list cell :=
  imap (λ j b, typed_cell b (raw_field j rec)) flags.

(** Records shorter than the header are completed with missing values; a
    longer one is an error. *)
Definition build_frame (cols : list string) (recs : list (list string)) : result frame :=
  if forallb (λ rec, length rec <=? length cols)%nat recs
  then Ok (Frame cols (reindex (typed_row (int_columns (length cols) recs) <$> recs)))
  else Raise ParserError.

(** [pd.read_csv] on the text of a file: the first [skiprows] lines are
    dropped, then blank lines; without [names] the first remaining line is
    the header. *)
Definition parse_csv (o : csv_opts) (content : string) : result frame :=
  let ls := filter (λ l, l ≠ "") (drop (skiprows o) (splitlines content)) in
  let recs := split (sep o) <$> ls in
  match names o with
  | Some ns => build_frame ns recs
  | None =>
      match recs with
      | [] => Raise EmptyDataError
      | header :: body => build_frame header body
      end
  end.

End Pandas.
Export Pandas.

(* ===================================================================== *)
(** * Library calls, the world, and their meaning                         *)
(* ===================================================================== *)

Module Lib.

(** A reference to a Python object. *)
Definition loc : Type := positive.

(** An argument of a library call that is not modelled further. *)
#[local] Unset Elimination Schemes.
Inductive pyval : Type :=
| PNone
| PInt (z : Z)
| PFloat (x : pyfloat)
| PStr (s : string)
| PRef (l : loc)
| PList (items : list pyval).
#[local] Set Elimination Schemes.

(** What such a call returns. *)
Inductive rty : Type := TUnit | TInt | TFloat | TStr | TRef | TRef3.

Definition rden (t : rty) : Type :=
  match t with
  | TUnit => unit
  | TInt => Z
  | TFloat => pyfloat
  | TStr => string
  | TRef => loc
  | TRef3 => loc * loc * loc
  end.

(** The library calls of [helpers.py]; [call X] returns an [X]. *)
Inductive call : Type → Type :=
(* builtins *)
| Import (module : string) : call unit
| Print (s : string) : call unit
| Open (path mode : string) : call loc
| Write (f : loc) (s : string) : call unit
| Close (f : loc) : call unit
| Str (x : scalar) : call string
(* pandas *)
| ReadCsv (path : string) (o : csv_opts) : call loc
| GetItem (df : loc) (c : string) : call loc
| GetAttr (df : loc) (c : string) : call loc
| SeriesEq (s : loc) (v : cell) : call loc
| LocMask (df m : loc) : call loc
| IsIn (s values : loc) : call loc
| Unique (s : loc) : call loc
| Join (sep : string) (a : loc) : call string
| Size (df : loc) : call Z
| ToList (s : loc) : call (list cell)
| ILoc (df : loc) (ps : list cell) : call loc
| MergeInner (l r : loc) (key : string) : call loc
(* NumPy *)
| Shape (a : loc) (axis : nat) : call Z
| Item2 (a : loc) (i j : Z) : call scalar
| NpMean (values : list pyfloat) : call pyfloat
(* scikit-learn *)
| TrainTestSplit (X y : loc) (test_size : Q) (random_state : option Z)
                 (stratify : loc) : call (loc * loc * loc * loc)
| KFoldSplit (k_fold X : loc) : call (list (loc * loc))
| LogLoss (y_true y_prob : loc) : call pyfloat
(* everything else: scikit-learn estimators, NumPy array algebra,
   matplotlib, by the name of the callee *)
| Foreign (callee : string) (args : list pyval)
          (kwargs : list (string * pyval)) (t : rty) : call (rden t).

(** A two-dimensional NumPy array: total on its shape. *)
Record matrix : Type := Matrix {
  shape0 : nat;
  shape1 : nat;
  item : nat → nat → scalar
}.

(** Python objects on the heap. *)
Inductive obj : Type :=
| OFrame (f : frame)
| OSeries (s : series)
| OMask (m : mask)
| OArray (a : list cell)
| OMatrix (m : matrix)
| OFile (path : string) (closed : bool)
| OForeign (kind : string) (state : list Z).

(** State of NumPy's global random generator. *)
Definition rng : Type := Z.

Record world : Type := World {
  heap : gmap loc obj;
  fs : gmap string string;
  stdout : list string;
  np_random : rng
}.

Definition M (A : Type) : Type := world → result (A * world).

Definition handler : Type := ∀ X, call X → M X.

(** ** Programs: sequences of library calls *)

Inductive prog (A : Type) : Type :=
| Ret (a : A)
| Do {X : Type} (c : call X) (k : X → prog A).
Arguments Ret {A} a.
Arguments Do {A X} c k.

Fixpoint pbind {A B} (p : prog A) (f : A → prog B) : prog B :=
  match p with
  | Ret a => f a
  | Do c k => Do c (λ x, pbind (k x) f)
  end.

#[global] Instance prog_ret : MRet prog := @Ret.
#[global] Instance prog_bind : MBind prog := λ A B f p, pbind p f.

Definition perform {X} (c : call X) : prog X := Do c Ret.

(** [for x in l: body x] *)
Fixpoint for_each {A} (l : list A) (body : A → prog unit) : prog unit :=
  match l with
  | [] => Ret tt
  | x :: l' => pbind (body x) (λ _, for_each l' body)
  end.

(** A loop that carries a local variable [s]. *)
Fixpoint for_fold {A S} (l : list A) (s : S) (body : S → A → prog S) : prog S :=
  match l with
  | [] => Ret s
  | x :: l' => pbind (body s x) (λ s', for_fold l' s' body)
  end.

(** [range(n)] *)
Definition range (n : Z) : list Z := Z.of_nat <$> seq 0 (Z.to_nat n).

Fixpoint run {A} (h : handler) (p : prog A) (w : world) : result (A * world) :=
  match p with
  | Ret a => Ok (a, w)
  | Do c k =>
      match h _ c w with
      | Ok (x, w') => run h (k x) w'
      | Raise e => Raise e
      end
  end.

(** ** The meaning of the calls *)

(** What the model takes as given: how a float prints, how scikit-learn
    draws a stratified split from a generator state, how a generator is
    seeded, and the calls that are not modelled. *)
Record externals : Type := Externals {
  float_str : pyfloat → string;
  seed_rng : Z → rng;
  shuffle_split : rng → nat → Q → list cell → result (list Z * list Z) * rng;
  foreign : handler
}.

Definition ret_ {A} (a : A) : M A := λ w, Ok (a, w).
Definition raise_ {A} (e : exn) : M A := λ _, Raise e.
Definition bind_ {A B} (m : M A) (f : A → M B) : M B :=
  λ w, match m w with Ok (a, w') => f a w' | Raise e => Raise e end.
Definition lift_ {A} (r : result A) : M A :=
  λ w, match r with Ok a => Ok (a, w) | Raise e => Raise e end.

Definition set_heap (h : gmap loc obj) (w : world) : world :=
  World h (fs w) (stdout w) (np_random w).
Definition set_fs (f : gmap string string) (w : world) : world :=
  World (heap w) f (stdout w) (np_random w).
Definition set_stdout (o : list string) (w : world) : world :=
  World (heap w) (fs w) o (np_random w).
Definition set_np_random (r : rng) (w : world) : world :=
  World (heap w) (fs w) (stdout w) r.

(** A new object gets a reference that is not in use. *)
Definition alloc (o : obj) : M loc :=
  λ w, let l := fresh (dom (heap w)) in Ok (l, set_heap (<[l:=o]> (heap w)) w).

Definition the_frame (l : loc) : M frame :=
  λ w, match heap w !! l with Some (OFrame f) => Ok (f, w) | _ => Raise TypeError end.
Definition the_series (l : loc) : M series :=
  λ w, match heap w !! l with Some (OSeries s) => Ok (s, w) | _ => Raise TypeError end.
Definition the_mask (l : loc) : M mask :=
  λ w, match heap w !! l with Some (OMask m) => Ok (m, w) | _ => Raise TypeError end.
Definition the_array (l : loc) : M (list cell) :=
  λ w, match heap w !! l with Some (OArray a) => Ok (a, w) | _ => Raise TypeError end.

Definition read_file (path : string) : M string :=
  λ w, match fs w !! path with
       | Some content => Ok (content, w)
       | None => Raise (FileNotFoundError path)
       end.

(** [np.mean] of a Python list of floats: NaN for the empty list (NumPy
    warns and returns NaN) and when an item is NaN. *)
Definition the_num (x : pyfloat) : option Q :=
  match x with FNum q => Some q | FNan => None end.

Definition np_mean (values : list pyfloat) : pyfloat :=
  match values, mapM the_num values with
  | _ :: _, Some qs => FNum (foldr Qplus 0%Q qs / inject_Z (Z.of_nat (length qs)))
  | _, _ => FNan
  end.

Definition shape_of (o : obj) (axis : nat) : result Z :=
  match o, axis with
  | OArray a, 0%nat => Ok (Z.of_nat (length a))
  | OSeries s, 0%nat => Ok (Z.of_nat (length s))
  | OMatrix m, 0%nat => Ok (Z.of_nat (shape0 m))
  | OMatrix m, 1%nat => Ok (Z.of_nat (shape1 m))
  | OFrame f, 0%nat => Ok (Z.of_nat (length (rows f)))
  | OFrame f, 1%nat => Ok (Z.of_nat (length (columns f)))
  | (OArray _ | OSeries _ | OMatrix _ | OFrame _), _ => Raise IndexError
  | _, _ => Raise (AttributeError "shape")
  end.

(** [str(x)] for a NumPy scalar. *)
Definition str_scalar (E : externals) (x : scalar) : string :=
  match x with SInt z => str_Z z | SFloat v => float_str E v end.

Definition item2 (m : matrix) (i j : Z) : result scalar :=
  rbind (position (shape0 m) (VInt i)) (λ i',
  rbind (position (shape1 m) (VInt j)) (λ j',
  Ok (item m i' j'))).

(** The four tables of [train_test_split]: with the two tables of equal
    length, scikit-learn draws the positions of the training part and of
    the test part from the generator [g], and takes the rows of both tables
    at these positions with [iloc]. *)
Definition split_frames (E : externals) (g : rng) (test_size : Q) (fX fy : frame)
    (strata : list cell) : result (frame * frame * frame * frame) * rng :=
  if negb (length (rows fX) =? length (rows fy))%nat then (Raise ValueError, g) else
  let '(drawn, g') := shuffle_split E g (length (rows fX)) test_size strata in
  (rbind drawn (λ '(train, test),
   rbind (iloc fX (VInt <$> train)) (λ X_train,
   rbind (iloc fX (VInt <$> test)) (λ X_test,
   rbind (iloc fy (VInt <$> train)) (λ y_train,
   rbind (iloc fy (VInt <$> test)) (λ y_test,
   Ok (X_train, X_test, y_train, y_test)))))), g').

(** [train_test_split(X, y, test_size, random_state, stratify)] on two
    DataFrames: the generator is the one seeded with [random_state] when it
    is given, and NumPy's global one, which the draw advances, otherwise. *)
Definition train_test_split_ (E : externals) (X y : loc) (test_size : Q)
    (random_state : option Z) (stratify : loc) : M (loc * loc * loc * loc) :=
  bind_ (the_frame X) (λ fX,
  bind_ (the_frame y) (λ fy,
  bind_ (the_series stratify) (λ strata,
  λ w,
    let g := match random_state with Some s => seed_rng E s | None => np_random w end in
    let '(parts, g') := split_frames E g test_size fX fy strata.*2 in
    let w1 := match random_state with Some _ => w | None => set_np_random g' w end in
    match parts with
    | Raise e => Raise e
    | Ok (X_train, X_test, y_train, y_test) =>
        bind_ (alloc (OFrame X_train)) (λ a,
        bind_ (alloc (OFrame X_test)) (λ b,
        bind_ (alloc (OFrame y_train)) (λ c,
        bind_ (alloc (OFrame y_test)) (λ d,
        ret_ (a, b, c, d))))) w1
    end))).

(** The handler: the modelled calls on the world, the others through
    [foreign]. *)
Definition pandas (E : externals) : handler :=
  λ X c,
    match c in call X return M X with
    | Import _ => ret_ tt
    | Print s => λ w, Ok (tt, set_stdout (stdout w ++ [s])%list w)
    | Open path mode =>
        if bool_decide (mode = "w" ∨ mode = "wt")
        then λ w, alloc (OFile path false) (set_fs (<[path:=""]> (fs w)) w)
        else foreign E _ (Open path mode)
    | Write f s =>
        λ w, match heap w !! f with
             | Some (OFile path false) =>
                 Ok (tt, set_fs (<[path := default "" (fs w !! path) +:+ s]> (fs w)) w)
             | Some (OFile _ true) => Raise ValueError
             | _ => Raise (AttributeError "write")
             end
    | Close f =>
        λ w, match heap w !! f with
             | Some (OFile path _) => Ok (tt, set_heap (<[f := OFile path true]> (heap w)) w)
             | _ => Raise (AttributeError "close")
             end
    | Str x => ret_ (str_scalar E x)
    | ReadCsv path o =>
        bind_ (read_file path) (λ content,
        bind_ (lift_ (parse_csv o content)) (λ f, alloc (OFrame f)))
    | GetItem df c =>
        bind_ (the_frame df) (λ f,
        bind_ (lift_ (get_column f c)) (λ s, alloc (OSeries s)))
    | GetAttr df c =>
        bind_ (the_frame df) (λ f,
        match get_column f c with
        | Ok s => alloc (OSeries s)
        | Raise _ => raise_ (AttributeError c)
        end)
    | SeriesEq s v => bind_ (the_series s) (λ s', alloc (OMask (series_eq s' v)))
    | LocMask df m =>
        bind_ (the_frame df) (λ f,
        bind_ (the_mask m) (λ m',
        bind_ (lift_ (loc_mask f m')) (λ f', alloc (OFrame f'))))
    | IsIn s values =>
        bind_ (the_series s) (λ s',
        bind_ (the_series values) (λ vs, alloc (OMask (isin s' vs))))
    | Unique s => bind_ (the_series s) (λ s', alloc (OArray (unique s')))
    | Join sep a => bind_ (the_array a) (λ a', lift_ (join_cells sep a'))
    | Size df => bind_ (the_frame df) (λ f, ret_ (size f))
    | ToList s => bind_ (the_series s) (λ s', ret_ s'.*2)
    | ILoc df ps =>
        bind_ (the_frame df) (λ f,
        bind_ (lift_ (iloc f ps)) (λ f', alloc (OFrame f')))
    | MergeInner l r key =>
        bind_ (the_frame l) (λ fl,
        bind_ (the_frame r) (λ fr,
        bind_ (lift_ (merge_inner fl fr key)) (λ f, alloc (OFrame f))))
    | Shape a axis =>
        λ w, match heap w !! a with
             | Some o => lift_ (shape_of o axis) w
             | None => Raise TypeError
             end
    | Item2 a i j =>
        λ w, match heap w !! a with
             | Some (OMatrix m) => lift_ (item2 m i j) w
             | _ => Raise TypeError
             end
    | NpMean values => ret_ (np_mean values)
    | TrainTestSplit X y test_size random_state stratify =>
        train_test_split_ E X y test_size random_state stratify
    | KFoldSplit k_fold X => foreign E _ (KFoldSplit k_fold X)
    | LogLoss y_true y_prob => foreign E _ (LogLoss y_true y_prob)
    | Foreign callee args kwargs t => foreign E _ (Foreign callee args kwargs t)
    end.

End Lib.
Export Lib.

(* ===================================================================== *)
(** * helpers.py                                                          *)
(* ===================================================================== *)

Module Helpers.

Notation "'call!' c" := (perform c) (at level 10, c at level 9, only parsing).

(** [pd.read_csv(path)] *)
Definition csv_default : csv_opts := CsvOpts "," 0 None.

(** [pd.read_csv(path, sep="\|\|", engine="python", skiprows=1,
    names=["ID", "Text"])] *)
Definition csv_text : csv_opts := CsvOpts "||" 1 (Some ["ID"; "Text"]).

(** [pd.read_csv(path, names=['ID','ID2'])] *)
Definition csv_index : csv_opts := CsvOpts "," 0 (Some ["ID"; "ID2"]).

(** [get_unique_text(variants_df, text_df, cls, save=None,
    suppress_output=True)] *)
Definition get_unique_text (variants_df text_df : loc) (cls : Z)
    (save : option string) (suppress_output : bool) : prog string :=
  class_col ← call! (GetItem variants_df "Class");
  is_cls ← call! (SeriesEq class_col (VInt cls));
  matching_rows ← call! (LocMask variants_df is_cls);
  matching_ids_df ← call! (GetItem matching_rows "ID");
  id_col ← call! (GetItem text_df "ID");
  is_match ← call! (IsIn id_col matching_ids_df);
  class_text_df ← call! (LocMask text_df is_match);
  text_col ← call! (GetItem class_text_df "Text");
  unique_text ← call! (Unique text_col);
  unique_text_string ← call! (Join nl unique_text);
  _ ← (if negb suppress_output then
         cls_size ← call! (Size class_text_df);
         unique_size ← call! (Shape unique_text 0);
         _ ← call! (Print ("Number of entries in class " +:+ str_Z cls +:+ ": "
                           +:+ str_Z cls_size));
         call! (Print ("Number of unique texts: " +:+ str_Z unique_size))
       else mret tt);
  _ ← match save with
      | Some path =>
          _ ← call! (Print ("Saving to file: " +:+ path));
          f ← call! (Open path "wt");
          _ ← call! (Write f unique_text_string);
          call! (Close f)
      | None => mret tt
      end;
  mret unique_text_string.

(** [get_number_instances(docs, vocabulary)] *)
Definition get_number_instances (docs vocabulary : list string) : prog loc :=
  cv ← call! (Foreign "CountVectorizer" []
                [("vocabulary", PList (PStr <$> vocabulary))] TRef);
  counts ← call! (Foreign "fit_transform" [PRef cv; PList (PStr <$> docs)] [] TRef);
  x ← call! (Foreign "toarray" [PRef counts] [] TRef);
  mret x.

(** [train_test_split(train_variation_file, train_text_file)] *)
Definition train_test_split (train_variation_file train_text_file : string)
    : prog (loc * loc * loc * loc) :=
  _ ← call! (Import "sklearn.model_selection");
  _ ← call! (Import "pandas");
  y ← call! (ReadCsv train_variation_file csv_default);
  X ← call! (ReadCsv train_text_file csv_text);
  y_Class ← call! (GetAttr y "Class");
  '(X_train, X_test, y_train, y_test) ←
    call! (TrainTestSplit X y (1 # 5) (Some 42%Z) y_Class);
  mret (X_train, X_test, y_train, y_test).

(** The dictionaries [fpr], [tpr] and [roc_auc] of [plot_roc_curve] have
    the keys [0 .. n_classes-1], ["micro"] and ["macro"]: the entries of the
    classes are kept as a list, in class order. *)
Record roc_entry : Type := RocEntry { e_fpr : loc; e_tpr : loc; e_auc : pyfloat }.

Definition colors : list string := ["aqua"; "darkorange"; "cornflowerblue"].

(** [plot_roc_curve(y_test, y_score)] *)
Definition plot_roc_curve (y_test y_score : loc) : prog unit :=
  _ ← call! (Import "numpy");
  _ ← call! (Import "matplotlib.pyplot");
  _ ← call! (Import "itertools");
  _ ← call! (Import "sklearn.metrics");
  _ ← call! (Import "scipy");
  n_classes ← call! (Shape y_test 1);
  per_class ← for_fold (range n_classes) [] (λ entries i,
    t_i ← call! (Foreign "getitem[:, i]" [PRef y_test; PInt i] [] TRef);
    s_i ← call! (Foreign "getitem[:, i]" [PRef y_score; PInt i] [] TRef);
    '(fpr_i, tpr_i, _) ← call! (Foreign "roc_curve" [PRef t_i; PRef s_i] [] TRef3);
    auc_i ← call! (Foreign "auc" [PRef fpr_i; PRef tpr_i] [] TFloat);
    mret (entries ++ [RocEntry fpr_i tpr_i auc_i])%list);
  t_all ← call! (Foreign "ravel" [PRef y_test] [] TRef);
  s_all ← call! (Foreign "ravel" [PRef y_score] [] TRef);
  '(fpr_micro, tpr_micro, _) ←
    call! (Foreign "roc_curve" [PRef t_all; PRef s_all] [] TRef3);
  auc_micro ← call! (Foreign "auc" [PRef fpr_micro; PRef tpr_micro] [] TFloat);
  cat ← call! (Foreign "np.concatenate"
                 [PList ((λ e, PRef (e_fpr e)) <$> per_class)] [] TRef);
  all_fpr ← call! (Foreign "np.unique" [PRef cat] [] TRef);
  zeros ← call! (Foreign "np.zeros_like" [PRef all_fpr] [] TRef);
  summed ← for_fold per_class zeros (λ mean_tpr e,
    y_i ← call! (Foreign "interp" [PRef all_fpr; PRef (e_fpr e); PRef (e_tpr e)] [] TRef);
    call! (Foreign "__iadd__" [PRef mean_tpr; PRef y_i] [] TRef));
  mean_tpr ← call! (Foreign "__itruediv__" [PRef summed; PInt n_classes] [] TRef);
  let fpr_macro := all_fpr in
  let tpr_macro := mean_tpr in
  auc_macro ← call! (Foreign "auc" [PRef fpr_macro; PRef tpr_macro] [] TFloat);
  _ ← call! (Foreign "plt.figure" [] [] TUnit);
  label_micro ← call! (Foreign "format"
    [PStr "micro-average ROC curve (area = {0:0.2f})"; PFloat auc_micro] [] TStr);
  _ ← call! (Foreign "plt.plot" [PRef fpr_micro; PRef tpr_micro]
               [("label", PStr label_micro); ("color", PStr "deeppink");
                ("linestyle", PStr ":"); ("linewidth", PInt 4)] TUnit);
  label_macro ← call! (Foreign "format"
    [PStr "macro-average ROC curve (area = {0:0.2f})"; PFloat auc_macro] [] TStr);
  _ ← call! (Foreign "plt.plot" [PRef fpr_macro; PRef tpr_macro]
               [("label", PStr label_macro); ("color", PStr "navy");
                ("linestyle", PStr ":"); ("linewidth", PInt 4)] TUnit);
  let lw := 2%Z in
  _ ← for_each (zip (range n_classes) per_class) (λ '(i, e),
    let color := default "" (colors !! (Z.to_nat i mod 3)%nat) in
    label_i ← call! (Foreign "format"
      [PStr "ROC curve of class {0} (area = {1:0.2f})"; PInt i; PFloat (e_auc e)]
      [] TStr);
    call! (Foreign "plt.plot" [PRef (e_fpr e); PRef (e_tpr e)]
             [("color", PStr color); ("lw", PInt lw); ("label", PStr label_i)] TUnit));
  _ ← call! (Foreign "plt.plot" [PList [PInt 0; PInt 1]; PList [PInt 0; PInt 1]; PStr "k--"]
               [("lw", PInt lw)] TUnit);
  _ ← call! (Foreign "plt.xlim" [PList [PFloat (FNum 0); PFloat (FNum 1)]] [] TUnit);
  _ ← call! (Foreign "plt.ylim" [PList [PFloat (FNum 0); PFloat (FNum (21 # 20))]] [] TUnit);
  _ ← call! (Foreign "plt.xlabel" [PStr "False Positive Rate"] [] TUnit);
  _ ← call! (Foreign "plt.ylabel" [PStr "True Positive Rate"] [] TUnit);
  _ ← call! (Foreign "plt.title"
               [PStr "Some extension of Receiver operating characteristic to multi-class"]
               [] TUnit);
  _ ← call! (Foreign "plt.legend" [] [("loc", PStr "lower right")] TUnit);
  call! (Foreign "plt.show" [] [] TUnit).

(** [get_training(train_variation_file, train_text_file)] *)
Definition get_training (train_variation_file train_text_file : string)
    : prog (loc * loc) :=
  _ ← call! (Import "pandas");
  index_df ← call! (ReadCsv "./train_index" csv_index);
  index_col ← call! (GetItem index_df "ID");
  train ← call! (ToList index_col);
  y ← call! (ReadCsv train_variation_file csv_default);
  X ← call! (ReadCsv train_text_file csv_text);
  X_part ← call! (ILoc X train);
  y_part ← call! (ILoc y train);
  mret (X_part, y_part).

(** [get_test(train_variation_file, train_text_file)] *)
Definition get_test (train_variation_file train_text_file : string)
    : prog (loc * loc) :=
  _ ← call! (Import "pandas");
  index_df ← call! (ReadCsv "./test_index" csv_index);
  index_col ← call! (GetItem index_df "ID");
  test ← call! (ToList index_col);
  y ← call! (ReadCsv train_variation_file csv_default);
  X ← call! (ReadCsv train_text_file csv_text);
  X_part ← call! (ILoc X test);
  y_part ← call! (ILoc y test);
  mret (X_part, y_part).

(** [kfold_score(clf, X, y, splits=3)] *)
Definition kfold_score (clf X y : loc) (splits : Z) : prog pyfloat :=
  lb ← call! (Foreign "LabelBinarizer" [] [] TRef);
  _ ← call! (Foreign "LabelBinarizer.fit" [PRef lb; PRef y] [] TRef);
  k_fold ← call! (Foreign "KFold" [] [("n_splits", PInt splits)] TRef);
  folds ← call! (KFoldSplit k_fold X);
  values ← for_fold folds [] (λ values '(train, test),
    X_train ← call! (Foreign "getitem" [PRef X; PRef train] [] TRef);
    y_train ← call! (Foreign "getitem" [PRef y; PRef train] [] TRef);
    _ ← call! (Foreign "fit" [PRef clf; PRef X_train; PRef y_train] [] TRef);
    X_test ← call! (Foreign "getitem" [PRef X; PRef test] [] TRef);
    y_test_prob ← call! (Foreign "predict_proba" [PRef clf; PRef X_test] [] TRef);
    y_test ← call! (Foreign "getitem" [PRef y; PRef test] [] TRef);
    y_true ← call! (Foreign "LabelBinarizer.transform" [PRef lb; PRef y_test] [] TRef);
    loss ← call! (LogLoss y_true y_test_prob);
    mret (values ++ [loss])%list);
  call! (NpMean values).

Definition header_line : string :=
  "ID,class1,class2,class3,class4,class5,class6,class7,class8,class9".

(** [submission(filename, prob_matrix)] *)
Definition submission (filename : string) (prob_matrix : loc) : prog unit :=
  f ← call! (Open filename "w");
  _ ← call! (Write f (header_line +:+ nl));
  n_sample ← call! (Shape prob_matrix 0);
  _ ← for_each (range n_sample) (λ i,
    _ ← call! (Write f (str_Z i +:+ ","));
    n_class ← call! (Shape prob_matrix 1);
    _ ← for_each (range n_class) (λ j,
      p ← call! (Item2 prob_matrix i j);
      s ← call! (Str p);
      _ ← call! (Write f s);
      if bool_decide (j < 8)%Z then call! (Write f ",") else mret tt);
    call! (Write f nl));
  call! (Close f).

(** [get_full_table(variants_file, text_file)] *)
Definition get_full_table (variants_file text_file : string) : prog loc :=
  variants ← call! (ReadCsv variants_file csv_default);
  text ← call! (ReadCsv text_file csv_text);
  data_full ← call! (MergeInner variants text "ID");
  mret data_full.

End Helpers.
Export Helpers.

(* ===================================================================== *)
(** * Notions used to state the properties                                *)
(* ===================================================================== *)

(** ** Texts *)

(** [free_of c s]: the character [c] does not occur in [s]. *)
Definition free_of (c : ascii) : string → bool := all_chars (λ x, negb (Ascii.eqb x c)).

(** The text made of the given lines, each closed by a line feed. *)
Definition unlines (ls : list string) : string :=
  foldr (λ l rest, l +:+ String nl_char rest) "" ls.

Definition concat_str (l : list string) : string := foldr String.append "" l.

(** ** Numerals *)

(** What is left of [s] after its leading digits; [digits_then s] asks for
    one digit at least. *)
Fixpoint skip_digits (s : string) : string :=
  match s with
  | String c s' => if is_digit c then skip_digits s' else s
  | "" => ""
  end.

Definition digits_then (s : string) : option string :=
  match s with
  | String c s' => if is_digit c then Some (skip_digits s') else None
  | "" => None
  end.

(** An exponent, or nothing: [e], an optional sign, digits. *)
Definition exponent (s : string) : bool :=
  match s with
  | "" => true
  | String c ex =>
      Ascii.eqb c "e" &&
      match digits_then (match ex with
                         | String d ex' =>
                             if Ascii.eqb d "-" || Ascii.eqb d "+" then ex' else ex
                         | "" => ex
                         end) with
      | Some "" => true
      | _ => false
      end
  end.

(** An optional fraction (a point and digits), then an optional exponent. *)
Definition fraction (s : string) : bool :=
  match s with
  | String c frac =>
      if Ascii.eqb c "."
      then match digits_then frac with Some rest => exponent rest | None => false end
      else exponent s
  | "" => true
  end.

Definition unsigned_numeral (s : string) : bool :=
  match digits_then s with Some rest => fraction rest | None => false end.

(** A decimal numeral, as Python prints an integer or a finite float:
    an optional minus sign, digits, an optional fraction, an optional
    exponent ([7], [-3], [0.25], [1e-05], [2.5e+20]). *)
Definition numeral (s : string) : bool :=
  match s with
  | String c s' => if Ascii.eqb c "-" then unsigned_numeral s' else unsigned_numeral s
  | "" => false
  end.

(** ** The format of a submission file *)

(** The line ends in nine comma-separated numeric fields: it has ten
    comma-separated fields or more (the ID comes first), and the last nine
    are numerals. *)
Definition nine_numeric_fields (line : string) : bool :=
  let fields := split "," line in
  (10 <=? length fields)%nat && forallb numeral (drop (length fields - 9) fields).

(** One header line, then one data line per sample, each ending in nine
    numeric fields. *)
Definition well_formed_submission (n_sample : nat) (content : string) : bool :=
  match splitlines content with
  | first :: data =>
      bool_decide (first = header_line) && (length data =? n_sample)%nat
      && forallb nine_numeric_fields data
  | [] => false
  end.

(** ** What [submission] writes *)

(** The text written for the cell in row [i], column [j]: the number, and a
    comma after each of the first eight columns. *)
Definition cell_text (E : externals) (M : matrix) (i j : nat) : string :=
  str_scalar E (item M i j) +:+ (if bool_decide (Z.of_nat j < 8)%Z then "," else "").

(** The data line of row [i], without its line feed. *)
Definition row_text (E : externals) (M : matrix) (i : nat) : string :=
  str_Z (Z.of_nat i) +:+ "," +:+ concat_str (cell_text E M i <$> seq 0 (shape1 M)).

(** The whole file. *)
Definition submission_text (E : externals) (M : matrix) : string :=
  unlines (header_line :: (row_text E M <$> seq 0 (shape0 M))).

(** The file [f], open on [path] with [acc] written so far, and the matrix
    [M] at [m]. *)
Definition writing (f : loc) (path : string) (m : loc) (M : matrix) (acc : string)
    (w : world) : Prop :=
  heap w !! f = Some (OFile path false) ∧
  heap w !! m = Some (OMatrix M) ∧
  fs w !! path = Some acc.

(** ** What [get_unique_text] joins *)

(** The texts that [get_unique_text] joins, as a function of the two
    tables. *)
Definition class_texts (V T : frame) (cls : Z) : result (list cell) :=
  rbind (get_column V "Class") (λ class_col,
  rbind (loc_mask V (series_eq class_col (VInt cls))) (λ matching_rows,
  rbind (get_column matching_rows "ID") (λ matching_ids,
  rbind (get_column T "ID") (λ id_col,
  rbind (loc_mask T (isin id_col matching_ids)) (λ class_text,
  rbind (get_column class_text "Text") (λ text_col,
  Ok (unique text_col))))))).

(** ** The two input tables, as the interface describes them *)

(** "A comma-separated variants file": the first line names the columns,
    each further line is a record of comma-separated fields. *)
Definition comma_table (content : string) : result frame :=
  match filter (λ l, l ≠ "") (splitlines content) with
  | [] => Raise EmptyDataError
  | header :: records => build_frame (split "," header) (split "," <$> records)
  end.

(** "A double-pipe-delimited text file with an ID and Text column, header
    skipped": the first line is dropped, each further line is a record of
    fields separated by [||], and the columns are ID and Text. *)
Definition double_pipe_table (content : string) : result frame :=
  build_frame ["ID"; "Text"]
    (split "||" <$> filter (λ l, l ≠ "") (drop 1 (splitlines content))).

(** The functions that load the two files. *)
Inductive loader : Type :=
| Load_train_test_split
| Load_get_training
| Load_get_test
| Load_get_full_table.

Definition loaded (l : loader) : Type :=
  match l with
  | Load_train_test_split => loc * loc * loc * loc
  | Load_get_training | Load_get_test => loc * loc
  | Load_get_full_table => loc
  end.

Definition load (l : loader) (variants_file text_file : string) : prog (loaded l) :=
  match l with
  | Load_train_test_split => train_test_split variants_file text_file
  | Load_get_training => get_training variants_file text_file
  | Load_get_test => get_test variants_file text_file
  | Load_get_full_table => get_full_table variants_file text_file
  end.

(** The two parts of the precomputed split, and their index files. *)
Inductive part : Type := Training | Test.

Definition index_file (p : part) : string :=
  match p with Training => "./train_index" | Test => "./test_index" end.

Definition get_part (p : part) : string → string → prog (loc * loc) :=
  match p with Training => get_training | Test => get_test end.

(** The rows of [rs] at the positions [ps], in the order of [ps]. *)
Definition rows_at {A} (rs : list A) (ps : list nat) : list A :=
  omap (λ p, rs !! p) ps.

(** ** What [train_test_split] returns *)

(** The four tables behind the four references that a call returned. *)
Definition frames_of (w : world) (r : loc * loc * loc * loc)
    : option (frame * frame * frame * frame) :=
  let '(a, b, c, d) := r in
  match heap w !! a, heap w !! b, heap w !! c, heap w !! d with
  | Some (OFrame fa), Some (OFrame fb), Some (OFrame fc), Some (OFrame fd) =>
      Some (fa, fb, fc, fd)
  | _, _, _, _ => None
  end.

Definition returned_frames (r : result ((loc * loc * loc * loc) * world))
    : result (option (frame * frame * frame * frame)) :=
  match r with
  | Ok (refs, w') => Ok (frames_of w' refs)
  | Raise e => Raise e
  end.

(** The same, as a function of what the two files hold. *)
Definition split_tables (E : externals) (variants_file text_file : string)
    (vc tc : option string) : result (frame * frame * frame * frame) :=
  match vc with
  | None => Raise (FileNotFoundError variants_file)
  | Some vc =>
      rbind (parse_csv csv_default vc) (λ y,
      match tc with
      | None => Raise (FileNotFoundError text_file)
      | Some tc =>
          rbind (parse_csv csv_text tc) (λ X,
          match get_column y "Class" with
          | Raise _ => Raise (AttributeError "Class")
          | Ok strata => (split_frames E (seed_rng E 42) (1 # 5) X y strata.*2).1
          end)
      end)
  end.

(** The calls that leave the files as they are. *)
Definition keeps_files {X} (c : call X) : bool :=
  match c with
  | Open _ _ | Write _ _ | KFoldSplit _ _ | LogLoss _ _ | Foreign _ _ _ _ => false
  | _ => true
  end.

(** The calls that the handler carries out itself and that leave every
    existing object as it is. *)
Definition table_call {X} (c : call X) : bool :=
  match c with
  | Open _ mode => bool_decide (mode = "w" ∨ mode = "wt")
  | Close _ | KFoldSplit _ _ | LogLoss _ _ | Foreign _ _ _ _ => false
  | _ => true
  end.

(** ** Calls of the helpers *)

(** A call of one of the nine functions, with its arguments. *)
Inductive invocation : Type :=
| Call_get_unique_text (variants_df text_df : loc) (cls : Z) (save : option string)
                       (suppress_output : bool)
| Call_get_number_instances (docs vocabulary : list string)
| Call_train_test_split (train_variation_file train_text_file : string)
| Call_plot_roc_curve (y_test y_score : loc)
| Call_get_training (train_variation_file train_text_file : string)
| Call_get_test (train_variation_file train_text_file : string)
| Call_kfold_score (clf X y : loc) (splits : Z)
| Call_submission (filename : string) (prob_matrix : loc)
| Call_get_full_table (variants_file text_file : string).

Definition returns (i : invocation) : Type :=
  match i with
  | Call_get_unique_text _ _ _ _ _ => string
  | Call_get_number_instances _ _ => loc
  | Call_train_test_split _ _ => loc * loc * loc * loc
  | Call_plot_roc_curve _ _ => unit
  | Call_get_training _ _ => loc * loc
  | Call_get_test _ _ => loc * loc
  | Call_kfold_score _ _ _ _ => pyfloat
  | Call_submission _ _ => unit
  | Call_get_full_table _ _ => loc
  end.

Definition body (i : invocation) : prog (returns i) :=
  match i with
  | Call_get_unique_text variants_df text_df cls save suppress_output =>
      get_unique_text variants_df text_df cls save suppress_output
  | Call_get_number_instances docs vocabulary => get_number_instances docs vocabulary
  | Call_train_test_split vf tf => train_test_split vf tf
  | Call_plot_roc_curve y_test y_score => plot_roc_curve y_test y_score
  | Call_get_training vf tf => get_training vf tf
  | Call_get_test vf tf => get_test vf tf
  | Call_kfold_score clf X y splits => kfold_score clf X y splits
  | Call_submission filename prob_matrix => submission filename prob_matrix
  | Call_get_full_table vf tf => get_full_table vf tf
  end.

(** A non-negative float: a number, not NaN. *)
Definition nonneg (v : pyfloat) : Prop :=
  match v with FNum q => (0 <= q)%Q | FNan => False end.

(** ** The calls of a run *)

(** A library call that has returned, with what it returned. *)
Record event : Type := Event {
  ev_type : Type;
  ev_call : call ev_type;
  ev_result : ev_type
}.

(** [calls h p w]: the library calls that return while [p] runs from [w]
    under [h], in order (up to the call that raises, if one does). *)
Fixpoint calls (h : handler) {A} (p : prog A) (w : world) : list event :=
  match p with
  | Ret _ => []
  | Do c k =>
      match h _ c w with
      | Ok (x, w1) => Event _ c x :: calls h (k x) w1
      | Raise _ => []
      end
  end.

(** The losses that the calls of [log_loss] returned, and the folds that
    the calls of [KFold.split] yielded. *)
Definition loss_of (ev : event) : list pyfloat :=
  match ev_call ev in call X return X → list pyfloat with
  | LogLoss _ _ => λ loss, [loss]
  | _ => λ _, []
  end (ev_result ev).

Definition folds_of (ev : event) : list (loc * loc) :=
  match ev_call ev in call X return X → list (loc * loc) with
  | KFoldSplit _ _ => λ folds, folds
  | _ => λ _, []
  end (ev_result ev).

Definition log_losses (t : list event) : list pyfloat := flat_map loss_of t.
Definition yielded_folds (t : list event) : list (loc * loc) := flat_map folds_of t.

(** The arithmetic mean of a list of rationals. *)
Definition mean (qs : list Q) : Q := foldr Qplus 0%Q qs / inject_Z (Z.of_nat (length qs)).

(** ** The failures of the libraries *)

(** [pd.read_csv(path, ...)], as a function of the files. *)
Definition read_table (w : world) (o : csv_opts) (path : string) : result frame :=
  match fs w !! path with
  | Some content => parse_csv o content
  | None => Raise (FileNotFoundError path)
  end.

(** The two tables of [get_training] and [get_test]: pandas reads the index
    file, then the two files, and takes the rows at the positions of the
    index from both tables. *)
Definition part_tables (w : world) (index_path variants_file text_file : string)
    : result (frame * frame) :=
  rbind (read_table w csv_index index_path) (λ index_df,
  rbind (get_column index_df "ID") (λ positions,
  rbind (read_table w csv_default variants_file) (λ y,
  rbind (read_table w csv_text text_file) (λ X,
  rbind (iloc X positions.*2) (λ X_part,
  rbind (iloc y positions.*2) (λ y_part,
  Ok (X_part, y_part))))))).

(** The table of [get_full_table]: pandas reads the two files and merges
    the tables. *)
Definition merged_table (w : world) (variants_file text_file : string) : result frame :=
  rbind (read_table w csv_default variants_file) (λ variants,
  rbind (read_table w csv_text text_file) (λ text,
  merge_inner variants text "ID")).

Definition outcome {A} (r : result A) : result unit := rmap (λ _, tt) r.

(** What pandas, NumPy and the splitter of scikit-learn make of the input
    of a helper, where it is their work alone: the tables of the loaders,
    the texts of [get_unique_text] on two DataFrames, the shape of the array
    given to [submission] (a matrix is written, an array of one dimension
    has no [shape[1]]) and to [plot_roc_curve].  [None] where the outcome
    is up to the parts of scikit-learn and matplotlib that are parameters. *)
Definition pandas_outcome (E : externals) (i : invocation) (w : world)
    : option (result unit) :=
  match i with
  | Call_get_unique_text variants_df text_df cls _ _ =>
      match heap w !! variants_df, heap w !! text_df with
      | Some (OFrame V), Some (OFrame T) =>
          Some (outcome (rbind (class_texts V T cls) (join_cells nl)))
      | _, _ => None
      end
  | Call_train_test_split vf tf =>
      Some (outcome (split_tables E vf tf (fs w !! vf) (fs w !! tf)))
  | Call_get_training vf tf => Some (outcome (part_tables w "./train_index" vf tf))
  | Call_get_test vf tf => Some (outcome (part_tables w "./test_index" vf tf))
  | Call_get_full_table vf tf => Some (outcome (merged_table w vf tf))
  | Call_submission _ prob_matrix =>
      match heap w !! prob_matrix with
      | Some (OMatrix _) => Some (Ok tt)
      | Some (OArray a) =>
          Some (if bool_decide (a = []) then Ok tt else outcome (shape_of (OArray a) 1))
      | _ => None
      end
  | Call_plot_roc_curve y_test _ =>
      match heap w !! y_test with
      | Some o =>
          match shape_of o 1 with
          | Raise e => Some (Raise e)
          | Ok _ => None
          end
      | None => None
      end
  | Call_get_number_instances _ _ | Call_kfold_score _ _ _ _ => None
  end.

(** The function of scikit-learn, NumPy or matplotlib that a call is a call
    of, for the calls that stand for these libraries as parameters. *)
Definition callee {X} (c : call X) : option string :=
  match c with
  | Foreign name _ _ _ => Some name
  | KFoldSplit _ _ => Some "KFold.split"
  | LogLoss _ _ => Some "log_loss"
  | _ => None
  end.

(** The functions of these libraries that a helper calls. *)
Definition library_functions (i : invocation) : list string :=
  match i with
  | Call_get_number_instances _ _ => ["CountVectorizer"; "fit_transform"; "toarray"]
  | Call_kfold_score _ _ _ _ =>
      ["LabelBinarizer"; "LabelBinarizer.fit"; "KFold"; "KFold.split"; "getitem"; "fit";
       "predict_proba"; "LabelBinarizer.transform"; "log_loss"]
  | Call_plot_roc_curve _ _ =>
      ["getitem[:, i]"; "roc_curve"; "auc"; "ravel"; "np.concatenate"; "np.unique";
       "np.zeros_like"; "interp"; "__iadd__"; "__itruediv__"; "plt.figure"; "format";
       "plt.plot"; "plt.xlim"; "plt.ylim"; "plt.xlabel"; "plt.ylabel"; "plt.title";
       "plt.legend"; "plt.show"]
  | _ => []
  end.

(** The library function [name] fails with [e] wherever it is called; the
    other library functions return. *)
Definition fails_in (E : externals) (name : string) (e : exn) : Prop :=
  ∀ X (c : call X) u, callee c = Some name → foreign E X c u = Raise e.

Definition others_return (E : externals) (name : string) : Prop :=
  ∀ X (c : call X) u other,
    callee c = Some other → other ≠ name → ∃ x u', foreign E X c u = Ok (x, u').

(** The loops of the helper have something to go through: [KFold.split]
    yields a fold (it yields two at least), the labels given to
    [plot_roc_curve] are a matrix with a column. *)
Definition loops_entered (E : externals) (i : invocation) (w : world) : Prop :=
  match i with
  | Call_kfold_score _ _ _ _ =>
      ∀ k_fold X u folds u',
        foreign E _ (KFoldSplit k_fold X) u = Ok (folds, u') → folds ≠ []
  | Call_plot_roc_curve y_test _ =>
      ∃ M, heap w !! y_test = Some (OMatrix M) ∧ (0 < shape1 M)%nat
  | _ => True
  end.

(** [library_fails E i w e]: on the input of the call [i], in the world
    [w], an underlying library call fails with [e].  Either pandas or NumPy
    fail on the input (a missing file, a malformed CSV, a missing column, a
    position out of range, tables or arrays of the wrong shape), or a
    function of scikit-learn or matplotlib that the helper calls fails. *)
Inductive library_fails (E : externals) (i : invocation) (w : world) : exn → Prop :=
| input_fails e :
    pandas_outcome E i w = Some (Raise e) → library_fails E i w e
| function_fails name e :
    name ∈ library_functions i → loops_entered E i w →
    fails_in E name e → others_return E name →
    library_fails E i w e.

(* ===================================================================== *)
(** * Sample data                                                         *)
(* ===================================================================== *)

Module Sample.

(** The two input files, in the format of the experiment; sample 13 has
    no text and sample 14 no variant. *)
Definition variants_csv : string :=
  unlines ["ID,Gene,Variation,Class";
           "10,FAM58A,Truncating Mutations,1";
           "11,CBL,W802*,2";
           "12,CBL,Q249E,2";
           "13,CBL,N454D,3"].

Definition text_csv : string :=
  unlines ["ID,Text";
           "10||Cyclin-dependent kinases";
           "11||Abstract Background";
           "12||Abstract Background";
           "14||Recent evidence"].

Definition train_index : string := unlines ["2"; "0"].
Definition test_index : string := unlines ["1"].

(** The tables that these files hold. *)
Definition variants_table : frame :=
  Frame ["ID"; "Gene"; "Variation"; "Class"]
    [(0, [VInt 10; VStr "FAM58A"; VStr "Truncating Mutations"; VInt 1]);
     (1, [VInt 11; VStr "CBL"; VStr "W802*"; VInt 2]);
     (2, [VInt 12; VStr "CBL"; VStr "Q249E"; VInt 2]);
     (3, [VInt 13; VStr "CBL"; VStr "N454D"; VInt 3])]%Z.

Definition text_table : frame :=
  Frame ["ID"; "Text"]
    [(0, [VInt 10; VStr "Cyclin-dependent kinases"]);
     (1, [VInt 11; VStr "Abstract Background"]);
     (2, [VInt 12; VStr "Abstract Background"]);
     (3, [VInt 14; VStr "Recent evidence"])]%Z.

Definition train_index_table : frame :=
  Frame ["ID"; "ID2"] [(0, [VInt 2; VNaN]); (1, [VInt 0; VNaN])]%Z.

(** A library in which the calls that are not modelled do nothing:
    [KFold] yields two folds, every loss is one half. *)
Definition stub_value (t : rty) : rden t :=
  match t with
  | TUnit => tt
  | TInt => 0%Z
  | TFloat => FNum 0
  | TStr => ""
  | TRef => 1%positive
  | TRef3 => (1%positive, 1%positive, 1%positive)
  end.

Definition stub : handler :=
  λ X c w,
    match c in call X return result (X * world) with
    | KFoldSplit _ _ => Ok ([(1%positive, 2%positive); (2%positive, 1%positive)], w)
    | LogLoss _ _ => Ok (FNum (1 # 2), w)
    | Foreign _ _ _ t => Ok (stub_value t, w)
    | _ => Raise (LibraryError "not available")
    end.

(** A printer of floats with one decimal digit, for numbers that are not
    negative. *)
Definition print_one_decimal (x : pyfloat) : string :=
  match x with
  | FNum q =>
      str_Z (Qnum q / Zpos (Qden q)) +:+ "." +:+
      str_Z ((10 * Qnum q / Zpos (Qden q)) mod 10)
  | FNan => "nan"
  end.

(** A split that takes the last fifth (rounded up, as [test_size] asks)
    as the test part, after a rotation by the state of the generator. *)
Definition rotate_split (g : rng) (n : nat) (test_size : Q) (strata : list cell)
    : result (list Z * list Z) * rng :=
  let n_test := Z.to_nat ((Qnum test_size * Z.of_nat n + Zpos (Qden test_size) - 1)
                          / Zpos (Qden test_size)) in
  let at_ (i : nat) : Z := Z.of_nat ((i + Z.to_nat (Z.abs g)) mod n) in
  (Ok (at_ <$> seq 0 (n - n_test), at_ <$> seq (n - n_test) n_test), (g + 1)%Z).

Definition E : externals := Externals print_one_decimal (λ seed, seed) rotate_split stub.

(** A world with the files and nothing else. *)
Definition files : world :=
  World ∅
    (list_to_map [("training_variants", variants_csv); ("training_text", text_csv);
                  ("./train_index", train_index); ("./test_index", test_index)])
    [] 0%Z.

(** The same files, later: more objects, more files, another state of the
    random generator. *)
Definition files_later : world :=
  World {[ 1%positive := OFrame text_table ]}
    (list_to_map [("notes.txt", "x"); ("training_variants", variants_csv);
                  ("training_text", text_csv)])
    ["done"] 7%Z.

(** A world with the two tables as objects 1 and 2. *)
Definition tables : world :=
  World (list_to_map [(1%positive, OFrame variants_table);
                      (2%positive, OFrame text_table)])
    ∅ [] 0%Z.

(** Two samples with nine equal probabilities each. *)
Definition uniform : matrix := Matrix 2 9 (λ _ _, SFloat (FNum (1 # 9))).

(** One sample of a three-class problem, classified with certainty. *)
Definition three_classes : matrix :=
  Matrix 1 3 (λ _ j, SInt (if (j =? 0)%nat then 1 else 0)).

(** One sample of a ten-class problem, with equal probabilities. *)
Definition ten_classes : matrix := Matrix 1 10 (λ _ _, SFloat (FNum (1 # 10))).

Definition with_matrix (M : matrix) : world :=
  World {[ 1%positive := OMatrix M ]} ∅ [] 0%Z.

End Sample.

(* ===================================================================== *)
(** * Further notions                                                     *)
(* ===================================================================== *)






(** A computation that has returned. *)
Definition finished {A} (r : result A) : Prop :=
  match r with Ok _ => True | Raise _ => False end.


(** ** More sample data *)

Module Cases.










(** A library in which the function [name] of scikit-learn or matplotlib
    raises [e] wherever it is called, and the other functions do nothing. *)
Definition failing (name : string) (e : exn) : handler :=
  λ X c w, if bool_decide (callee c = Some name) then Raise e else Sample.stub X c w.

Definition E_failing (name : string) (e : exn) : externals :=
  Externals Sample.print_one_decimal (λ seed, seed) Sample.rotate_split (failing name e).

End Cases.








(* ===================================================================== *)
(** * Running programs                                                    *)
(* ===================================================================== *)

Section running.
Context (h : handler).

Lemma run_bind {A B} (p : prog A) (f : A → prog B) (w : world) :
  run h (p ≫= f) w =
  match run h p w with
  | Ok (a, w1) => run h (f a) w1
  | Raise e => Raise e
  end.
Proof.
  revert w. induction p as [a | X c k IH]; intros w; [done |].
  change (run h (Do c k ≫= f) w) with
    (match h _ c w with
     | Ok (x, w1) => run h (k x ≫= f) w1
     | Raise e => Raise e
     end).
  simpl. destruct (h X c w) as [[x w1] | e]; [apply IH | done].
Qed.

Lemma run_perform {X} (c : call X) (w : world) : run h (perform c) w = h _ c w.
Proof. simpl. by destruct (h X c w) as [[x w1] | e]. Qed.

Lemma run_bind_Ok {A B} (p : prog A) (f : A → prog B) w b w' :
  run h (p ≫= f) w = Ok (b, w') ↔
  ∃ a w1, run h p w = Ok (a, w1) ∧ run h (f a) w1 = Ok (b, w').
Proof.
  rewrite run_bind. destruct (run h p w) as [[a w1] | e]; split.
  - eauto.
  - by intros (? & ? & [= -> ->] & ?).
  - done.
  - by intros (? & ? & ? & ?).
Qed.

Lemma run_for_each_nil {A} (body : A → prog unit) w :
  run h (for_each [] body) w = Ok (tt, w).
Proof. done. Qed.

Lemma run_for_each_cons {A} (x : A) l (body : A → prog unit) w :
  run h (for_each (x :: l) body) w =
  match run h (body x) w with
  | Ok (_, w1) => run h (for_each l body) w1
  | Raise e => Raise e
  end.
Proof. apply (run_bind (body x) (λ _, for_each l body)). Qed.

Lemma run_for_fold_cons {A S} (x : A) l (s : S) (body : S → A → prog S) w :
  run h (for_fold (x :: l) s body) w =
  match run h (body s x) w with
  | Ok (s1, w1) => run h (for_fold l s1 body) w1
  | Raise e => Raise e
  end.
Proof. apply (run_bind (body s x) (λ s1, for_fold l s1 body)). Qed.

End running.

(** ** Inverting the steps of the handler *)

Lemma bind_Ok {A B} (m : M A) (f : A → M B) w b w' :
  bind_ m f w = Ok (b, w') ↔ ∃ a w1, m w = Ok (a, w1) ∧ f a w1 = Ok (b, w').
Proof.
  unfold bind_. destruct (m w) as [[a w1] | e]; split; eauto.
  - by intros (? & ? & [= -> ->] & ?).
  - done.
  - by intros (? & ? & ? & ?).
Qed.

Lemma lift_Ok {A} (r : result A) w a w' : lift_ r w = Ok (a, w') ↔ r = Ok a ∧ w' = w.
Proof. unfold lift_. destruct r; split; [by intros [= -> ->] | by intros [[= ->] ->] | done | by intros []]. Qed.

Lemma ret_Ok {A} (x : A) w a w' : ret_ x w = Ok (a, w') ↔ a = x ∧ w' = w.
Proof. unfold ret_. split; [by intros [= -> ->] | by intros [-> ->]]. Qed.

Lemma the_frame_Ok l w f w' :
  the_frame l w = Ok (f, w') ↔ heap w !! l = Some (OFrame f) ∧ w' = w.
Proof.
  unfold the_frame. destruct (heap w !! l) as [[]|]; split;
    try done; try (by intros [= -> ->]); by intros [[= ->] ->].
Qed.

Lemma the_series_Ok l w s w' :
  the_series l w = Ok (s, w') ↔ heap w !! l = Some (OSeries s) ∧ w' = w.
Proof.
  unfold the_series. destruct (heap w !! l) as [[]|]; split;
    try done; try (by intros [= -> ->]); by intros [[= ->] ->].
Qed.

Lemma the_mask_Ok l w m w' :
  the_mask l w = Ok (m, w') ↔ heap w !! l = Some (OMask m) ∧ w' = w.
Proof.
  unfold the_mask. destruct (heap w !! l) as [[]|]; split;
    try done; try (by intros [= -> ->]); by intros [[= ->] ->].
Qed.

Lemma the_array_Ok l w a w' :
  the_array l w = Ok (a, w') ↔ heap w !! l = Some (OArray a) ∧ w' = w.
Proof.
  unfold the_array. destruct (heap w !! l) as [[]|]; split;
    try done; try (by intros [= -> ->]); by intros [[= ->] ->].
Qed.

Lemma read_file_Ok path w c w' :
  read_file path w = Ok (c, w') ↔ fs w !! path = Some c ∧ w' = w.
Proof.
  unfold read_file. destruct (fs w !! path); split;
    try done; try (by intros [= -> ->]); by intros [[= ->] ->].
Qed.

Lemma alloc_Ok o w l w' :
  alloc o w = Ok (l, w') ↔
  l = fresh (dom (heap w)) ∧ w' = set_heap (<[l := o]> (heap w)) w.
Proof. unfold alloc. split; [by intros [= <- <-] | by intros [-> ->]]. Qed.

Lemma fresh_loc_unused (hp : gmap loc obj) : hp !! fresh (dom hp) = None.
Proof. apply not_elem_of_dom, is_fresh. Qed.

(** Allocation leaves the objects that exist where they are. *)
Lemma alloc_keeps o w l w' k v :
  alloc o w = Ok (l, w') → heap w !! k = Some v → heap w' !! k = Some v.
Proof.
  intros [-> ->]%alloc_Ok Hk. simpl. rewrite lookup_insert_ne; [done |].
  intros <-. by rewrite fresh_loc_unused in Hk.
Qed.

Lemma alloc_lookup o w l w' : alloc o w = Ok (l, w') → heap w' !! l = Some o.
Proof. intros [-> ->]%alloc_Ok. simpl. apply lookup_insert_eq. Qed.

Lemma alloc_unused o w l w' : alloc o w = Ok (l, w') → heap w !! l = None.
Proof. intros [-> ->]%alloc_Ok. apply fresh_loc_unused. Qed.

Lemma alloc_fs o w l w' : alloc o w = Ok (l, w') → fs w' = fs w.
Proof. by intros [-> ->]%alloc_Ok. Qed.

(* ===================================================================== *)
(** * Facts about strings                                                 *)
(* ===================================================================== *)

Lemma string_app_cons (c : ascii) (s t : string) : String c s +:+ t = String c (s +:+ t).
Proof. done. Qed.

Lemma string_app_nil_l (t : string) : "" +:+ t = t.
Proof. done. Qed.

Lemma string_app_assoc (s t u : string) : (s +:+ t) +:+ u = s +:+ (t +:+ u).
Proof. induction s as [| c s IH]; [done |]. by rewrite !string_app_cons, IH. Qed.

Lemma string_app_nil_r (s : string) : s +:+ "" = s.
Proof. induction s as [| c s IH]; [done |]. by rewrite string_app_cons, IH. Qed.

Lemma string_length_app (s t : string) :
  String.length (s +:+ t) = (String.length s + String.length t)%nat.
Proof. induction s as [| c s IH]; [done |]. rewrite string_app_cons. simpl. by rewrite IH. Qed.

Lemma all_chars_app p (s t : string) :
  all_chars p (s +:+ t) = all_chars p s && all_chars p t.
Proof.
  induction s as [| c s IH]; [done |].
  rewrite string_app_cons. simpl. by rewrite IH, andb_assoc.
Qed.

Lemma all_chars_impl (p q : ascii → bool) (s : string) :
  (∀ c, p c = true → q c = true) → all_chars p s = true → all_chars q s = true.
Proof.
  intros Hpq. induction s as [| c s IH]; simpl; [done |].
  intros [Hc Hs]%andb_true_iff. by rewrite (Hpq c Hc), IH.
Qed.

Lemma numeric_char_not (c x : ascii) :
  numeric_char c = false → numeric_char x = true → negb (Ascii.eqb x c) = true.
Proof.
  intros Hc Hx. apply negb_true_iff, Ascii.eqb_neq. intros ->. by rewrite Hc in Hx.
Qed.

Lemma numeric_field_free (c : ascii) (s : string) :
  numeric_char c = false → numeric_field s = true → free_of c s = true.
Proof.
  intros Hc [_ Hs]%andb_true_iff. revert Hs. apply all_chars_impl.
  intros x. by apply numeric_char_not.
Qed.

Lemma str_uint_numeric (d : Decimal.uint) :
  all_chars numeric_char (NilEmpty.string_of_uint d) = true.
Proof. induction d; simpl; [done | exact IHd ..]. Qed.

Lemma str_uint_empty (d : Decimal.uint) :
  NilEmpty.string_of_uint d = "" → d = Decimal.Nil.
Proof. by destruct d. Qed.

(** [str(i)] is a numeric field. *)
Lemma str_Z_numeric (z : Z) : numeric_field (str_Z z) = true.
Proof.
  assert (∀ d, numeric_field (NilZero.string_of_uint d) = true) as Huint.
  { intros d. destruct d; try done;
      apply andb_true_iff; (split; [done | apply (str_uint_numeric (_ d))]). }
  unfold str_Z. destruct (Z.to_int z) as [d | d]; simpl; [apply Huint |].
  specialize (Huint d). apply andb_true_iff in Huint as [_ Hd].
  unfold numeric_field. simpl. exact Hd.
Qed.

(** ** Splitting at a character *)

Lemma prefix_char (c a : ascii) (s : string) :
  String.prefix (String c "") (String a s) = Ascii.eqb a c.
Proof.
  simpl. destruct (ascii_dec c a) as [-> | Hne].
  - rewrite Ascii.eqb_refl. by destruct s.
  - symmetry. apply Ascii.eqb_neq. congruence.
Qed.

Lemma split_go_free (c : ascii) (cur s : string) :
  free_of c s = true → split_go (String c "") 0 cur s = [cur +:+ s].
Proof.
  revert cur. induction s as [| a s IH]; intros cur Hs.
  - simpl. by rewrite string_app_nil_r.
  - apply andb_true_iff in Hs as [Ha Hs].
    cbn [split_go]. rewrite prefix_char. apply negb_true_iff in Ha. rewrite Ha.
    rewrite (IH _ Hs), string_app_assoc. done.
Qed.

Lemma split_go_sep (c : ascii) (cur s rest : string) :
  free_of c s = true →
  split_go (String c "") 0 cur (s +:+ String c rest)
  = (cur +:+ s) :: split_go (String c "") 0 "" rest.
Proof.
  revert cur. induction s as [| a s IH]; intros cur Hs.
  - rewrite string_app_nil_l. cbn [split_go]. rewrite prefix_char, Ascii.eqb_refl.
    by rewrite string_app_nil_r.
  - apply andb_true_iff in Hs as [Ha Hs].
    rewrite string_app_cons. cbn [split_go]. rewrite prefix_char. apply negb_true_iff in Ha.
    rewrite Ha, (IH _ Hs), string_app_assoc. done.
Qed.

(** Splitting what was joined gives the fields back. *)
Lemma split_join (c : ascii) (fields : list string) :
  fields ≠ [] → Forall (λ f, free_of c f = true) fields →
  split (String c "") (join (String c "") fields) = fields.
Proof.
  intros Hne Hfree. unfold split.
  induction Hfree as [| f fields Hf Hfields IH]; [done |].
  destruct fields as [| g fields].
  - simpl. by rewrite split_go_free.
  - change (join (String c "") (f :: g :: fields))
      with (f +:+ String c (join (String c "") (g :: fields))).
    rewrite split_go_sep by done. by rewrite IH.
Qed.

Lemma split_unlines (ls : list string) :
  Forall (λ l, free_of nl_char l = true) ls →
  split_go (String nl_char "") 0 "" (unlines ls) = (ls ++ [""])%list.
Proof.
  induction 1 as [| l ls Hl Hls IH]; [done |].
  simpl unlines. rewrite split_go_sep by done. by rewrite IH.
Qed.

Lemma splitlines_unlines (ls : list string) :
  Forall (λ l, free_of nl_char l = true) ls → splitlines (unlines ls) = ls.
Proof.
  intros Hls. unfold splitlines, split, nl.
  rewrite (split_unlines ls Hls), last_snoc. apply removelast_last.
Qed.

(** ** Numerals *)

Example numeral_yes :
  forallb numeral ["7"; "-3"; "0.25"; "1e-05"; "2.5e+20"; "0.1111111111111111"] = true.
Proof. reflexivity. Qed.

Example numeral_no :
  forallb (λ s, negb (numeral s))
    [""; "0.10.1"; "+-+"; "e"; "nan"; "inf"; "."; "1."; ".5"; "1e"; "-"; "1,2"; "0.1 "] = true.
Proof. reflexivity. Qed.

Lemma is_digit_numeric c : is_digit c = true → numeric_char c = true.
Proof. unfold numeric_char. by intros ->. Qed.

Lemma skip_digits_numeric s :
  all_chars numeric_char (skip_digits s) = true → all_chars numeric_char s = true.
Proof.
  induction s as [| c s IH]; [done |]. simpl.
  destruct (is_digit c) eqn:Hc; [| done].
  intros H. by rewrite (is_digit_numeric _ Hc), IH.
Qed.

Lemma digits_then_numeric s rest :
  digits_then s = Some rest → all_chars numeric_char rest = true →
  all_chars numeric_char s = true.
Proof.
  destruct s as [| c s]; [done |]. simpl.
  destruct (is_digit c) eqn:Hc; [| done]. intros [= <-] H.
  by rewrite (is_digit_numeric _ Hc), skip_digits_numeric.
Qed.

Lemma exponent_numeric s : exponent s = true → all_chars numeric_char s = true.
Proof.
  destruct s as [| c ex]; [done |]. simpl.
  intros [->%Ascii.eqb_eq H]%andb_true_iff. simpl.
  destruct (digits_then _) as [[| ? ?] |] eqn:Hd; try done.
  destruct ex as [| d ex']; [done |].
  destruct (Ascii.eqb d "-" || Ascii.eqb d "+") eqn:Hsign.
  - simpl. apply andb_true_iff. split; [| by eapply digits_then_numeric].
    apply orb_true_iff in Hsign as [->%Ascii.eqb_eq | ->%Ascii.eqb_eq]; done.
  - by eapply digits_then_numeric.
Qed.

Lemma fraction_numeric s : fraction s = true → all_chars numeric_char s = true.
Proof.
  destruct s as [| c frac]; [done |]. unfold fraction.
  destruct (Ascii.eqb c ".") eqn:Hc; [| apply exponent_numeric].
  apply Ascii.eqb_eq in Hc as ->.
  destruct (digits_then frac) as [rest |] eqn:Hd; [| done].
  intros H%exponent_numeric. simpl. by eapply digits_then_numeric.
Qed.

Lemma unsigned_numeral_numeric s :
  unsigned_numeral s = true → s ≠ "" ∧ all_chars numeric_char s = true.
Proof.
  unfold unsigned_numeral. destruct (digits_then s) as [rest |] eqn:Hd; [| done].
  intros H%fraction_numeric. split; [by destruct s |]. by eapply digits_then_numeric.
Qed.

(** A numeral is made of the characters of numbers. *)
Lemma numeral_numeric_field s : numeral s = true → numeric_field s = true.
Proof.
  destruct s as [| c s]; [done |]. unfold numeral, numeric_field.
  destruct (Ascii.eqb c "-") eqn:Hc.
  - apply Ascii.eqb_eq in Hc as ->. by intros [_ H]%unsigned_numeral_numeric.
  - by intros [_ H]%unsigned_numeral_numeric.
Qed.

Lemma skip_digits_uint (d : Decimal.uint) (t : string) :
  skip_digits (NilEmpty.string_of_uint d +:+ t) = skip_digits t.
Proof. induction d; simpl; [done | exact IHd ..]. Qed.

Lemma digits_then_uint (d : Decimal.uint) (t : string) :
  digits_then (NilZero.string_of_uint d +:+ t) = Some (skip_digits t).
Proof.
  destruct d; simpl; try done;
    match goal with |- context [NilEmpty.string_of_uint ?d] =>
      by rewrite (skip_digits_uint d) end.
Qed.

Lemma uint_not_minus (d : Decimal.uint) (t : string) :
  ∃ c s, NilZero.string_of_uint d +:+ t = String c s ∧ Ascii.eqb c "-" = false.
Proof. destruct d; simpl; by eexists _, _. Qed.

(** The text of an integer, followed by a fraction or an exponent (or by
    nothing), is a numeral. *)
Lemma numeral_str_Z (z : Z) (t : string) :
  fraction t = true → skip_digits t = t → numeral (str_Z z +:+ t) = true.
Proof.
  intros Ht Hskip. unfold str_Z.
  destruct (Z.to_int z) as [d | d]; simpl NilZero.string_of_int.
  - destruct (uint_not_minus d t) as (c & s & Heq & Hc).
    unfold numeral. rewrite Heq, Hc, <-Heq.
    unfold unsigned_numeral. by rewrite digits_then_uint, Hskip.
  - rewrite string_app_cons. unfold numeral. rewrite Ascii.eqb_refl.
    unfold unsigned_numeral. by rewrite digits_then_uint, Hskip.
Qed.

Lemma str_Z_numeral (z : Z) : numeral (str_Z z) = true.
Proof. rewrite <-(string_app_nil_r (str_Z z)). by apply numeral_str_Z. Qed.

Lemma print_one_decimal_numeral (q : Q) :
  numeral (Sample.print_one_decimal (FNum q)) = true.
Proof.
  unfold Sample.print_one_decimal. apply numeral_str_Z; [| done].
  rewrite string_app_cons, string_app_nil_l. unfold fraction. rewrite Ascii.eqb_refl.
  set (d := ((10 * Qnum q / Z.pos (Qden q)) mod 10)%Z).
  assert (0 ≤ d)%Z as Hd by (apply Z.mod_pos_bound; lia).
  unfold str_Z. destruct (Z.to_int d) as [u | u] eqn:Hu.
  - simpl. rewrite <-(string_app_nil_r (NilZero.string_of_uint u)).
    by rewrite digits_then_uint.
  - exfalso. by destruct d.
Qed.

(* ===================================================================== *)
(** * Facts about the pandas fragment                                     *)
(* ===================================================================== *)

Lemma reindex_cells (rs : list (list cell)) : (reindex rs).*2 = rs.
Proof.
  unfold reindex. rewrite fmap_imap.
  change (imap (const id) rs = rs). by rewrite imap_const, list_fmap_id.
Qed.

Lemma index_of_lt c cols i : index_of c cols = Some i → (i < length cols)%nat.
Proof.
  revert i. induction cols as [| x cols IH]; intros i; simpl; [done |].
  case_bool_decide; [intros [= <-]; lia |].
  destruct (index_of c cols) as [j|]; simpl; [| done].
  intros [= <-]. specialize (IH j eq_refl). lia.
Qed.

Lemma index_of_app_l c cols more i :
  index_of c cols = Some i → index_of c (cols ++ more) = Some i.
Proof.
  revert i. induction cols as [| x cols IH]; intros i; simpl; [done |].
  case_bool_decide; [done |].
  destruct (index_of c cols) as [j|]; simpl; [| done].
  intros [= <-]. by rewrite (IH j eq_refl).
Qed.

(** Renaming the columns keeps the place of [c] when it maps [c] to itself
    and nothing else to [c]. *)
Lemma index_of_fmap (f : string → string) c cols :
  f c = c → (∀ x, x ≠ c → f x ≠ c) → index_of c (f <$> cols) = index_of c cols.
Proof.
  intros Hc Hother. induction cols as [| x cols IH]; csimpl; [done |].
  rewrite IH. destruct (decide (x = c)) as [-> | Hx].
  - by rewrite Hc, !bool_decide_eq_true_2.
  - rewrite !bool_decide_eq_false_2; auto.
Qed.

Lemma suffixed_not_ID (c sfx : string) :
  sfx ≠ "ID" → String.length sfx = 2%nat → c +:+ sfx ≠ "ID".
Proof.
  intros Hne Hlen Heq.
  assert (String.length (c +:+ sfx) = 2%nat) as Hl by by rewrite Heq.
  rewrite string_length_app in Hl.
  destruct c; simpl in *; [| lia].
  subst. done.
Qed.

Lemma pad_lookup (n i : nat) (cells : list cell) :
  (i < n)%nat → pad n cells !! i = Some (field_at i cells).
Proof.
  intros Hi. unfold pad, field_at. rewrite lookup_take_lt by done.
  destruct (cells !! i) as [x|] eqn:Hx.
  - by rewrite (lookup_app_l_Some _ _ _ _ Hx).
  - apply lookup_ge_None in Hx. rewrite lookup_app_r by done.
    simpl. apply lookup_replicate_2. lia.
Qed.

Lemma field_at_pad_app (n i : nat) (cells more : list cell) :
  (i < n)%nat → field_at i (pad n cells ++ more) = field_at i cells.
Proof.
  intros Hi. unfold field_at at 1.
  by rewrite (lookup_app_l_Some _ _ _ _ (pad_lookup n i cells Hi)).
Qed.

Lemma elem_of_column_values f c vs id :
  column_values f c = Some vs →
  id ∈ vs ↔ ∃ row, row ∈ rows f ∧ cell_at f row c = Some id.
Proof.
  unfold column_values, cell_at. destruct (index_of c (columns f)) as [i|]; [| done].
  simpl. intros [= <-]. rewrite list_elem_of_fmap. split.
  - intros (row & -> & Hrow). by exists row.
  - intros (row & Hrow & [= <-]). by exists row.
Qed.

(** The ID values of an inner join on ["ID"] are those that both tables
    have. *)
Lemma merge_inner_ids l r F :
  merge_inner l r "ID" = Ok F →
  ∃ il ir iF,
    column_values l "ID" = Some il ∧ column_values r "ID" = Some ir ∧
    column_values F "ID" = Some iF ∧
    ∀ id, id ∈ iF ↔ id ∈ il ∧ id ∈ ir.
Proof.
  unfold merge_inner, column_values.
  destruct (index_of "ID" (columns l)) as [kl|] eqn:Hkl; [| done].
  destruct (index_of "ID" (columns r)) as [kr|] eqn:Hkr; [| done].
  intros [= <-]. simpl. do 3 eexists. split_and!; [done.. | |].
  - erewrite index_of_app_l; [done |].
    rewrite index_of_fmap; [done | by rewrite bool_decide_eq_false_2 by (by intros []) |].
    intros x Hx. case_bool_decide; [| done]. by apply suffixed_not_ID.
  - intros id. pose proof (index_of_lt _ _ _ Hkl) as Hlt.
    match goal with |- context [reindex ?J] => set (joined := J) end.
    assert (((λ row : Z * list cell, field_at kl row.2) <$> reindex joined)
            = field_at kl <$> joined) as ->.
    { rewrite <-(reindex_cells joined) at 2. by rewrite <-list_fmap_compose. }
    subst joined. rewrite !list_elem_of_fmap. split.
    + intros (cells & -> & Hc).
      apply list_elem_of_bind in Hc as (lrow & Hc & Hl).
      apply list_elem_of_bind in Hc as (rrow & Hc & Hr).
      apply list_elem_of_filter in Hr as [Hkey Hr].
      apply list_elem_of_singleton in Hc as ->.
      rewrite field_at_pad_app by done. split; [by exists lrow |].
      exists rrow. by rewrite Hkey.
    + intros [(lrow & -> & Hl) (rrow & Hkey & Hr)].
      exists (pad (length (columns l)) lrow.2 ++
              delete kr (pad (length (columns r)) rrow.2))%list.
      split; [by rewrite field_at_pad_app |].
      apply list_elem_of_bind. exists lrow. split; [| done].
      apply list_elem_of_bind. exists rrow. split; [by apply list_elem_of_singleton |].
      by apply list_elem_of_filter.
Qed.

(* ===================================================================== *)
(** * Facts about the handler                                             *)
(* ===================================================================== *)

Arguments bind_ : simpl never.
Arguments lift_ : simpl never.
Arguments ret_ : simpl never.
Arguments alloc : simpl never.
Arguments the_frame : simpl never.
Arguments the_series : simpl never.
Arguments the_mask : simpl never.
Arguments the_array : simpl never.
Arguments read_file : simpl never.

(** Takes apart the hypotheses that say that a step of the handler
    succeeded. *)
Ltac inv_M :=
  repeat match goal with
    | H : bind_ _ _ _ = Ok _ |- _ => apply bind_Ok in H as (? & ? & ? & H)
    | H : lift_ _ _ = Ok _ |- _ => apply lift_Ok in H as [? ->]
    | H : ret_ _ _ = Ok _ |- _ => apply ret_Ok in H as [-> ->]
    | H : the_frame _ _ = Ok _ |- _ => apply the_frame_Ok in H as [? ->]
    | H : the_series _ _ = Ok _ |- _ => apply the_series_Ok in H as [? ->]
    | H : the_mask _ _ = Ok _ |- _ => apply the_mask_Ok in H as [? ->]
    | H : the_array _ _ = Ok _ |- _ => apply the_array_Ok in H as [? ->]
    | H : read_file _ _ = Ok _ |- _ => apply read_file_Ok in H as [? ->]
    end.

(** One step of a program: [x ← call! c; k x]. *)
Ltac step H x w Hc :=
  apply run_bind_Ok in H as (x & w & Hc & H); rewrite run_perform in Hc.

Section handler_facts.
Context (E : externals).

Lemma ReadCsv_Ok path o w l w' :
  pandas E _ (ReadCsv path o) w = Ok (l, w') →
  ∃ content f, fs w !! path = Some content ∧ parse_csv o content = Ok f ∧
               alloc (OFrame f) w = Ok (l, w').
Proof. simpl. intros H. inv_M. eauto. Qed.

Lemma GetItem_Ok df c w l w' :
  pandas E _ (GetItem df c) w = Ok (l, w') →
  ∃ f s, heap w !! df = Some (OFrame f) ∧ get_column f c = Ok s ∧
         alloc (OSeries s) w = Ok (l, w').
Proof. simpl. intros H. inv_M. eauto. Qed.

Lemma GetAttr_Ok df c w l w' :
  pandas E _ (GetAttr df c) w = Ok (l, w') →
  ∃ f s, heap w !! df = Some (OFrame f) ∧ get_column f c = Ok s ∧
         alloc (OSeries s) w = Ok (l, w').
Proof.
  simpl. intros H. inv_M. destruct (get_column _ c) eqn:?; [eauto | done].
Qed.

Lemma SeriesEq_Ok s v w l w' :
  pandas E _ (SeriesEq s v) w = Ok (l, w') →
  ∃ s', heap w !! s = Some (OSeries s') ∧
        alloc (OMask (series_eq s' v)) w = Ok (l, w').
Proof. simpl. intros H. inv_M. eauto. Qed.

Lemma LocMask_Ok df m w l w' :
  pandas E _ (LocMask df m) w = Ok (l, w') →
  ∃ f m' f', heap w !! df = Some (OFrame f) ∧ heap w !! m = Some (OMask m') ∧
             loc_mask f m' = Ok f' ∧ alloc (OFrame f') w = Ok (l, w').
Proof. simpl. intros H. inv_M. eauto 10. Qed.

Lemma IsIn_Ok s values w l w' :
  pandas E _ (IsIn s values) w = Ok (l, w') →
  ∃ s' vs, heap w !! s = Some (OSeries s') ∧ heap w !! values = Some (OSeries vs) ∧
           alloc (OMask (isin s' vs)) w = Ok (l, w').
Proof. simpl. intros H. inv_M. eauto 10. Qed.

Lemma Unique_Ok s w l w' :
  pandas E _ (Unique s) w = Ok (l, w') →
  ∃ s', heap w !! s = Some (OSeries s') ∧ alloc (OArray (unique s')) w = Ok (l, w').
Proof. simpl. intros H. inv_M. eauto. Qed.

Lemma Join_Ok sep a w t w' :
  pandas E _ (Join sep a) w = Ok (t, w') →
  ∃ a', heap w !! a = Some (OArray a') ∧ join_cells sep a' = Ok t ∧ w' = w.
Proof. simpl. intros H. inv_M. eauto. Qed.

Lemma ToList_Ok s w ps w' :
  pandas E _ (ToList s) w = Ok (ps, w') →
  ∃ s', heap w !! s = Some (OSeries s') ∧ ps = s'.*2 ∧ w' = w.
Proof. simpl. intros H. inv_M. eauto. Qed.

Lemma ILoc_Ok df ps w l w' :
  pandas E _ (ILoc df ps) w = Ok (l, w') →
  ∃ f f', heap w !! df = Some (OFrame f) ∧ iloc f ps = Ok f' ∧
          alloc (OFrame f') w = Ok (l, w').
Proof. simpl. intros H. inv_M. eauto 10. Qed.

Lemma MergeInner_Ok l r key w l' w' :
  pandas E _ (MergeInner l r key) w = Ok (l', w') →
  ∃ fl fr f, heap w !! l = Some (OFrame fl) ∧ heap w !! r = Some (OFrame fr) ∧
             merge_inner fl fr key = Ok f ∧ alloc (OFrame f) w = Ok (l', w').
Proof. simpl. intros H. inv_M. eauto 10. Qed.

(** What [get_full_table] does when it returns. *)
Lemma get_full_table_Ok variants_file text_file w data_full w' :
  run (pandas E) (get_full_table variants_file text_file) w = Ok (data_full, w') →
  ∃ vc tc V T F variants text w1 w2,
    fs w !! variants_file = Some vc ∧ parse_csv csv_default vc = Ok V ∧
    fs w !! text_file = Some tc ∧ parse_csv csv_text tc = Ok T ∧
    merge_inner V T "ID" = Ok F ∧
    alloc (OFrame V) w = Ok (variants, w1) ∧
    alloc (OFrame T) w1 = Ok (text, w2) ∧
    alloc (OFrame F) w2 = Ok (data_full, w').
Proof.
  unfold get_full_table. intros H.
  step H variants w1 H1. apply ReadCsv_Ok in H1 as (vc & V & Hvc & HV & Ha1).
  step H text w2 H2. apply ReadCsv_Ok in H2 as (tc & T & Htc & HT & Ha2).
  step H merged w3 H3. apply MergeInner_Ok in H3 as (V' & T' & F & HV' & HT' & HF & Ha3).
  simpl in H. injection H as <- <-.
  rewrite (alloc_fs _ _ _ _ Ha1) in Htc.
  rewrite (alloc_lookup _ _ _ _ Ha2) in HT'. injection HT' as <-.
  rewrite (alloc_keeps _ _ _ _ _ _ Ha2 (alloc_lookup _ _ _ _ Ha1)) in HV'.
  injection HV' as <-. eauto 20.
Qed.

End handler_facts.

(* ===================================================================== *)
(** * Properties of the helpers                                           *)
(* ===================================================================== *)

(** C1. [get_full_table] performs an inner join of the variants table and
    the text table on the ID column: whenever the call returns, the two
    tables are the ones read from the two files, the returned table has an
    ID column, no ID that is absent from either table appears in it, and
    every ID that both tables have does. *)
Theorem get_full_table_inner_join (E : externals) (variants_file text_file : string)
    (w : world) (data_full : loc) (w' : world) :
  run (pandas E) (get_full_table variants_file text_file) w = Ok (data_full, w') →
  ∃ vc tc V T F ids_V ids_T ids_F,
    fs w !! variants_file = Some vc ∧ parse_csv csv_default vc = Ok V ∧
    fs w !! text_file = Some tc ∧ parse_csv csv_text tc = Ok T ∧
    heap w' !! data_full = Some (OFrame F) ∧
    column_values V "ID" = Some ids_V ∧
    column_values T "ID" = Some ids_T ∧
    column_values F "ID" = Some ids_F ∧
    (∀ id, id ∉ ids_V ∨ id ∉ ids_T → id ∉ ids_F) ∧
    (∀ id, id ∈ ids_V → id ∈ ids_T → id ∈ ids_F).
Proof.
  intros (vc & tc & V & T & F & lv & lt & w1 & w2 & Hvc & HV & Htc & HT & HF &
          _ & _ & Ha)%get_full_table_Ok.
  apply merge_inner_ids in HF as (iV & iT & iF & HiV & HiT & HiF & Hids).
  exists vc, tc, V, T, F, iV, iT, iF.
  split_and!; try done.
  - by apply alloc_lookup in Ha.
  - intros id Habsent Hin. apply Hids in Hin. tauto.
  - intros id ??. by apply Hids.
Qed.

(** ** Selecting rows, distinct values, joining *)

Lemma select_fmap {A} (p : A → bool) (rs : list A) :
  select rs (p <$> rs) = filter (λ r, p r = true) rs.
Proof.
  induction rs as [| r rs IH]; [done |]. csimpl. rewrite IH.
  destruct (p r) eqn:Hp.
  - by rewrite filter_cons_True.
  - rewrite filter_cons_False; [done | by rewrite Hp].
Qed.

Lemma unique_from_elem seen l x :
  x ∈ unique_from seen l ↔ x ∈ l ∧ x ∉ seen.
Proof.
  revert seen. induction l as [| y l IH]; intros seen; simpl.
  - split; [by intros ?%elem_of_nil | by intros [?%elem_of_nil _]].
  - case_bool_decide as Hy.
    + rewrite IH, elem_of_cons. split; [intros [? ?]; by split; [right |] |].
      intros [[-> | ?] ?]; [done | by split].
    + rewrite !elem_of_cons, IH, elem_of_cons. split.
      * intros [-> | [? ?]]; [by split; [left |] | split; [by right | tauto]].
      * intros [[-> | ?] ?]; [by left |].
        destruct (decide (x = y)) as [-> | ?]; [by left | right; split; [done | tauto]].
Qed.

Lemma unique_from_NoDup seen l : NoDup (unique_from seen l).
Proof.
  revert seen. induction l as [| y l IH]; intros seen; simpl; [constructor |].
  case_bool_decide; [apply IH |]. constructor; [| apply IH].
  rewrite unique_from_elem, elem_of_cons. tauto.
Qed.

Lemma rmapM_as_str a ts : rmapM as_str a = Ok ts → a = VStr <$> ts.
Proof.
  revert ts. induction a as [| c a IH]; intros ts; simpl; [by intros [= <-] |].
  destruct c as [| s |]; simpl; try done.
  destruct (rmapM as_str a) as [ts' |]; simpl; [| done].
  intros [= <-]. by rewrite (IH ts' eq_refl).
Qed.

Lemma join_cells_Ok sep a t :
  join_cells sep a = Ok t → ∃ ts, a = VStr <$> ts ∧ t = join sep ts.
Proof.
  unfold join_cells, rmap. destruct (rmapM as_str a) as [ts |] eqn:Hts; simpl; [| done].
  intros [= <-]. exists ts. by apply rmapM_as_str in Hts.
Qed.

Lemma get_column_Ok f c s :
  get_column f c = Ok s →
  ∃ i, index_of c (columns f) = Some i ∧
       s = (λ row : Z * list cell, (row.1, field_at i row.2)) <$> rows f.
Proof.
  unfold get_column. destruct (index_of c (columns f)) as [i|]; [| done].
  intros [= <-]. eauto.
Qed.

(** A boolean Series computed from a column of [f] selects the rows of [f]
    on which the test holds. *)
Lemma loc_mask_column f (i : nat) (test : cell → bool) f' :
  loc_mask f ((λ p : Z * cell, (p.1, test p.2)) <$>
              ((λ row : Z * list cell, (row.1, field_at i row.2)) <$> rows f)) = Ok f' →
  f' = Frame (columns f) (filter (λ row, test (field_at i row.2) = true) (rows f)).
Proof.
  unfold loc_mask. case_bool_decide; [| done]. intros [= <-]. f_equal.
  rewrite <-!list_fmap_compose.
  by rewrite (select_fmap (λ row : Z * list cell, test (field_at i row.2))).
Qed.

Lemma py_eqb_VInt c z : py_eqb c (VInt z) = true → c = VInt z.
Proof. destruct c; simpl; try done. by intros ->%bool_decide_eq_true. Qed.

Lemma class_texts_sound V T cls us :
  class_texts V T cls = Ok us →
  NoDup us ∧
  ∀ u, u ∈ us →
    ∃ row vrow id, row ∈ rows T ∧ cell_at T row "Text" = Some u ∧
                   cell_at T row "ID" = Some id ∧
                   vrow ∈ rows V ∧ cell_at V vrow "ID" = Some id ∧
                   cell_at V vrow "Class" = Some (VInt cls).
Proof.
  unfold class_texts. intros H.
  destruct (get_column V "Class") as [cc|] eqn:Hcc; simpl in H; [| done].
  apply get_column_Ok in Hcc as (ic & Hic & ->).
  destruct (loc_mask V _) as [Vsel|] eqn:HVsel; simpl in H; [| done].
  apply (loc_mask_column V ic (λ c, py_eqb c (VInt cls))) in HVsel as ->.
  destruct (get_column _ "ID") as [mids|] eqn:Hmids; simpl in H; [| done].
  apply get_column_Ok in Hmids as (iv & Hiv & ->). simpl in Hiv.
  destruct (get_column T "ID") as [tids|] eqn:Htids; simpl in H; [| done].
  apply get_column_Ok in Htids as (it & Hit & ->).
  destruct (loc_mask T _) as [Tsel|] eqn:HTsel; simpl in H; [| done].
  match type of HTsel with context [isin _ ?m] => set (matching_ids := m) in * end.
  pose proof (loc_mask_column T it (λ c, bool_decide (c ∈ matching_ids.*2)) _ HTsel) as ->.
  destruct (get_column _ "Text") as [tc|] eqn:Htc; simpl in H; [| done].
  apply get_column_Ok in Htc as (ix & Hix & ->). simpl in Hix.
  injection H as <-. split; [apply unique_from_NoDup |].
  intros u [Hu _]%unique_from_elem.
  rewrite <-list_fmap_compose in Hu.
  apply list_elem_of_fmap in Hu as (row & -> & Hrow). simpl in Hrow |- *.
  apply list_elem_of_filter in Hrow as [Hin Hrow].
  apply bool_decide_eq_true in Hin. subst matching_ids.
  rewrite <-list_fmap_compose in Hin.
  apply list_elem_of_fmap in Hin as (vrow & Hkey & Hvrow). simpl in Hkey, Hvrow.
  apply list_elem_of_filter in Hvrow as [Hcls Hvrow].
  apply py_eqb_VInt in Hcls.
  exists row, vrow, (field_at it row.2). unfold cell_at. rewrite Hix, Hic, Hiv, Hit. simpl.
  split_and!; [done | done | done | done | by rewrite Hkey | by rewrite Hcls].
Qed.

(** ** The heap only grows *)

Ltac chain := repeat (etrans; [eassumption |]); done.

Lemma alloc_extends o w l w' : alloc o w = Ok (l, w') → heap w ⊆ heap w'.
Proof.
  intros [-> ->]%alloc_Ok. simpl. apply insert_subseteq, fresh_loc_unused.
Qed.

Section heap_facts.
Context (E : externals).

Lemma train_test_split_extends X y test_size random_state stratify w r w' :
  train_test_split_ E X y test_size random_state stratify w = Ok (r, w') →
  heap w ⊆ heap w'.
Proof.
  unfold train_test_split_. intros H. inv_M.
  destruct (split_frames E _ _ _ _ _) as [[[[[a b] c] d] | e] g']; [| done].
  match type of H with
  | bind_ _ _ ?w1 = _ => assert (heap w = heap w1) as -> by by destruct random_state
  end.
  inv_M.
  repeat match goal with
    | Ha : alloc _ _ = Ok _ |- _ => apply alloc_extends in Ha
    end.
  chain.
Qed.

Lemma pandas_extends {X} (c : call X) w x w' :
  pandas E _ c w = Ok (x, w') → table_call c = true → heap w ⊆ heap w'.
Proof.
  intros H Hc. revert Hc H.
  destruct c; simpl; try done; intros Hc H;
    try (inv_M; first [ by eapply alloc_extends | done ]).
  - by injection H as <- <-.
  - rewrite Hc in H. by apply alloc_extends in H.
  - destruct (heap w !! f) as [[| | | | | path []|]|]; try done. by injection H as <- <-.
  - inv_M. destruct (get_column _ c); [by eapply alloc_extends | done].
  - destruct (heap w !! a); [| done]. by inv_M.
  - destruct (heap w !! a) as [[]|]; try done. by inv_M.
  - by eapply train_test_split_extends.
Qed.

Lemma Close_Ok f w x w' :
  pandas E _ (Close f) w = Ok (x, w') →
  ∃ path closed, heap w !! f = Some (OFile path closed) ∧
                 heap w' = <[f := OFile path true]> (heap w).
Proof.
  simpl. destruct (heap w !! f) as [[| | | | | path closed |]|]; try done.
  intros [= <- <-]. eauto.
Qed.

Lemma Open_Ok path mode w f w' :
  mode = "w" ∨ mode = "wt" →
  pandas E _ (Open path mode) w = Ok (f, w') →
  heap w !! f = None ∧ heap w' = <[f := OFile path false]> (heap w) ∧
  fs w' = <[path := ""]> (fs w).
Proof.
  intros Hmode. simpl. rewrite bool_decide_eq_true_2 by done.
  intros [-> ->]%alloc_Ok. simpl. split; [apply fresh_loc_unused | done].
Qed.


End heap_facts.

(** One step of a program by a call that only allocates. *)
Ltac step_ext H x w Hc S :=
  step H x w Hc; pose proof (pandas_extends _ _ _ _ _ Hc eq_refl) as S.

Section get_unique_text_facts.
Context (E : externals).

(** What [get_unique_text] does when it returns: the text it returns is a
    function of the two tables, and every object that existed before the
    call is as it was. *)
Lemma get_unique_text_Ok variants_df text_df cls save suppress_output V T w s w' :
  heap w !! variants_df = Some (OFrame V) →
  heap w !! text_df = Some (OFrame T) →
  run (pandas E) (get_unique_text variants_df text_df cls save suppress_output) w
    = Ok (s, w') →
  ∃ us, class_texts V T cls = Ok us ∧ join_cells nl us = Ok s ∧ heap w ⊆ heap w'.
Proof.
  unfold get_unique_text. intros HV HT H.
  step_ext H class_col w1 H1 S1.
  apply GetItem_Ok in H1 as (V' & cc & HV' & Hcc & A1).
  rewrite HV in HV'. injection HV' as <-.
  step_ext H is_cls w2 H2 S2. apply SeriesEq_Ok in H2 as (cc' & Hcc' & A2).
  rewrite (alloc_lookup _ _ _ _ A1) in Hcc'. injection Hcc' as <-.
  step_ext H matching_rows w3 H3 S3.
  apply LocMask_Ok in H3 as (V' & m & Vsel & HV' & Hm & HVsel & A3).
  rewrite (alloc_lookup _ _ _ _ A2) in Hm. injection Hm as <-.
  rewrite (lookup_weaken _ _ _ _ HV (transitivity S1 S2)) in HV'. injection HV' as <-.
  step_ext H matching_ids w4 H4 S4.
  apply GetItem_Ok in H4 as (Vsel' & mids & HVsel' & Hmids & A4).
  rewrite (alloc_lookup _ _ _ _ A3) in HVsel'. injection HVsel' as <-.
  assert (heap w ⊆ heap w4) as S04 by chain.
  step_ext H id_col w5 H5 S5.
  apply GetItem_Ok in H5 as (T' & tids & HT' & Htids & A5).
  rewrite (lookup_weaken _ _ _ _ HT S04) in HT'. injection HT' as <-.
  step_ext H is_match w6 H6 S6.
  apply IsIn_Ok in H6 as (tids' & mids' & Htids' & Hmids' & A6).
  rewrite (alloc_lookup _ _ _ _ A5) in Htids'. injection Htids' as <-.
  rewrite (lookup_weaken _ _ _ _ (alloc_lookup _ _ _ _ A4) S5) in Hmids'.
  injection Hmids' as <-.
  step_ext H class_text_df w7 H7 S7.
  apply LocMask_Ok in H7 as (T' & m & Tsel & HT' & Hm & HTsel & A7).
  rewrite (alloc_lookup _ _ _ _ A6) in Hm. injection Hm as <-.
  rewrite (lookup_weaken _ _ _ _ HT (transitivity S04 (transitivity S5 S6))) in HT'.
  injection HT' as <-.
  step_ext H text_col w8 H8 S8.
  apply GetItem_Ok in H8 as (Tsel' & tc & HTsel' & Htc & A8).
  rewrite (alloc_lookup _ _ _ _ A7) in HTsel'. injection HTsel' as <-.
  step_ext H unique_text w9 H9 S9. apply Unique_Ok in H9 as (tc' & Htc' & A9).
  rewrite (alloc_lookup _ _ _ _ A8) in Htc'. injection Htc' as <-.
  step_ext H unique_text_string w10 H10 S10.
  apply Join_Ok in H10 as (us & Hus & Hs & ->).
  rewrite (alloc_lookup _ _ _ _ A9) in Hus. injection Hus as <-.
  assert (class_texts V T cls = Ok (unique tc)) as Htexts.
  { unfold class_texts. rewrite Hcc. simpl. rewrite HVsel. simpl.
    rewrite Hmids. simpl. rewrite Htids. simpl. rewrite HTsel. simpl.
    by rewrite Htc. }
  assert (heap w ⊆ heap w9) as S by chain.
  clear -S H Hs Htexts.
  apply run_bind_Ok in H as (? & w10 & Hreport & H).
  assert (heap w9 ⊆ heap w10) as Sreport.
  { destruct suppress_output; cbn [negb] in Hreport;
      [simpl in Hreport; by injection Hreport as _ <- |].
    step_ext Hreport cls_size v1 R1 S1. step_ext Hreport unique_size v2 R2 S2.
    step_ext Hreport u v3 R3 S3.
    rewrite run_perform in Hreport.
    pose proof (pandas_extends _ _ _ _ _ Hreport eq_refl) as S4.
    chain. }
  apply run_bind_Ok in H as (? & w11 & Hsave & H).
  simpl in H. injection H as <- <-.
  exists (unique tc). split_and!; [done | done |].
  etrans; [exact S |]. etrans; [exact Sreport |]. clear S Sreport.
  destruct save as [path |]; [| simpl in Hsave; by injection Hsave as _ <-].
  step_ext Hsave u v1 P1 S1. step_ext Hsave f v2 P2 S2. step_ext Hsave u' v3 P3 S3.
  rewrite run_perform in Hsave.
  apply Open_Ok in P2 as (Hf & _ & _); [| by right].
  apply Close_Ok in Hsave as (? & ? & _ & ->).
  etrans; [exact S1 |]. apply insert_subseteq_r; [done |]. by etrans.
Qed.
End get_unique_text_facts.

(** C2. Every text that [get_unique_text] puts into the string it returns
    comes from a row of the text table whose ID has class label [cls] in
    the variants table, and no text is there twice: the string is the texts
    [texts] joined by line feeds, [texts] has no duplicates, and each of its
    items is the Text of a row of [text_df] whose ID is the ID of a row of
    [variants_df] of class [cls]. *)
Theorem get_unique_text_class_only (E : externals) (variants_df text_df : loc) (cls : Z)
    (save : option string) (suppress_output : bool) (V T : frame)
    (w : world) (s : string) (w' : world) :
  heap w !! variants_df = Some (OFrame V) →
  heap w !! text_df = Some (OFrame T) →
  run (pandas E) (get_unique_text variants_df text_df cls save suppress_output) w
    = Ok (s, w') →
  ∃ texts : list string,
    s = join nl texts ∧
    NoDup texts ∧
    ∀ t, t ∈ texts →
      ∃ row vrow id,
        row ∈ rows T ∧ cell_at T row "Text" = Some (VStr t) ∧
        cell_at T row "ID" = Some id ∧
        vrow ∈ rows V ∧ cell_at V vrow "ID" = Some id ∧
        cell_at V vrow "Class" = Some (VInt cls).
Proof.
  intros HV HT H.
  apply (get_unique_text_Ok _ _ _ _ _ _ _ _ _ _ _ HV HT) in H as (us & Hus & Hs & _).
  apply join_cells_Ok in Hs as (texts & -> & ->).
  apply class_texts_sound in Hus as [Hnodup Hfrom].
  exists texts. split_and!; [done | by eapply NoDup_fmap_1 |].
  intros t Ht. apply Hfrom, list_elem_of_fmap. by exists t.
Qed.

(** C8. No helper mutates a table: after a call of [get_unique_text] the
    two DataFrames it was given are what they were (as is every other object
    that existed), and after a call of [get_full_table] the two frames it
    loaded are the tables read from the files, the merged table being a
    third object, and every object that existed before is what it was. *)
Theorem tables_are_not_mutated (E : externals) (variants_df text_df : loc) (cls : Z)
    (save : option string) (suppress_output : bool) (V T : frame)
    (w : world) (s : string) (w' : world)
    (variants_file text_file : string) (u : world) (data_full : loc) (u' : world) :
  heap w !! variants_df = Some (OFrame V) →
  heap w !! text_df = Some (OFrame T) →
  run (pandas E) (get_unique_text variants_df text_df cls save suppress_output) w
    = Ok (s, w') →
  run (pandas E) (get_full_table variants_file text_file) u = Ok (data_full, u') →
  (heap w' !! variants_df = Some (OFrame V) ∧
   heap w' !! text_df = Some (OFrame T) ∧
   heap w ⊆ heap w') ∧
  (∃ vc tc Vf Tf variants text,
     fs u !! variants_file = Some vc ∧ parse_csv csv_default vc = Ok Vf ∧
     fs u !! text_file = Some tc ∧ parse_csv csv_text tc = Ok Tf ∧
     heap u' !! variants = Some (OFrame Vf) ∧
     heap u' !! text = Some (OFrame Tf) ∧
     data_full ≠ variants ∧ data_full ≠ text ∧
     heap u ⊆ heap u').
Proof.
  intros HV HT H1 H2. split.
  - apply (get_unique_text_Ok _ _ _ _ _ _ _ _ _ _ _ HV HT) in H1 as (_ & _ & _ & S).
    split_and!; [by eapply lookup_weaken.. | done].
  - apply get_full_table_Ok in H2
      as (vc & tc & Vf & Tf & F & lv & lt & u1 & u2 & Hvc & HVf & Htc & HTf & _ &
          A1 & A2 & A3).
    pose proof (alloc_lookup _ _ _ _ A1) as L1.
    pose proof (alloc_lookup _ _ _ _ A2) as L2.
    pose proof (alloc_keeps _ _ _ _ _ _ A2 L1) as L12.
    exists vc, tc, Vf, Tf, lv, lt. split_and!; try done.
    + by eapply alloc_keeps.
    + by eapply alloc_keeps.
    + intros ->. apply alloc_unused in A3. by rewrite A3 in L12.
    + intros ->. apply alloc_unused in A3. by rewrite A3 in L2.
    + etrans; [by eapply alloc_extends |]. etrans; by eapply alloc_extends.
Qed.

(* ===================================================================== *)
(** * What [submission] writes                                            *)
(* ===================================================================== *)

Lemma concat_str_cons (x : string) (l : list string) :
  concat_str (x :: l) = x +:+ concat_str l.
Proof. done. Qed.

Lemma range_of_nat (n : nat) : range (Z.of_nat n) = Z.of_nat <$> seq 0 n.
Proof. unfold range. by rewrite Nat2Z.id. Qed.

Section submission_facts.
Context (E : externals) (f : loc) (path : string) (m : loc) (M : matrix).

Lemma run_Write acc s w :
  writing f path m M acc w →
  ∃ w', pandas E _ (Write f s) w = Ok (tt, w') ∧ writing f path m M (acc +:+ s) w'.
Proof.
  intros (Hf & Hm & Hacc). simpl. rewrite Hf, Hacc. eexists. split; [done |].
  split_and!; simpl; [done | done | apply lookup_insert_eq].
Qed.

Lemma run_Shape acc w :
  writing f path m M acc w →
  pandas E _ (Shape m 0) w = Ok (Z.of_nat (shape0 M), w) ∧
  pandas E _ (Shape m 1) w = Ok (Z.of_nat (shape1 M), w).
Proof. intros (_ & Hm & _). simpl. by rewrite Hm. Qed.

Lemma position_in_range (n i : nat) :
  (i < n)%nat → position n (VInt (Z.of_nat i)) = Ok i.
Proof.
  intros Hi. unfold position. rewrite bool_decide_eq_true_2 by lia.
  by rewrite Nat2Z.id.
Qed.

Lemma run_Item2 acc w (i j : nat) :
  writing f path m M acc w → (i < shape0 M)%nat → (j < shape1 M)%nat →
  pandas E _ (Item2 m (Z.of_nat i) (Z.of_nat j)) w = Ok (item M i j, w).
Proof.
  intros (_ & Hm & _) Hi Hj. simpl. rewrite Hm. unfold item2.
  by rewrite !position_in_range.
Qed.

(** The inner loop of [submission], over the columns [js] of row [i]. *)
Lemma run_columns (i : nat) (js : list nat) acc w :
  writing f path m M acc w → (i < shape0 M)%nat →
  Forall (λ j, j < shape1 M)%nat js →
  ∃ w',
    run (pandas E)
      (for_each (Z.of_nat <$> js) (λ j,
         p ← perform (Item2 m (Z.of_nat i) j);
         s ← perform (Str p);
         _ ← perform (Write f s);
         if bool_decide (j < 8)%Z then perform (Write f ",") else mret tt)) w
    = Ok (tt, w') ∧
    writing f path m M (acc +:+ concat_str (cell_text E M i <$> js)) w'.
Proof.
  intros Hw Hi Hjs. revert acc w Hw.
  induction Hjs as [| j js Hj Hjs IH]; intros acc w Hw.
  - exists w. split; [done |]. simpl. by rewrite string_app_nil_r.
  - rewrite fmap_cons, run_for_each_cons.
    rewrite run_bind, run_perform, (run_Item2 acc w i j Hw Hi Hj).
    rewrite run_bind, run_perform. simpl (pandas E _ (Str _) w). unfold ret_.
    rewrite run_bind, run_perform.
    destruct (run_Write acc (str_scalar E (item M i j)) w Hw) as (w1 & -> & Hw1).
    assert (∃ w2, run (pandas E)
              (if bool_decide (Z.of_nat j < 8)%Z
               then perform (Write f ",") else mret ()) w1 = Ok (tt, w2) ∧
            writing f path m M (acc +:+ cell_text E M i j) w2) as (w2 & -> & Hw2).
    { unfold cell_text. case_bool_decide.
      - rewrite run_perform. destruct (run_Write _ "," w1 Hw1) as (w2 & -> & Hw2).
        exists w2. by rewrite <-string_app_assoc.
      - exists w1. by rewrite string_app_nil_r. }
    destruct (IH _ _ Hw2) as (w' & -> & Hw'). exists w'. split; [done |].
    by rewrite fmap_cons, concat_str_cons, <-string_app_assoc.
Qed.

(** The outer loop, over the rows [ixs]. *)
Lemma run_rows (ixs : list nat) acc w :
  writing f path m M acc w → Forall (λ i, i < shape0 M)%nat ixs →
  ∃ w',
    run (pandas E)
      (for_each (Z.of_nat <$> ixs) (λ i,
         _ ← perform (Write f (str_Z i +:+ ","));
         n_class ← perform (Shape m 1);
         _ ← for_each (range n_class) (λ j,
           p ← perform (Item2 m i j);
           s ← perform (Str p);
           _ ← perform (Write f s);
           if bool_decide (j < 8)%Z then perform (Write f ",") else mret tt);
         perform (Write f nl))) w
    = Ok (tt, w') ∧
    writing f path m M
      (acc +:+ concat_str ((λ i, row_text E M i +:+ nl) <$> ixs)) w'.
Proof.
  intros Hw His. revert acc w Hw.
  induction His as [| i ixs Hi His IH]; intros acc w Hw.
  - exists w. split; [done |]. simpl. by rewrite string_app_nil_r.
  - rewrite fmap_cons, run_for_each_cons.
    rewrite run_bind, run_perform.
    destruct (run_Write acc (str_Z (Z.of_nat i) +:+ ",") w Hw) as (w1 & -> & Hw1).
    rewrite run_bind, run_perform, (proj2 (run_Shape _ _ Hw1)).
    rewrite run_bind, range_of_nat.
    destruct (run_columns i (seq 0 (shape1 M)) _ _ Hw1 Hi) as (w2 & -> & Hw2).
    { apply Forall_seq. lia. }
    rewrite run_perform.
    destruct (run_Write _ nl w2 Hw2) as (w3 & -> & Hw3).
    destruct (IH _ _ Hw3) as (w' & -> & Hw'). exists w'. split; [done |].
    rewrite fmap_cons, concat_str_cons. unfold row_text.
    by rewrite !string_app_assoc in *.
Qed.

End submission_facts.

Lemma unlines_concat (hd : string) (ls : list string) :
  unlines (hd :: ls) = (hd +:+ nl) +:+ concat_str ((λ l, l +:+ nl) <$> ls).
Proof.
  simpl unlines. unfold nl at 1. rewrite string_app_assoc. f_equal.
  rewrite string_app_cons, string_app_nil_l. f_equal.
  induction ls as [| l ls IH]; [done |].
  rewrite fmap_cons, concat_str_cons. simpl. rewrite IH. unfold nl.
  by rewrite string_app_assoc, string_app_cons, string_app_nil_l.
Qed.

(** [submission] always completes on a matrix, and the file then holds
    [submission_text]. *)
Lemma submission_run (E : externals) (filename : string) (prob_matrix : loc)
    (M : matrix) (w : world) :
  heap w !! prob_matrix = Some (OMatrix M) →
  ∃ w', run (pandas E) (submission filename prob_matrix) w = Ok (tt, w') ∧
        fs w' !! filename = Some (submission_text E M).
Proof.
  intros Hm. unfold submission.
  rewrite run_bind, run_perform.
  destruct (pandas E _ (Open filename "w") w) as [[f w0] | e] eqn:Hopen;
    [| by simpl in Hopen].
  apply Open_Ok in Hopen as (Hf & Hheap & Hfs); [| by left].
  assert (writing f filename prob_matrix M "" w0) as Hw0.
  { split_and!.
    - rewrite Hheap. apply lookup_insert_eq.
    - rewrite Hheap, lookup_insert_ne; [done |]. intros <-. by rewrite Hf in Hm.
    - rewrite Hfs. apply lookup_insert_eq. }
  rewrite run_bind, run_perform.
  destruct (run_Write E _ _ _ _ _ (header_line +:+ nl) _ Hw0) as (w1 & -> & Hw1).
  rewrite run_bind, run_perform, (proj1 (run_Shape E _ _ _ _ _ _ Hw1)).
  rewrite run_bind, range_of_nat.
  destruct (run_rows E _ _ _ _ (seq 0 (shape0 M)) _ _ Hw1) as (w2 & -> & Hw2).
  { apply Forall_seq. lia. }
  rewrite run_perform.
  destruct Hw2 as (Hf2 & _ & Hacc). simpl. rewrite Hf2.
  eexists. split; [done |]. simpl. rewrite Hacc. f_equal.
  unfold submission_text. rewrite unlines_concat, <-list_fmap_compose. done.
Qed.

Section submission_format.
Context (E : externals) (M : matrix).
Hypothesis entries_numeric :
  ∀ i j, (i < shape0 M)%nat → (j < shape1 M)%nat →
         numeric_field (str_scalar E (item M i j)) = true.

Lemma free_of_concat_str (c : ascii) (l : list string) :
  Forall (λ s, free_of c s = true) l → free_of c (concat_str l) = true.
Proof.
  induction 1 as [| s l Hs Hl IH]; [done |].
  unfold free_of in *. by rewrite concat_str_cons, all_chars_app, Hs, IH.
Qed.

Lemma cell_text_free_of_nl (i j : nat) :
  (i < shape0 M)%nat → (j < shape1 M)%nat →
  free_of nl_char (cell_text E M i j) = true.
Proof.
  intros Hi Hj. unfold cell_text, free_of. rewrite all_chars_app.
  apply andb_true_iff. split; [| by case_bool_decide].
  by apply (numeric_field_free nl_char), entries_numeric.
Qed.

Lemma row_text_free_of_nl (i : nat) :
  (i < shape0 M)%nat → free_of nl_char (row_text E M i) = true.
Proof.
  intros Hi. unfold row_text, free_of. rewrite !all_chars_app.
  fold (free_of nl_char).
  rewrite (numeric_field_free nl_char _ eq_refl (str_Z_numeric _)).
  rewrite free_of_concat_str; [done |].
  apply Forall_fmap, Forall_forall. intros j [_ Hj]%elem_of_seq.
  by apply cell_text_free_of_nl.
Qed.

Lemma splitlines_submission_text :
  splitlines (submission_text E M) = header_line :: (row_text E M <$> seq 0 (shape0 M)).
Proof.
  apply splitlines_unlines. constructor; [done |].
  apply Forall_fmap, Forall_forall. intros i [_ Hi]%elem_of_seq.
  by apply row_text_free_of_nl.
Qed.

(** The first field of a data line is the row index. *)
Lemma split_row_text (i : nat) :
  ∃ rest, split "," (row_text E M i) = str_Z (Z.of_nat i) :: rest.
Proof.
  unfold row_text, split. eexists.
  change ("," +:+ ?s) with (String comma_char s).
  rewrite (split_go_sep comma_char); [done |].
  by apply (numeric_field_free comma_char), str_Z_numeric.
Qed.

(** With nine columns a data line is the row index and the nine numbers,
    joined by commas. *)
Lemma row_text_nine (i : nat) :
  shape1 M = 9%nat →
  row_text E M i
  = join "," (str_Z (Z.of_nat i) :: ((λ j, str_scalar E (item M i j)) <$> seq 0 9)).
Proof.
  intros H9. unfold row_text, cell_text. rewrite H9. simpl.
  by rewrite !string_app_assoc, !string_app_nil_r.
Qed.

(** Its comma-separated fields are then the row index and the nine
    numbers. *)
Lemma split_row_text_nine (i : nat) :
  shape1 M = 9%nat → (i < shape0 M)%nat →
  split "," (row_text E M i)
  = str_Z (Z.of_nat i) :: ((λ j, str_scalar E (item M i j)) <$> seq 0 9).
Proof.
  intros H9 Hi. rewrite (row_text_nine i H9).
  change "," with (String comma_char "").
  apply split_join; [done |].
  constructor; [by apply (numeric_field_free comma_char), str_Z_numeric |].
  apply Forall_fmap, Forall_forall. intros j [_ Hj]%elem_of_seq.
  apply (numeric_field_free comma_char); [done |]. apply entries_numeric; lia.
Qed.

End submission_format.

(** A matrix of numbers, printed by a [str] that prints every finite float
    as a numeral, has numerals as the texts of its entries. *)
Lemma entries_numeral (E : externals) (M : matrix) (n_class : nat) :
  (∀ q, numeral (float_str E (FNum q)) = true) →
  (∀ i j, (i < shape0 M)%nat → (j < n_class)%nat → item M i j ≠ SFloat FNan) →
  ∀ i j, (i < shape0 M)%nat → (j < n_class)%nat →
         numeral (str_scalar E (item M i j)) = true.
Proof.
  intros Hstr Hnum i j Hi Hj. specialize (Hnum i j Hi Hj).
  destruct (item M i j) as [z | [q |]]; simpl; [apply str_Z_numeral | apply Hstr | done].
Qed.

(** C3, as amended. For every probability matrix with nine columns,
    [submission] completes and the file it wrote is one header line
    [ID,class1,...,class9] followed by one data line per row of the matrix,
    each data line ending in nine comma-separated numeric fields: the
    comma-separated fields of data line [i] are the row index and then the
    texts of the nine entries of row [i], in order, each of them a numeral.
    The entries are numbers (no NaN), and [str] prints a finite float as a
    numeral. *)
Theorem submission_nine_classes (E : externals) (filename : string) (prob_matrix : loc)
    (M : matrix) (w : world) :
  heap w !! prob_matrix = Some (OMatrix M) →
  shape1 M = 9%nat →
  (∀ q, numeral (float_str E (FNum q)) = true) →
  (∀ i j, (i < shape0 M)%nat → (j < 9)%nat → item M i j ≠ SFloat FNan) →
  ∃ w' content data,
    run (pandas E) (submission filename prob_matrix) w = Ok (tt, w') ∧
    fs w' !! filename = Some content ∧
    splitlines content = header_line :: data ∧
    length data = shape0 M ∧
    (∀ (i : nat) line, data !! i = Some line →
       split "," line
       = str_Z (Z.of_nat i) :: ((λ j, str_scalar E (item M i j)) <$> seq 0 9) ∧
       ∀ j, (j < 9)%nat → numeral (str_scalar E (item M i j)) = true) ∧
    well_formed_submission (shape0 M) content = true.
Proof.
  intros Hm H9 Hstr Hnum.
  pose proof (entries_numeral E M 9 Hstr Hnum) as Hnumeral.
  assert (∀ i j, (i < shape0 M)%nat → (j < shape1 M)%nat →
                 numeric_field (str_scalar E (item M i j)) = true) as Hfield.
  { intros i j Hi Hj. apply numeral_numeric_field, Hnumeral; [done | lia]. }
  destruct (submission_run E filename prob_matrix M w Hm) as (w' & Hrun & Hfile).
  pose proof (splitlines_submission_text E M Hfield) as Hlines.
  exists w', (submission_text E M), (row_text E M <$> seq 0 (shape0 M)).
  split_and!; [done | done | done | by rewrite length_fmap, length_seq | |].
  - intros i line Hline. rewrite list_lookup_fmap in Hline.
    destruct (seq 0 (shape0 M) !! i) as [k |] eqn:Hk; [| done].
    apply lookup_seq in Hk as [-> Hi]. injection Hline as <-.
    split; [by apply split_row_text_nine |]. intros j Hj. by apply Hnumeral.
  - unfold well_formed_submission. rewrite Hlines.
    rewrite bool_decide_eq_true_2 by done.
    rewrite length_fmap, length_seq, Nat.eqb_refl. simpl.
    apply forallb_forall. intros line Hline.
    apply in_map_iff in Hline as (i & <- & [_ Hi]%in_seq).
    unfold nine_numeric_fields. rewrite (split_row_text_nine E M Hfield i H9 Hi).
    simpl. rewrite !Hnumeral by (done || lia). done.
Qed.

(** C9. In the file written by [submission], the ID field of the [i]-th
    data line is the decimal text of the row index [i], whatever the matrix
    holds: the file is the header line followed by one data line per row,
    and the first comma-separated field of data line [i] is [str(i)]. *)
Theorem submission_ids_are_row_indices (E : externals) (filename : string)
    (prob_matrix : loc) (M : matrix) (w : world) :
  heap w !! prob_matrix = Some (OMatrix M) →
  (∀ x, numeric_field (float_str E x) = true) →
  ∃ w' content data,
    run (pandas E) (submission filename prob_matrix) w = Ok (tt, w') ∧
    fs w' !! filename = Some content ∧
    splitlines content = header_line :: data ∧
    length data = shape0 M ∧
    ∀ (i : nat) line, data !! i = Some line →
      ∃ rest, split "," line = str_Z (Z.of_nat i) :: rest.
Proof.
  intros Hm Hnum.
  destruct (submission_run E filename prob_matrix M w Hm) as (w' & Hrun & Hfile).
  exists w', (submission_text E M), (row_text E M <$> seq 0 (shape0 M)).
  split_and!; [done | done | | |].
  - apply splitlines_submission_text. intros i j _ _.
    destruct (item M i j); [apply str_Z_numeric | apply Hnum].
  - by rewrite length_fmap, length_seq.
  - intros i line Hline. rewrite list_lookup_fmap in Hline.
    destruct (seq 0 (shape0 M) !! i) as [k|] eqn:Hk; [| done].
    apply lookup_seq in Hk as [-> _]. injection Hline as <-.
    by apply split_row_text.
Qed.

(* ===================================================================== *)
(** * The cross-validation score                                          *)
(* ===================================================================== *)

Lemma sum_nonneg (qs : list Q) :
  Forall (λ q, 0 <= q)%Q qs → (0 <= foldr Qplus 0%Q qs)%Q.
Proof.
  induction 1 as [| q qs Hq _ IH]; simpl; [apply Qle_refl |].
  replace 0%Q with (0 + 0)%Q by done. by apply Qplus_le_compat.
Qed.

(** Non-negative losses are numbers that are not negative. *)
Lemma nonneg_numbers (values : list pyfloat) :
  Forall nonneg values →
  ∃ qs, values = FNum <$> qs ∧ Forall (λ q, 0 <= q)%Q qs.
Proof.
  induction 1 as [| v values Hv _ (qs & -> & Hpos)]; [by exists [] |].
  destruct v as [q |]; [| done]. exists (q :: qs). split; [done | by constructor].
Qed.

Lemma mapM_the_num (qs : list Q) : mapM the_num (FNum <$> qs) = Some qs.
Proof.
  induction qs as [| q qs IH]; [done |].
  change (mapM the_num (FNum <$> q :: qs))
    with (mapM the_num (FNum <$> qs) ≫= λ k, Some (q :: k)).
  by rewrite IH.
Qed.

(** [np.mean] of numbers, at least one, is their arithmetic mean. *)
Lemma np_mean_numbers (qs : list Q) : qs ≠ [] → np_mean (FNum <$> qs) = FNum (mean qs).
Proof.
  intros Hne. destruct qs as [| q qs]; [done |].
  pose proof (mapM_the_num (q :: qs)) as Hm.
  change (FNum <$> q :: qs) with (FNum q :: (FNum <$> qs)) in Hm |- *.
  unfold np_mean. by rewrite Hm.
Qed.

Lemma mean_nonneg (qs : list Q) : qs ≠ [] → Forall (λ q, 0 <= q)%Q qs → (0 <= mean qs)%Q.
Proof.
  intros Hne Hpos. destruct qs as [| q qs]; [done |].
  unfold mean. apply Qle_shift_div_l.
  - unfold Qlt, inject_Z. simpl. lia.
  - rewrite Qmult_0_l. by apply (sum_nonneg (q :: qs)).
Qed.

Section calls_facts.
Context (h : handler).

Lemma calls_bind {A B} (p : prog A) (f : A → prog B) (w : world) :
  calls h (p ≫= f) w =
  (calls h p w ++
   match run h p w with
   | Ok (a, w1) => calls h (f a) w1
   | Raise _ => []
   end)%list.
Proof.
  revert w. induction p as [a | X c k IH]; intros w; [done |].
  change (calls h (Do c k ≫= f) w) with
    (match h _ c w with
     | Ok (x, w1) => Event _ c x :: calls h (k x ≫= f) w1
     | Raise _ => []
     end).
  simpl. destruct (h X c w) as [[x w1] | e]; [| done]. by rewrite IH.
Qed.

Lemma calls_perform {X} (c : call X) (w : world) :
  calls h (perform c) w
  = match h _ c w with Ok (x, _) => [Event _ c x] | Raise _ => [] end.
Proof. simpl. by destruct (h X c w) as [[x w1] | e]. Qed.

(** One call that returns, then the rest. *)
Lemma calls_step {X A} (c : call X) (k : X → prog A) w x w1 :
  h _ c w = Ok (x, w1) →
  calls h (perform c ≫= k) w = Event _ c x :: calls h (k x) w1.
Proof. intros Hc. by rewrite calls_bind, calls_perform, run_perform, Hc. Qed.

Lemma calls_for_fold_cons {A S} (x : A) l (s : S) (body : S → A → prog S) w :
  calls h (for_fold (x :: l) s body) w =
  (calls h (body s x) w ++
   match run h (body s x) w with
   | Ok (s1, w1) => calls h (for_fold l s1 body) w1
   | Raise _ => []
   end)%list.
Proof. apply (calls_bind (body s x) (λ s1, for_fold l s1 body)). Qed.

End calls_facts.

Lemma log_losses_app (t u : list event) :
  log_losses (t ++ u) = (log_losses t ++ log_losses u)%list.
Proof. apply flat_map_app. Qed.

Lemma yielded_folds_app (t u : list event) :
  yielded_folds (t ++ u) = (yielded_folds t ++ yielded_folds u)%list.
Proof. apply flat_map_app. Qed.

(** One step of a program, for its result and for its calls. *)
Ltac step_calls H x w Hc :=
  step H x w Hc; rewrite (calls_step _ _ _ _ _ _ Hc).

Section kfold_score_facts.
Context (E : externals).
Hypothesis log_loss_nonneg :
  ∀ y_true y_prob u loss u',
    foreign E _ (LogLoss y_true y_prob) u = Ok (loss, u') → nonneg loss.

(** The loop of [kfold_score] appends the loss of each fold: when it
    completes, [values] has grown by the results of its calls of
    [log_loss], one per fold, none of them negative. *)
Lemma run_folds clf X y lb (folds : list (loc * loc)) values w values' w' loop :
  loop =
    for_fold folds values (λ values '(train, test),
      X_train ← perform (Foreign "getitem" [PRef X; PRef train] [] TRef);
      y_train ← perform (Foreign "getitem" [PRef y; PRef train] [] TRef);
      _ ← perform (Foreign "fit" [PRef clf; PRef X_train; PRef y_train] [] TRef);
      X_test ← perform (Foreign "getitem" [PRef X; PRef test] [] TRef);
      y_test_prob ← perform (Foreign "predict_proba" [PRef clf; PRef X_test] [] TRef);
      y_test ← perform (Foreign "getitem" [PRef y; PRef test] [] TRef);
      y_true ← perform (Foreign "LabelBinarizer.transform" [PRef lb; PRef y_test] [] TRef);
      loss ← perform (LogLoss y_true y_test_prob);
      mret (values ++ [loss])%list) →
  run (pandas E) loop w = Ok (values', w') →
  values' = (values ++ log_losses (calls (pandas E) loop w))%list ∧
  yielded_folds (calls (pandas E) loop w) = [] ∧
  length (log_losses (calls (pandas E) loop w)) = length folds ∧
  Forall nonneg (log_losses (calls (pandas E) loop w)).
Proof.
  intros ->.
  revert values w. induction folds as [| [train test] folds IH]; intros values w.
  - simpl. intros [= <- <-]. by rewrite app_nil_r.
  - rewrite run_for_fold_cons, calls_for_fold_cons.
    destruct (run _ _ w) as [[values1 w1] |] eqn:Hbody; [| done].
    intros Hrest.
    step_calls Hbody X_train u1 H1. step_calls Hbody y_train u2 H2.
    step_calls Hbody r u3 H3. step_calls Hbody X_test u4 H4.
    step_calls Hbody y_test_prob u5 H5. step_calls Hbody y_test u6 H6.
    step_calls Hbody y_true u7 H7. step_calls Hbody loss u8 H8.
    simpl in Hbody. injection Hbody as <- <-.
    apply log_loss_nonneg in H8.
    apply IH in Hrest as (-> & Hnone & Hlen & Hall).
    match goal with
    | |- context [calls (pandas E) (for_fold folds ?v ?b) u8] =>
        set (rest := calls (pandas E) (for_fold folds v b) u8) in *
    end.
    clearbody rest.
    rewrite !log_losses_app, !yielded_folds_app, Hnone. simpl.
    split_and!.
    + by rewrite <-app_assoc.
    + done.
    + by rewrite Hlen.
    + by constructor.
Qed.

End kfold_score_facts.

(** C4. [kfold_score] returns a non-negative scalar, the mean over the
    folds of the per-fold log-loss: granted that the log loss of
    scikit-learn is non-negative and that its [KFold] yields at least one
    fold (it requires two), whenever [kfold_score] returns, the results of
    its calls of [log_loss] are numbers [losses], none of them negative, one
    for each fold that [KFold.split] yielded, and what it returns is their
    arithmetic mean, a non-negative number. *)
Theorem kfold_score_nonneg (E : externals) (clf X y : loc) (splits : Z)
    (w : world) (v : pyfloat) (w' : world) :
  (∀ k_fold X0 u folds u',
     foreign E _ (KFoldSplit k_fold X0) u = Ok (folds, u') → folds ≠ []) →
  (∀ y_true y_prob u loss u',
     foreign E _ (LogLoss y_true y_prob) u = Ok (loss, u') → nonneg loss) →
  run (pandas E) (kfold_score clf X y splits) w = Ok (v, w') →
  nonneg v ∧
  ∃ losses : list Q,
    log_losses (calls (pandas E) (kfold_score clf X y splits) w) = FNum <$> losses ∧
    length losses
    = length (yielded_folds (calls (pandas E) (kfold_score clf X y splits) w)) ∧
    losses ≠ [] ∧
    Forall (λ loss, 0 <= loss)%Q losses ∧
    v = FNum (mean losses).
Proof.
  intros Hfolds Hloss H.
  remember (calls (pandas E) (kfold_score clf X y splits) w) as t eqn:Ht.
  unfold kfold_score in H, Ht.
  step H lb u1 H1. rewrite (calls_step _ _ _ _ _ _ H1) in Ht.
  step H r u2 H2. rewrite (calls_step _ _ _ _ _ _ H2) in Ht.
  step H k_fold u3 H3. rewrite (calls_step _ _ _ _ _ _ H3) in Ht.
  step H folds u4 H4. rewrite (calls_step _ _ _ _ _ _ H4) in Ht.
  pose proof (Hfolds _ _ _ _ _ H4) as Hne.
  rewrite calls_bind in Ht.
  apply run_bind_Ok in H as (values & u5 & Hloop & H).
  rewrite Hloop in Ht.
  apply (run_folds E Hloss _ _ _ _ _ _ _ _ _ _ eq_refl) in Hloop
    as (-> & Hnone & Hlen & Hall).
  match type of Hlen with
  | length (log_losses ?t) = _ => set (trace := t) in Hnone, Hlen, Hall, Ht, H
  end.
  clearbody trace.
  rewrite run_perform in H. simpl in H. injection H as <- _.
  rewrite calls_perform in Ht. subst t.
  cbn [log_losses yielded_folds flat_map loss_of folds_of ev_call ev_result].
  simpl pandas. unfold ret_.
  fold (log_losses (trace ++ [Event _ (NpMean ([] ++ log_losses trace))
                                (np_mean ([] ++ log_losses trace))]))
       (yielded_folds (trace ++ [Event _ (NpMean ([] ++ log_losses trace))
                                   (np_mean ([] ++ log_losses trace))])).
  rewrite log_losses_app, yielded_folds_app, Hnone. simpl. rewrite !app_nil_r.
  apply nonneg_numbers in Hall as (losses & Heq & Hpos).
  assert (losses ≠ []) as Hlosses.
  { intros ->. rewrite Heq in Hlen. by destruct folds. }
  rewrite Heq, (np_mean_numbers _ Hlosses).
  split; [by apply mean_nonneg |].
  exists losses. split_and!; [done | | done | done | done].
  by rewrite <-Hlen, Heq, length_fmap.
Qed.

(* ===================================================================== *)
(** * Loading the tables                                                  *)
(* ===================================================================== *)

Lemma parse_csv_default (content : string) :
  parse_csv csv_default content = comma_table content.
Proof.
  unfold parse_csv, comma_table. simpl names. simpl skiprows. simpl sep.
  rewrite drop_0. by destruct (filter _ (splitlines content)).
Qed.

Lemma parse_csv_text (content : string) :
  parse_csv csv_text content = double_pipe_table content.
Proof. done. Qed.

Lemma build_frame_columns cols recs f : build_frame cols recs = Ok f → columns f = cols.
Proof. unfold build_frame. case_match; [by intros [= <-] | done]. Qed.

Lemma alloc_total (o : obj) (w : world) : ∃ l w', alloc o w = Ok (l, w').
Proof. by eexists _, _. Qed.

Section loading.
Context (E : externals).

Lemma train_test_split_fs X y test_size random_state stratify w r w' :
  train_test_split_ E X y test_size random_state stratify w = Ok (r, w') →
  fs w' = fs w.
Proof.
  unfold train_test_split_. intros H. inv_M.
  destruct (split_frames E _ _ _ _ _) as [[[[[a b] c] d] | e] g']; [| done].
  match type of H with
  | bind_ _ _ ?w1 = _ => assert (fs w = fs w1) as -> by by destruct random_state
  end.
  inv_M.
  repeat match goal with
    | Ha : alloc _ _ = Ok _ |- _ => apply alloc_fs in Ha
    end.
  congruence.
Qed.

Lemma pandas_fs {X} (c : call X) w x w' :
  pandas E _ c w = Ok (x, w') → keeps_files c = true → fs w' = fs w.
Proof.
  intros H Hc. revert Hc H.
  destruct c; simpl; try done; intros Hc H;
    try (inv_M; first [ by eapply alloc_fs | done ]).
  - by injection H as <- <-.
  - destruct (heap w !! f) as [[]|]; try done. by injection H as <- <-.
  - inv_M. destruct (get_column _ c); [by eapply alloc_fs | done].
  - destruct (heap w !! a); [| done]. by inv_M.
  - destruct (heap w !! a) as [[]|]; try done. by inv_M.
  - by eapply train_test_split_fs.
Qed.

(** The two [read_csv] calls that every loader makes, one after the
    other: two new objects, the comma table of the variants file and the
    double-pipe table of the text file. *)
Lemma read_both variants_file text_file w y w1 X w2 :
  pandas E _ (ReadCsv variants_file csv_default) w = Ok (y, w1) →
  pandas E _ (ReadCsv text_file csv_text) w1 = Ok (X, w2) →
  ∃ vc tc V T,
    fs w !! variants_file = Some vc ∧ fs w !! text_file = Some tc ∧
    comma_table vc = Ok V ∧ double_pipe_table tc = Ok T ∧
    columns T = ["ID"; "Text"] ∧
    heap w !! y = None ∧ heap w !! X = None ∧
    heap w2 !! y = Some (OFrame V) ∧ heap w2 !! X = Some (OFrame T) ∧
    heap w ⊆ heap w2 ∧ fs w2 = fs w.
Proof.
  intros (vc & V & Hvc & HV & A1)%ReadCsv_Ok (tc & T & Htc & HT & A2)%ReadCsv_Ok.
  rewrite (alloc_fs _ _ _ _ A1) in Htc.
  rewrite parse_csv_default in HV. rewrite parse_csv_text in HT.
  exists vc, tc, V, T. split_and!; try done.
  - by apply build_frame_columns in HT.
  - by apply alloc_unused in A1.
  - apply alloc_unused in A2. by eapply lookup_weaken_None, alloc_extends.
  - eapply alloc_keeps; [done |]. by eapply alloc_lookup.
  - by eapply alloc_lookup.
  - etrans; by eapply alloc_extends.
  - by rewrite (alloc_fs _ _ _ _ A2), (alloc_fs _ _ _ _ A1).
Qed.

End loading.

(** One step of a program by a call that only allocates and leaves the
    files alone. *)
Ltac step_pure H x w Hc S F :=
  step_ext H x w Hc S; pose proof (pandas_fs _ _ _ _ _ Hc eq_refl) as F.

(** C5. Each function that loads the two files ([train_test_split],
    [get_training], [get_test], [get_full_table]) reads the text file as a
    double-pipe-delimited table with the columns ID and Text, its first line
    skipped, and the variants file as a comma-separated table with a header:
    whenever the call returns, it has created two objects that hold exactly
    these two tables. *)
Theorem loaders_parse_the_files (E : externals) (l : loader)
    (variants_file text_file : string) (w : world) (r : loaded l) (w' : world) :
  run (pandas E) (load l variants_file text_file) w = Ok (r, w') →
  ∃ vc tc V T y X,
    fs w !! variants_file = Some vc ∧ fs w !! text_file = Some tc ∧
    comma_table vc = Ok V ∧ double_pipe_table tc = Ok T ∧
    columns T = ["ID"; "Text"] ∧
    heap w !! y = None ∧ heap w !! X = None ∧
    heap w' !! y = Some (OFrame V) ∧ heap w' !! X = Some (OFrame T).
Proof.
  assert (∀ index_path w r w',
    run (pandas E)
      (_ ← perform (Import "pandas");
       index_df ← perform (ReadCsv index_path csv_index);
       index_col ← perform (GetItem index_df "ID");
       positions ← perform (ToList index_col);
       y ← perform (ReadCsv variants_file csv_default);
       X ← perform (ReadCsv text_file csv_text);
       X_part ← perform (ILoc X positions);
       y_part ← perform (ILoc y positions);
       mret (X_part, y_part)) w = Ok (r, w') →
    ∃ vc tc V T y X,
      fs w !! variants_file = Some vc ∧ fs w !! text_file = Some tc ∧
      comma_table vc = Ok V ∧ double_pipe_table tc = Ok T ∧
      columns T = ["ID"; "Text"] ∧
      heap w !! y = None ∧ heap w !! X = None ∧
      heap w' !! y = Some (OFrame V) ∧ heap w' !! X = Some (OFrame T)) as Hpart.
  { clear. intros index_path w r w' H.
    step_pure H u w1 H1 S1 F1. step_pure H index_df w2 H2 S2 F2.
    step_pure H index_col w3 H3 S3 F3. step_pure H positions w4 H4 S4 F4.
    step H y w5 H5. step H X w6 H6.
    destruct (read_both E _ _ _ _ _ _ _ H5 H6)
      as (vc & tc & V & T & Hvc & Htc & HV & HT & Hcols & Hy & HX & Hy' & HX' & _ & _).
    step_ext H X_part w7 H7 S7. step_ext H y_part w8 H8 S8.
    simpl in H. injection H as <- <-.
    assert (heap w ⊆ heap w4) as S04 by chain.
    assert (fs w4 = fs w) as F04 by congruence.
    rewrite F04 in Hvc, Htc.
    exists vc, tc, V, T, y, X. split_and!; try done.
    - by eapply lookup_weaken_None.
    - by eapply lookup_weaken_None.
    - eapply lookup_weaken; [done | chain].
    - eapply lookup_weaken; [done | chain]. }
  destruct l; intros H; unfold load in H.
  - unfold train_test_split in H.
    step_pure H u w1 H1 S1 F1. step_pure H u' w2 H2 S2 F2.
    step H y w3 H3. step H X w4 H4.
    destruct (read_both E _ _ _ _ _ _ _ H3 H4)
      as (vc & tc & V & T & Hvc & Htc & HV & HT & Hcols & Hy & HX & Hy' & HX' & _ & _).
    step_ext H y_Class w5 H5 S5. step_ext H parts w6 H6 S6.
    destruct parts as [[[a b] c] d]. simpl in H. injection H as <- <-.
    assert (heap w ⊆ heap w2) as S02 by chain.
    assert (fs w2 = fs w) as F02 by congruence.
    rewrite F02 in Hvc, Htc.
    exists vc, tc, V, T, y, X. split_and!; try done.
    + by eapply lookup_weaken_None.
    + by eapply lookup_weaken_None.
    + eapply lookup_weaken; [done | chain].
    + eapply lookup_weaken; [done | chain].
  - by apply Hpart in H.
  - by apply Hpart in H.
  - unfold get_full_table in H.
    step H y w1 H1. step H X w2 H2.
    destruct (read_both E _ _ _ _ _ _ _ H1 H2)
      as (vc & tc & V & T & Hvc & Htc & HV & HT & Hcols & Hy & HX & Hy' & HX' & _ & _).
    step_ext H data_full w3 H3 S3. simpl in H. injection H as <- <-.
    exists vc, tc, V, T, y, X. split_and!; try done; by eapply lookup_weaken.
Qed.

(* ===================================================================== *)
(** * The precomputed split                                               *)
(* ===================================================================== *)

Lemma get_column_values f c vs :
  column_values f c = Some vs → ∃ s, get_column f c = Ok s ∧ s.*2 = vs.
Proof.
  unfold column_values, get_column. destruct (index_of c (columns f)) as [i|]; [| done].
  intros [= <-]. eexists. split; [done |]. by rewrite <-list_fmap_compose.
Qed.

Lemma row_at_in_range {A} (rs : list A) (p : nat) (r : A) :
  rs !! p = Some r → row_at rs (VInt (Z.of_nat p)) = Ok r.
Proof.
  intros Hr. unfold row_at.
  rewrite position_in_range by by eapply lookup_lt_Some.
  simpl. by rewrite Hr.
Qed.

(** [iloc] with positions in range takes the rows at these positions. *)
Lemma iloc_in_range (f : frame) (ps : list nat) :
  Forall (λ p, p < length (rows f))%nat ps →
  iloc f (VInt <$> (Z.of_nat <$> ps)) = Ok (Frame (columns f) (rows_at (rows f) ps)).
Proof.
  intros Hps. unfold iloc, rmap.
  assert (rmapM (row_at (rows f)) (VInt <$> (Z.of_nat <$> ps)) = Ok (rows_at (rows f) ps))
    as ->; [| done].
  induction Hps as [| p ps Hp _ IH]; [done |].
  apply lookup_lt_is_Some in Hp as [r Hr].
  rewrite !fmap_cons. simpl rmapM. rewrite (row_at_in_range _ _ _ Hr), IH.
  unfold rows_at. simpl. by rewrite Hr.
Qed.

Section forward.
Context (E : externals).

Lemma ReadCsv_run path o w content f :
  fs w !! path = Some content → parse_csv o content = Ok f →
  pandas E _ (ReadCsv path o) w = alloc (OFrame f) w.
Proof.
  intros Hc Hf. simpl. unfold bind_, read_file, lift_. by rewrite Hc, Hf.
Qed.

Lemma GetItem_run df c w f s :
  heap w !! df = Some (OFrame f) → get_column f c = Ok s →
  pandas E _ (GetItem df c) w = alloc (OSeries s) w.
Proof.
  intros Hf Hs. simpl. unfold bind_, the_frame, lift_. by rewrite Hf, Hs.
Qed.

Lemma ToList_run s w s' :
  heap w !! s = Some (OSeries s') → pandas E _ (ToList s) w = Ok (s'.*2, w).
Proof. intros Hs. simpl. unfold bind_, the_series. by rewrite Hs. Qed.

Lemma ILoc_run df ps w f f' :
  heap w !! df = Some (OFrame f) → iloc f ps = Ok f' →
  pandas E _ (ILoc df ps) w = alloc (OFrame f') w.
Proof.
  intros Hf Hf'. simpl. unfold bind_, the_frame, lift_. by rewrite Hf, Hf'.
Qed.

End forward.

(** C6. [get_training] returns the rows of the text table and of the
    variants table at the positions listed in [./train_index], and
    [get_test] those at the positions listed in [./test_index]: with the ID
    column of the index file holding the positions [ps], all within the two
    tables, the call returns two tables made of the rows at the positions
    [ps], whatever the ID cells of these rows hold. *)
Theorem index_entries_are_row_positions (E : externals) (p : part)
    (variants_file text_file : string) (w : world)
    (ic vc tc : string) (I V T : frame) (ps : list nat) :
  fs w !! index_file p = Some ic → parse_csv csv_index ic = Ok I →
  column_values I "ID" = Some (VInt <$> (Z.of_nat <$> ps)) →
  fs w !! variants_file = Some vc → parse_csv csv_default vc = Ok V →
  fs w !! text_file = Some tc → parse_csv csv_text tc = Ok T →
  Forall (λ p, p < length (rows T) ∧ p < length (rows V))%nat ps →
  ∃ X_part y_part w',
    run (pandas E) (get_part p variants_file text_file) w = Ok ((X_part, y_part), w') ∧
    heap w' !! X_part = Some (OFrame (Frame (columns T) (rows_at (rows T) ps))) ∧
    heap w' !! y_part = Some (OFrame (Frame (columns V) (rows_at (rows V) ps))).
Proof.
  intros Hic HI Hps Hvc HV Htc HT Hrange.
  apply get_column_values in Hps as (pcol & Hpcol & Hps).
  assert (iloc T (VInt <$> (Z.of_nat <$> ps))
          = Ok (Frame (columns T) (rows_at (rows T) ps))) as HXp.
  { apply iloc_in_range. eapply Forall_impl; [done |]. by intros ? []. }
  assert (iloc V (VInt <$> (Z.of_nat <$> ps))
          = Ok (Frame (columns V) (rows_at (rows V) ps))) as Hyp.
  { apply iloc_in_range. eapply Forall_impl; [done |]. by intros ? []. }
  destruct (alloc_total (OFrame I) w) as (index_df & w1 & A1).
  destruct (alloc_total (OSeries pcol) w1) as (index_col & w2 & A2).
  destruct (alloc_total (OFrame V) w2) as (y & w3 & A3).
  destruct (alloc_total (OFrame T) w3) as (X & w4 & A4).
  destruct (alloc_total (OFrame (Frame (columns T) (rows_at (rows T) ps))) w4)
    as (X_part & w5 & A5).
  destruct (alloc_total (OFrame (Frame (columns V) (rows_at (rows V) ps))) w5)
    as (y_part & w6 & A6).
  exists X_part, y_part, w6.
  assert (run (pandas E)
      (_ ← perform (Import "pandas");
       index_df ← perform (ReadCsv (index_file p) csv_index);
       index_col ← perform (GetItem index_df "ID");
       positions ← perform (ToList index_col);
       y ← perform (ReadCsv variants_file csv_default);
       X ← perform (ReadCsv text_file csv_text);
       X_part ← perform (ILoc X positions);
       y_part ← perform (ILoc y positions);
       mret (X_part, y_part)) w = Ok ((X_part, y_part), w6)) as Hrun.
  { rewrite run_bind, run_perform. simpl (pandas E _ (Import _) w). unfold ret_.
    rewrite run_bind, run_perform, (ReadCsv_run E _ _ _ _ _ Hic HI), A1.
    rewrite run_bind, run_perform,
      (GetItem_run E _ _ _ _ _ (alloc_lookup _ _ _ _ A1) Hpcol), A2.
    rewrite run_bind, run_perform, (ToList_run E _ _ _ (alloc_lookup _ _ _ _ A2)), Hps.
    rewrite run_bind, run_perform, (ReadCsv_run E _ _ _ vc V), A3; [| | done].
    2: { by rewrite (alloc_fs _ _ _ _ A2), (alloc_fs _ _ _ _ A1). }
    rewrite run_bind, run_perform, (ReadCsv_run E _ _ _ tc T), A4; [| | done].
    2: { by rewrite (alloc_fs _ _ _ _ A3), (alloc_fs _ _ _ _ A2), (alloc_fs _ _ _ _ A1). }
    rewrite run_bind, run_perform,
      (ILoc_run E _ _ _ _ _ (alloc_lookup _ _ _ _ A4) HXp), A5.
    assert (heap w5 !! y = Some (OFrame V)) as Hy.
    { eapply alloc_keeps; [done |]. eapply alloc_keeps; [done |]. by eapply alloc_lookup. }
    by rewrite run_bind, run_perform, (ILoc_run E _ _ _ _ _ Hy Hyp), A6. }
  split_and!.
  - by destruct p.
  - eapply alloc_keeps; [done |]. by eapply alloc_lookup.
  - by eapply alloc_lookup.
Qed.

(* ===================================================================== *)
(** * The stratified split                                                *)
(* ===================================================================== *)

Section split_facts.
Context (E : externals).

Lemma ReadCsv_eq path o w :
  pandas E _ (ReadCsv path o) w =
  match fs w !! path with
  | None => Raise (FileNotFoundError path)
  | Some content =>
      match parse_csv o content with
      | Ok f => alloc (OFrame f) w
      | Raise e => Raise e
      end
  end.
Proof.
  simpl. unfold bind_, read_file, lift_.
  destruct (fs w !! path); [| done]. by destruct (parse_csv o _).
Qed.

Lemma GetAttr_eq df c w f :
  heap w !! df = Some (OFrame f) →
  pandas E _ (GetAttr df c) w =
  match get_column f c with
  | Ok s => alloc (OSeries s) w
  | Raise _ => Raise (AttributeError c)
  end.
Proof.
  intros Hf. simpl. unfold bind_, the_frame. rewrite Hf.
  by destruct (get_column f c).
Qed.

(** With a seed, the tables that [train_test_split] of scikit-learn
    returns are a function of the two tables and of the strata: the world,
    its random state included, has no part in them. *)
Lemma TrainTestSplit_seeded X y test_size seed stratify w fX fy strata :
  heap w !! X = Some (OFrame fX) → heap w !! y = Some (OFrame fy) →
  heap w !! stratify = Some (OSeries strata) →
  returned_frames (pandas E _ (TrainTestSplit X y test_size (Some seed) stratify) w)
  = rmap Some (split_frames E (seed_rng E seed) test_size fX fy strata.*2).1.
Proof.
  intros HX Hy Hs. simpl. unfold train_test_split_, bind_ at 1 2 3.
  unfold the_frame, the_series. rewrite HX, Hy, Hs.
  destruct (split_frames E _ _ _ _ _) as [[[[[a b] c] d] | e] g']; [| done].
  destruct (alloc_total (OFrame a) w) as (la & w1 & A1).
  destruct (alloc_total (OFrame b) w1) as (lb & w2 & A2).
  destruct (alloc_total (OFrame c) w2) as (lc & w3 & A3).
  destruct (alloc_total (OFrame d) w3) as (ld & w4 & A4).
  unfold bind_, ret_. rewrite A1, A2, A3, A4. simpl.
  rewrite (alloc_lookup _ _ _ _ A4).
  rewrite (alloc_keeps _ _ _ _ _ _ A4 (alloc_lookup _ _ _ _ A3)).
  rewrite (alloc_keeps _ _ _ _ _ _ A4
             (alloc_keeps _ _ _ _ _ _ A3 (alloc_lookup _ _ _ _ A2))).
  rewrite (alloc_keeps _ _ _ _ _ _ A4
             (alloc_keeps _ _ _ _ _ _ A3
                (alloc_keeps _ _ _ _ _ _ A2 (alloc_lookup _ _ _ _ A1)))).
  done.
Qed.

(** The four tables that [train_test_split] returns are a function of
    what the two files hold. *)
Lemma train_test_split_returned variants_file text_file w :
  returned_frames (run (pandas E) (train_test_split variants_file text_file) w)
  = rmap Some (split_tables E variants_file text_file
                 (fs w !! variants_file) (fs w !! text_file)).
Proof.
  unfold train_test_split, split_tables.
  rewrite run_bind, run_perform. simpl (pandas E _ (Import _) w). unfold ret_.
  rewrite run_bind, run_perform. simpl (pandas E _ (Import _) w). unfold ret_.
  rewrite run_bind, run_perform, ReadCsv_eq.
  destruct (fs w !! variants_file) as [vc |]; [| done].
  destruct (parse_csv csv_default vc) as [fy | e]; [| done].
  destruct (alloc_total (OFrame fy) w) as (y & w1 & A1). rewrite A1.
  rewrite run_bind, run_perform, ReadCsv_eq, (alloc_fs _ _ _ _ A1).
  destruct (fs w !! text_file) as [tc |]; [| done].
  destruct (parse_csv csv_text tc) as [fX | e]; [| done].
  destruct (alloc_total (OFrame fX) w1) as (X & w2 & A2). rewrite A2.
  pose proof (alloc_keeps _ _ _ _ _ _ A2 (alloc_lookup _ _ _ _ A1)) as Hy.
  pose proof (alloc_lookup _ _ _ _ A2) as HX.
  rewrite run_bind, run_perform, (GetAttr_eq _ _ _ _ Hy). simpl rbind.
  destruct (get_column fy "Class") as [strata | e]; [| done].
  destruct (alloc_total (OSeries strata) w2) as (y_Class & w3 & A3). rewrite A3.
  rewrite run_bind, run_perform.
  rewrite <-(TrainTestSplit_seeded X y (1 # 5) 42 y_Class w3 fX fy strata).
  - by destruct (pandas E _ _ w3) as [[[[[a b] c] d] w4] | e].
  - by eapply alloc_keeps.
  - by eapply alloc_keeps.
  - by eapply alloc_lookup.
Qed.

End split_facts.

(** C10. [train_test_split] is deterministic: two calls on the same
    variants file and the same text file, in whatever state of the heap, of
    the other files, of the output and of NumPy's random generator, return
    the same four tables (or raise the same exception), because the split is
    drawn from a generator seeded with 42. *)
Theorem train_test_split_deterministic (E : externals)
    (variants_file text_file : string) (w1 w2 : world) :
  fs w1 !! variants_file = fs w2 !! variants_file →
  fs w1 !! text_file = fs w2 !! text_file →
  returned_frames (run (pandas E) (train_test_split variants_file text_file) w1)
  = returned_frames (run (pandas E) (train_test_split variants_file text_file) w2).
Proof.
  intros Hv Ht. rewrite !train_test_split_returned. by rewrite Hv, Ht.
Qed.

(** Without a seed the split follows NumPy's global generator: on the
    sample data, two states of the generator give two different splits. *)
Example unseeded_split_follows_the_generator :
  (split_frames Sample.E 0%Z (1 # 5) Sample.text_table Sample.variants_table []).1
  ≠ (split_frames Sample.E 1%Z (1 # 5) Sample.text_table Sample.variants_table []).1.
Proof. vm_compute. discriminate. Qed.

(* ===================================================================== *)
(** * The properties on the sample data                                   *)
(* ===================================================================== *)

Lemma print_one_decimal_numeric (x : pyfloat) :
  numeric_field (Sample.print_one_decimal x) = true.
Proof.
  destruct x as [q |]; [| done]. unfold Sample.print_one_decimal, numeric_field.
  pose proof (str_Z_numeric (Qnum q / Z.pos (Qden q))) as [Hne Hall]%andb_true_iff.
  pose proof (str_Z_numeric ((10 * Qnum q / Z.pos (Qden q)) mod 10))
    as [_ Hall']%andb_true_iff.
  rewrite !all_chars_app, Hall, Hall'.
  destruct (str_Z (Qnum q / Z.pos (Qden q))); [done |]. done.
Qed.

Lemma get_full_table_inner_join_witness :
  ∃ data_full w',
    run (pandas Sample.E) (get_full_table "training_variants" "training_text")
      Sample.files = Ok (data_full, w') ∧
    ∃ vc tc V T F ids_V ids_T ids_F,
      fs Sample.files !! "training_variants" = Some vc ∧
      parse_csv csv_default vc = Ok V ∧
      fs Sample.files !! "training_text" = Some tc ∧
      parse_csv csv_text tc = Ok T ∧
      heap w' !! data_full = Some (OFrame F) ∧
      column_values V "ID" = Some ids_V ∧
      column_values T "ID" = Some ids_T ∧
      column_values F "ID" = Some ids_F ∧
      (∀ id, id ∉ ids_V ∨ id ∉ ids_T → id ∉ ids_F) ∧
      (∀ id, id ∈ ids_V → id ∈ ids_T → id ∈ ids_F).
Proof.
  destruct (run (pandas Sample.E) (get_full_table "training_variants" "training_text")
              Sample.files) as [[data_full w'] | e] eqn:Hrun.
  - exists data_full, w'. split; [reflexivity |].
    exact (get_full_table_inner_join _ _ _ _ _ _ Hrun).
  - vm_compute in Hrun. discriminate Hrun.
Defined.

Lemma get_unique_text_class_only_witness :
  ∃ s w',
    run (pandas Sample.E) (get_unique_text 1%positive 2%positive 2 None true)
      Sample.tables = Ok (s, w') ∧
    ∃ texts : list string,
      s = join nl texts ∧
      NoDup texts ∧
      ∀ t, t ∈ texts →
        ∃ row vrow id,
          row ∈ rows Sample.text_table ∧
          cell_at Sample.text_table row "Text" = Some (VStr t) ∧
          cell_at Sample.text_table row "ID" = Some id ∧
          vrow ∈ rows Sample.variants_table ∧
          cell_at Sample.variants_table vrow "ID" = Some id ∧
          cell_at Sample.variants_table vrow "Class" = Some (VInt 2).
Proof.
  destruct (run (pandas Sample.E) (get_unique_text 1%positive 2%positive 2 None true)
              Sample.tables) as [[s w'] | e] eqn:Hrun.
  - exists s, w'. split; [reflexivity |].
    apply (get_unique_text_class_only Sample.E 1%positive 2%positive 2 None true
             Sample.variants_table Sample.text_table Sample.tables s w');
      [vm_compute; reflexivity | vm_compute; reflexivity | exact Hrun].
  - vm_compute in Hrun. discriminate Hrun.
Defined.

Lemma submission_nine_classes_witness :
  heap (Sample.with_matrix Sample.uniform) !! 1%positive = Some (OMatrix Sample.uniform) ∧
  shape1 Sample.uniform = 9%nat ∧
  (∀ q, numeral (float_str Sample.E (FNum q)) = true) ∧
  (∀ i j, (i < shape0 Sample.uniform)%nat → (j < 9)%nat →
          item Sample.uniform i j ≠ SFloat FNan) ∧
  ∃ w' content data,
    run (pandas Sample.E) (submission "submission.csv" 1%positive)
      (Sample.with_matrix Sample.uniform) = Ok (tt, w') ∧
    fs w' !! "submission.csv" = Some content ∧
    splitlines content = header_line :: data ∧
    length data = shape0 Sample.uniform ∧
    (∀ (i : nat) line, data !! i = Some line →
       split "," line
       = str_Z (Z.of_nat i)
           :: ((λ j, str_scalar Sample.E (item Sample.uniform i j)) <$> seq 0 9) ∧
       ∀ j, (j < 9)%nat → numeral (str_scalar Sample.E (item Sample.uniform i j)) = true) ∧
    well_formed_submission (shape0 Sample.uniform) content = true.
Proof.
  split; [vm_compute; reflexivity |]. split; [reflexivity |].
  split; [exact print_one_decimal_numeral |]. split; [discriminate |].
  apply (submission_nine_classes Sample.E "submission.csv" 1%positive Sample.uniform);
    [vm_compute; reflexivity | reflexivity | exact print_one_decimal_numeral
    | discriminate].
Defined.

(** C3 as stated fails on a matrix with three columns: the data line of
    its one row is [0,1,0,0,], which does not end in nine numeric fields. *)
Lemma submission_three_classes_malformed :
  heap (Sample.with_matrix Sample.three_classes) !! 1%positive
    = Some (OMatrix Sample.three_classes) ∧
  (∀ q, numeral (float_str Sample.E (FNum q)) = true) ∧
  (∀ i j, item Sample.three_classes i j ≠ SFloat FNan) ∧
  ¬ ∃ w' content,
      run (pandas Sample.E) (submission "submission.csv" 1%positive)
        (Sample.with_matrix Sample.three_classes) = Ok (tt, w') ∧
      fs w' !! "submission.csv" = Some content ∧
      well_formed_submission (shape0 Sample.three_classes) content = true.
Proof.
  split; [vm_compute; reflexivity |]. split; [exact print_one_decimal_numeral |].
  split; [discriminate |].
  intros (w' & content & Hrun & Hfile & Hformat).
  vm_compute in Hrun. injection Hrun as <-.
  vm_compute in Hfile. injection Hfile as <-.
  vm_compute in Hformat. discriminate Hformat.
Qed.

Lemma submission_three_classes_line :
  ∃ w', run (pandas Sample.E) (submission "submission.csv" 1%positive)
          (Sample.with_matrix Sample.three_classes) = Ok (tt, w') ∧
        fs w' !! "submission.csv" = Some (unlines [header_line; "0,1,0,0,"]).
Proof. eexists. split; vm_compute; reflexivity. Qed.

(** With ten columns the ninth and the tenth number of a row are written
    without a comma between them: the data line is not well formed either. *)
Example submission_ten_classes_glued :
  ∃ w', run (pandas Sample.E) (submission "submission.csv" 1%positive)
          (Sample.with_matrix Sample.ten_classes) = Ok (tt, w') ∧
        fs w' !! "submission.csv"
        = Some (unlines [header_line; "0,0.1,0.1,0.1,0.1,0.1,0.1,0.1,0.1,0.10.1"]) ∧
        well_formed_submission 1
          (unlines [header_line; "0,0.1,0.1,0.1,0.1,0.1,0.1,0.1,0.1,0.10.1"]) = false.
Proof. eexists. split_and!; vm_compute; reflexivity. Qed.

Lemma kfold_score_nonneg_witness :
  ∃ v w',
    run (pandas Sample.E) (kfold_score 1%positive 2%positive 3%positive 3)
      Sample.files = Ok (v, w') ∧
    nonneg v ∧
    ∃ losses : list Q,
      log_losses (calls (pandas Sample.E)
                    (kfold_score 1%positive 2%positive 3%positive 3) Sample.files)
      = FNum <$> losses ∧
      length losses
      = length (yielded_folds (calls (pandas Sample.E)
                                 (kfold_score 1%positive 2%positive 3%positive 3)
                                 Sample.files)) ∧
      losses ≠ [] ∧
      Forall (λ loss, 0 <= loss)%Q losses ∧
      v = FNum (mean losses).
Proof.
  destruct (run (pandas Sample.E) (kfold_score 1%positive 2%positive 3%positive 3)
              Sample.files) as [[v w'] | e] eqn:Hrun.
  - exists v, w'. split; [reflexivity |].
    apply (kfold_score_nonneg Sample.E 1%positive 2%positive 3%positive 3
             Sample.files v w'); [| | exact Hrun].
    + intros k_fold X0 u folds u' H. simpl in H. injection H as <- _. discriminate.
    + intros y_true y_prob u loss u' H. simpl in H. injection H as <- _.
      simpl. discriminate.
  - vm_compute in Hrun. discriminate Hrun.
Defined.

Lemma loaders_parse_the_files_witness :
  ∃ r w',
    run (pandas Sample.E) (load Load_get_training "training_variants" "training_text")
      Sample.files = Ok (r, w') ∧
    ∃ vc tc V T y X,
      fs Sample.files !! "training_variants" = Some vc ∧
      fs Sample.files !! "training_text" = Some tc ∧
      comma_table vc = Ok V ∧ double_pipe_table tc = Ok T ∧
      columns T = ["ID"; "Text"] ∧
      heap Sample.files !! y = None ∧ heap Sample.files !! X = None ∧
      heap w' !! y = Some (OFrame V) ∧ heap w' !! X = Some (OFrame T).
Proof.
  destruct (run (pandas Sample.E)
              (load Load_get_training "training_variants" "training_text")
              Sample.files) as [[r w'] | e] eqn:Hrun.
  - exists r, w'. split; [reflexivity |].
    exact (loaders_parse_the_files _ _ _ _ _ _ _ Hrun).
  - vm_compute in Hrun. discriminate Hrun.
Defined.

Lemma index_entries_are_row_positions_witness :
  parse_csv csv_index Sample.train_index = Ok Sample.train_index_table ∧
  parse_csv csv_default Sample.variants_csv = Ok Sample.variants_table ∧
  parse_csv csv_text Sample.text_csv = Ok Sample.text_table ∧
  ∃ X_part y_part w',
    run (pandas Sample.E) (get_part Training "training_variants" "training_text")
      Sample.files = Ok ((X_part, y_part), w') ∧
    heap w' !! X_part
      = Some (OFrame (Frame (columns Sample.text_table)
                        (rows_at (rows Sample.text_table) [2; 0]%nat))) ∧
    heap w' !! y_part
      = Some (OFrame (Frame (columns Sample.variants_table)
                        (rows_at (rows Sample.variants_table) [2; 0]%nat))).
Proof.
  split_and!; [vm_compute; reflexivity .. |].
  apply (index_entries_are_row_positions Sample.E Training
           "training_variants" "training_text" Sample.files
           Sample.train_index Sample.variants_csv Sample.text_csv
           Sample.train_index_table Sample.variants_table Sample.text_table
           [2; 0]%nat);
    try (vm_compute; reflexivity).
  repeat constructor; simpl; lia.
Defined.

Lemma tables_are_not_mutated_witness :
  ∃ s w' data_full u',
    run (pandas Sample.E)
      (get_unique_text 1%positive 2%positive 2 (Some "class2.txt") false)
      Sample.tables = Ok (s, w') ∧
    run (pandas Sample.E) (get_full_table "training_variants" "training_text")
      Sample.files = Ok (data_full, u') ∧
    (heap w' !! 1%positive = Some (OFrame Sample.variants_table) ∧
     heap w' !! 2%positive = Some (OFrame Sample.text_table) ∧
     heap Sample.tables ⊆ heap w') ∧
    (∃ vc tc Vf Tf variants text,
       fs Sample.files !! "training_variants" = Some vc ∧
       parse_csv csv_default vc = Ok Vf ∧
       fs Sample.files !! "training_text" = Some tc ∧
       parse_csv csv_text tc = Ok Tf ∧
       heap u' !! variants = Some (OFrame Vf) ∧
       heap u' !! text = Some (OFrame Tf) ∧
       data_full ≠ variants ∧ data_full ≠ text ∧
       heap Sample.files ⊆ heap u').
Proof.
  destruct (run (pandas Sample.E)
              (get_unique_text 1%positive 2%positive 2 (Some "class2.txt") false)
              Sample.tables) as [[s w'] | e] eqn:Hrun1;
    [| vm_compute in Hrun1; discriminate Hrun1].
  destruct (run (pandas Sample.E) (get_full_table "training_variants" "training_text")
              Sample.files) as [[data_full u'] | e] eqn:Hrun2;
    [| vm_compute in Hrun2; discriminate Hrun2].
  exists s, w', data_full, u'. split; [reflexivity |]. split; [reflexivity |].
  apply (tables_are_not_mutated Sample.E 1%positive 2%positive 2 (Some "class2.txt")
           false Sample.variants_table Sample.text_table Sample.tables s w'
           "training_variants" "training_text" Sample.files data_full u');
    [vm_compute; reflexivity | vm_compute; reflexivity | exact Hrun1 | exact Hrun2].
Defined.

Lemma submission_ids_are_row_indices_witness :
  heap (Sample.with_matrix Sample.three_classes) !! 1%positive
    = Some (OMatrix Sample.three_classes) ∧
  ∃ w' content data,
    run (pandas Sample.E) (submission "submission.csv" 1%positive)
      (Sample.with_matrix Sample.three_classes) = Ok (tt, w') ∧
    fs w' !! "submission.csv" = Some content ∧
    splitlines content = header_line :: data ∧
    length data = shape0 Sample.three_classes ∧
    ∀ (i : nat) line, data !! i = Some line →
      ∃ rest, split "," line = str_Z (Z.of_nat i) :: rest.
Proof.
  split; [vm_compute; reflexivity |].
  apply (submission_ids_are_row_indices Sample.E "submission.csv" 1%positive
           Sample.three_classes);
    [vm_compute; reflexivity | exact print_one_decimal_numeric].
Defined.

Lemma train_test_split_deterministic_witness :
  fs Sample.files !! "training_variants" = fs Sample.files_later !! "training_variants" ∧
  fs Sample.files !! "training_text" = fs Sample.files_later !! "training_text" ∧
  returned_frames (run (pandas Sample.E)
                     (train_test_split "training_variants" "training_text") Sample.files)
  = returned_frames (run (pandas Sample.E)
                       (train_test_split "training_variants" "training_text")
                       Sample.files_later).
Proof.
  split_and!; [vm_compute; reflexivity .. |].
  apply train_test_split_deterministic; vm_compute; reflexivity.
Defined.

(* ===================================================================== *)
(** * Further properties of [get_unique_text]                             *)
(* ===================================================================== *)

Section quiet_calls.
Context (E : externals).







End quiet_calls.



Section get_unique_text_effects.
Context (E : externals).




Lemma loc_mask_columns f m f' : loc_mask f m = Ok f' → columns f' = columns f.
Proof. unfold loc_mask. case_bool_decide; [by intros [= <-] | done]. Qed.

End get_unique_text_effects.

(* ===================================================================== *)
(** * Running [get_unique_text] forward                                   *)
(* ===================================================================== *)

Section eval.
Context (E : externals).

Lemma run_step {X A} (h : handler) (c : call X) (k : X → prog A) (w : world) :
run h (perform c ≫= k) w
= match h _ c w with Ok (x, w1) => run h (k x) w1 | Raise e => Raise e end.
Proof. by rewrite run_bind, run_perform. Qed.

Lemma GetItem_eval df c w f :
heap w !! df = Some (OFrame f) →
pandas E _ (GetItem df c) w = rbind (get_column f c) (λ s, alloc (OSeries s) w).
Proof.
intros Hf. simpl. unfold bind_, the_frame, lift_. rewrite Hf.
by destruct (get_column f c).
Qed.

Lemma SeriesEq_eval s v w s' :
heap w !! s = Some (OSeries s') →
pandas E _ (SeriesEq s v) w = alloc (OMask (series_eq s' v)) w.
Proof. intros Hs. simpl. unfold bind_, the_series. by rewrite Hs. Qed.

Lemma LocMask_eval df m w f m' :
heap w !! df = Some (OFrame f) → heap w !! m = Some (OMask m') →
pandas E _ (LocMask df m) w = rbind (loc_mask f m') (λ f', alloc (OFrame f') w).
Proof.
intros Hf Hm. simpl. unfold bind_, the_frame, the_mask, lift_. rewrite Hf, Hm.
by destruct (loc_mask f m').
Qed.

Lemma IsIn_eval s values w s' vs :
heap w !! s = Some (OSeries s') → heap w !! values = Some (OSeries vs) →
pandas E _ (IsIn s values) w = alloc (OMask (isin s' vs)) w.
Proof. intros Hs Hv. simpl. unfold bind_, the_series. by rewrite Hs, Hv. Qed.

Lemma Unique_eval s w s' :
heap w !! s = Some (OSeries s') →
pandas E _ (Unique s) w = alloc (OArray (unique s')) w.
Proof. intros Hs. simpl. unfold bind_, the_series. by rewrite Hs. Qed.

Lemma Join_eval sep a w a' :
heap w !! a = Some (OArray a') →
pandas E _ (Join sep a) w = rbind (join_cells sep a') (λ s, Ok (s, w)).
Proof.
intros Ha. simpl. unfold bind_, the_array, lift_. rewrite Ha.
by destruct (join_cells sep a').
Qed.

Lemma Size_eval df w f :
heap w !! df = Some (OFrame f) → pandas E _ (Size df) w = Ok (size f, w).
Proof. intros Hf. simpl. unfold bind_, the_frame, ret_. by rewrite Hf. Qed.

Lemma Shape_eval a axis w o :
heap w !! a = Some o →
pandas E _ (Shape a axis) w = rbind (shape_of o axis) (λ n, Ok (n, w)).
Proof. intros Ha. simpl. unfold lift_. rewrite Ha. by destruct (shape_of o axis). Qed.

Lemma Print_eval s w :
pandas E _ (Print s) w = Ok (tt, set_stdout (stdout w ++ [s])%list w).
Proof. done. Qed.

Lemma Open_eval path mode w :
mode = "w" ∨ mode = "wt" →
pandas E _ (Open path mode) w
= alloc (OFile path false) (set_fs (<[path := ""]> (fs w)) w).
Proof. intros Hmode. simpl. by rewrite bool_decide_eq_true_2. Qed.

Lemma Write_eval f s w path :
heap w !! f = Some (OFile path false) →
pandas E _ (Write f s) w
= Ok (tt, set_fs (<[path := default "" (fs w !! path) +:+ s]> (fs w)) w).
Proof. intros Hf. simpl. by rewrite Hf. Qed.

Lemma Close_eval f w path closed :
heap w !! f = Some (OFile path closed) →
pandas E _ (Close f) w = Ok (tt, set_heap (<[f := OFile path true]> (heap w)) w).
Proof. intros Hf. simpl. by rewrite Hf. Qed.

(** The report and the saving always go through. *)
Lemma finished_unit (r : result (unit * world)) : finished r → ∃ w', r = Ok (tt, w').
Proof. destruct r as [[[] w']|]; [by eexists | done]. Qed.

Lemma report_runs class_text_df unique_text cls F us w :
heap w !! class_text_df = Some (OFrame F) →
heap w !! unique_text = Some (OArray us) →
∀ suppress_output : bool, ∃ w',
  run (pandas E)
    (if negb suppress_output then
       cls_size ← perform (Size class_text_df);
       unique_size ← perform (Shape unique_text 0);
       _ ← perform (Print ("Number of entries in class " +:+ str_Z cls +:+ ": "
                         +:+ str_Z cls_size));
       perform (Print ("Number of unique texts: " +:+ str_Z unique_size))
     else mret tt) w = Ok (tt, w').
Proof.
intros HF Hus suppress_output. apply finished_unit.
destruct suppress_output; simpl negb; cbv iota; [done |].
rewrite run_step, (Size_eval _ _ _ HF). cbv beta iota.
rewrite run_step, (Shape_eval _ _ _ _ Hus). simpl rbind. cbv beta iota.
rewrite run_step, Print_eval. cbv beta iota. by rewrite run_perform, Print_eval.
Qed.

Lemma saving_runs (s : string) w :
∀ save : option string, ∃ w',
  run (pandas E)
    match save with
    | Some path =>
        _ ← perform (Print ("Saving to file: " +:+ path));
        f ← perform (Open path "wt");
        _ ← perform (Write f s);
        perform (Close f)
    | None => mret tt
    end w = Ok (tt, w').
Proof.
intros save. apply finished_unit. destruct save as [path |]; [| done].
rewrite run_step, Print_eval. cbv beta iota.
rewrite run_step, Open_eval by by right.
match goal with
| |- context [alloc ?o ?w1] => destruct (alloc_total o w1) as (f & w2 & A); rewrite A
end.
rewrite run_step, (Write_eval _ _ _ _ (alloc_lookup _ _ _ _ A)). cbv beta iota.
rewrite run_perform.
by rewrite (Close_eval f _ path false) by apply (alloc_lookup _ _ _ _ A).
Qed.

(** [get_unique_text] on two tables: it fails as the selection of the texts
  or their joining fails, and returns the joined texts otherwise. *)
Lemma get_unique_text_run variants_df text_df cls save suppress_output V T w :
heap w !! variants_df = Some (OFrame V) →
heap w !! text_df = Some (OFrame T) →
match rbind (class_texts V T cls) (join_cells nl) with
| Ok s => ∃ w', run (pandas E)
                  (get_unique_text variants_df text_df cls save suppress_output) w
                = Ok (s, w')
| Raise e => run (pandas E)
               (get_unique_text variants_df text_df cls save suppress_output) w
             = Raise e
end.
Proof.
intros HV HT. unfold class_texts, get_unique_text.
rewrite run_step, (GetItem_eval _ _ _ _ HV).
destruct (get_column V "Class") as [cc |]; simpl rbind; [| done].
destruct (alloc_total (OSeries cc) w) as (class_col & w1 & A1). rewrite A1.
rewrite run_step, (SeriesEq_eval _ _ _ _ (alloc_lookup _ _ _ _ A1)).
destruct (alloc_total (OMask (series_eq cc (VInt cls))) w1) as (is_cls & w2 & A2).
rewrite A2.
pose proof (alloc_keeps _ _ _ _ _ _ A1 HV) as HV1.
pose proof (alloc_keeps _ _ _ _ _ _ A2 HV1) as HV2.
rewrite run_step, (LocMask_eval _ _ _ _ _ HV2 (alloc_lookup _ _ _ _ A2)).
destruct (loc_mask V _) as [Vsel |]; simpl rbind; [| done].
destruct (alloc_total (OFrame Vsel) w2) as (matching_rows & w3 & A3). rewrite A3.
rewrite run_step, (GetItem_eval _ _ _ _ (alloc_lookup _ _ _ _ A3)).
destruct (get_column Vsel "ID") as [mids |]; simpl rbind; [| done].
destruct (alloc_total (OSeries mids) w3) as (matching_ids & w4 & A4). rewrite A4.
pose proof (alloc_keeps _ _ _ _ _ _ A4 (alloc_keeps _ _ _ _ _ _ A3
              (alloc_keeps _ _ _ _ _ _ A2 (alloc_keeps _ _ _ _ _ _ A1 HT)))) as HT4.
rewrite run_step, (GetItem_eval _ _ _ _ HT4).
destruct (get_column T "ID") as [tids |]; simpl rbind; [| done].
destruct (alloc_total (OSeries tids) w4) as (id_col & w5 & A5). rewrite A5.
rewrite run_step, (IsIn_eval _ _ _ _ _ (alloc_lookup _ _ _ _ A5)
                     (alloc_keeps _ _ _ _ _ _ A5 (alloc_lookup _ _ _ _ A4))).
destruct (alloc_total (OMask (isin tids mids)) w5) as (is_match & w6 & A6). rewrite A6.
pose proof (alloc_keeps _ _ _ _ _ _ A6 (alloc_keeps _ _ _ _ _ _ A5 HT4)) as HT6.
rewrite run_step, (LocMask_eval _ _ _ _ _ HT6 (alloc_lookup _ _ _ _ A6)).
destruct (loc_mask T _) as [Tsel |]; simpl rbind; [| done].
destruct (alloc_total (OFrame Tsel) w6) as (class_text_df & w7 & A7). rewrite A7.
rewrite run_step, (GetItem_eval _ _ _ _ (alloc_lookup _ _ _ _ A7)).
destruct (get_column Tsel "Text") as [tc |]; simpl rbind; [| done].
destruct (alloc_total (OSeries tc) w7) as (text_col & w8 & A8). rewrite A8.
rewrite run_step, (Unique_eval _ _ _ (alloc_lookup _ _ _ _ A8)).
destruct (alloc_total (OArray (unique tc)) w8) as (unique_text & w9 & A9). rewrite A9.
rewrite run_step, (Join_eval _ _ _ _ (alloc_lookup _ _ _ _ A9)).
destruct (join_cells nl (unique tc)) as [s |]; simpl rbind; [| done].
pose proof (alloc_keeps _ _ _ _ _ _ A9 (alloc_keeps _ _ _ _ _ _ A8
              (alloc_lookup _ _ _ _ A7))) as Hdf.
destruct (report_runs _ _ cls _ _ _ Hdf (alloc_lookup _ _ _ _ A9) suppress_output)
  as (w10 & Hreport).
rewrite run_bind, Hreport.
destruct (saving_runs s w10 save) as (w11 & Hsave).
rewrite run_bind, Hsave. simpl. by eexists.
Qed.

End eval.

(* ===================================================================== *)
(** * The texts of a class                                                *)
(* ===================================================================== *)























(* ===================================================================== *)
(** * Failures                                                            *)
(* ===================================================================== *)

Section library_outcomes.
Context (E : externals).

Lemma ReadCsv_eval path o w :
pandas E _ (ReadCsv path o) w = rbind (read_table w o path) (λ f, alloc (OFrame f) w).
Proof.
simpl. unfold bind_, read_file, lift_, read_table.
destruct (fs w !! path) as [content |]; [| done]. by destruct (parse_csv o content).
Qed.

Lemma ILoc_eval df ps w f :
heap w !! df = Some (OFrame f) →
pandas E _ (ILoc df ps) w = rbind (iloc f ps) (λ f', alloc (OFrame f') w).
Proof.
intros Hf. simpl. unfold bind_, the_frame, lift_. rewrite Hf. by destruct (iloc f ps).
Qed.

Lemma MergeInner_eval l r key w fl fr :
heap w !! l = Some (OFrame fl) → heap w !! r = Some (OFrame fr) →
pandas E _ (MergeInner l r key) w
= rbind (merge_inner fl fr key) (λ f, alloc (OFrame f) w).
Proof.
intros Hl Hr. simpl. unfold bind_, the_frame, lift_. rewrite Hl, Hr.
by destruct (merge_inner fl fr key).
Qed.

Lemma Import_eval module w : pandas E _ (Import module) w = Ok (tt, w).
Proof. done. Qed.

Lemma read_table_alloc o' w l w' o path :
alloc o' w = Ok (l, w') → read_table w' o path = read_table w o path.
Proof. intros Ha. unfold read_table. by rewrite (alloc_fs _ _ _ _ Ha). Qed.

(** [get_full_table] fails as the reading or the merging fails, and returns
  otherwise. *)
Lemma get_full_table_run variants_file text_file w :
match merged_table w variants_file text_file with
| Ok _ => ∃ data_full w',
    run (pandas E) (get_full_table variants_file text_file) w = Ok (data_full, w')
| Raise e => run (pandas E) (get_full_table variants_file text_file) w = Raise e
end.
Proof.
unfold merged_table, get_full_table.
rewrite run_step, ReadCsv_eval.
destruct (read_table w csv_default variants_file) as [V |]; simpl rbind; [| done].
destruct (alloc_total (OFrame V) w) as (variants & w1 & A1). rewrite A1.
rewrite run_step, ReadCsv_eval, (read_table_alloc _ _ _ _ _ _ A1).
destruct (read_table w csv_text text_file) as [T |]; simpl rbind; [| done].
destruct (alloc_total (OFrame T) w1) as (text & w2 & A2). rewrite A2.
rewrite run_step, (MergeInner_eval _ _ _ _ _ _
                     (alloc_keeps _ _ _ _ _ _ A2 (alloc_lookup _ _ _ _ A1))
                     (alloc_lookup _ _ _ _ A2)).
destruct (merge_inner V T "ID") as [F |]; simpl rbind; [| done].
destruct (alloc_total (OFrame F) w2) as (data_full & w3 & A3). rewrite A3.
simpl. by eexists _, _.
Qed.

(** [get_training] and [get_test] fail as the reading of the three files or
  the selection of the rows fails, and return otherwise. *)
Lemma get_part_run (p : part) variants_file text_file w :
match part_tables w (index_file p) variants_file text_file with
| Ok _ => ∃ r w', run (pandas E) (get_part p variants_file text_file) w = Ok (r, w')
| Raise e => run (pandas E) (get_part p variants_file text_file) w = Raise e
end.
Proof.
assert (run (pandas E) (get_part p variants_file text_file) w
        = run (pandas E)
            (_ ← perform (Import "pandas");
             index_df ← perform (ReadCsv (index_file p) csv_index);
             index_col ← perform (GetItem index_df "ID");
             positions ← perform (ToList index_col);
             y ← perform (ReadCsv variants_file csv_default);
             X ← perform (ReadCsv text_file csv_text);
             X_part ← perform (ILoc X positions);
             y_part ← perform (ILoc y positions);
             mret (X_part, y_part)) w) as -> by by destruct p.
unfold part_tables. generalize (index_file p). intros index_path.
rewrite run_step, Import_eval. cbv beta iota.
rewrite run_step, ReadCsv_eval.
destruct (read_table w csv_index index_path) as [I |]; simpl rbind; [| done].
destruct (alloc_total (OFrame I) w) as (index_df & w1 & A1). rewrite A1.
rewrite run_step, (GetItem_eval _ _ _ _ _ (alloc_lookup _ _ _ _ A1)).
destruct (get_column I "ID") as [positions |]; simpl rbind; [| done].
destruct (alloc_total (OSeries positions) w1) as (index_col & w2 & A2). rewrite A2.
rewrite run_step, (ToList_run _ _ _ _ (alloc_lookup _ _ _ _ A2)). cbv beta iota.
rewrite run_step, ReadCsv_eval, (read_table_alloc _ _ _ _ _ _ A2),
  (read_table_alloc _ _ _ _ _ _ A1).
destruct (read_table w csv_default variants_file) as [V |]; simpl rbind; [| done].
destruct (alloc_total (OFrame V) w2) as (y & w3 & A3). rewrite A3.
rewrite run_step, ReadCsv_eval, (read_table_alloc _ _ _ _ _ _ A3),
  (read_table_alloc _ _ _ _ _ _ A2), (read_table_alloc _ _ _ _ _ _ A1).
destruct (read_table w csv_text text_file) as [T |]; simpl rbind; [| done].
destruct (alloc_total (OFrame T) w3) as (X & w4 & A4). rewrite A4.
rewrite run_step, (ILoc_eval _ _ _ _ (alloc_lookup _ _ _ _ A4)).
destruct (iloc T positions.*2) as [X_part_f |]; simpl rbind; [| done].
destruct (alloc_total (OFrame X_part_f) w4) as (X_part & w5 & A5). rewrite A5.
rewrite run_step, (ILoc_eval _ _ _ _
                     (alloc_keeps _ _ _ _ _ _ A5
                        (alloc_keeps _ _ _ _ _ _ A4 (alloc_lookup _ _ _ _ A3)))).
destruct (iloc V positions.*2) as [y_part_f |]; simpl rbind; [| done].
destruct (alloc_total (OFrame y_part_f) w5) as (y_part & w6 & A6). rewrite A6.
simpl. by eexists _, _.
Qed.

(** [train_test_split] fails as the reading or the splitting fails, and
  returns otherwise. *)
Lemma train_test_split_run variants_file text_file w :
match split_tables E variants_file text_file (fs w !! variants_file) (fs w !! text_file) with
| Ok _ => ∃ r w',
    run (pandas E) (train_test_split variants_file text_file) w = Ok (r, w')
| Raise e => run (pandas E) (train_test_split variants_file text_file) w = Raise e
end.
Proof.
pose proof (train_test_split_returned E variants_file text_file w) as H.
destruct (split_tables _ _ _ _ _) as [tables | e];
  destruct (run _ _ w) as [[r w'] | e']; simpl in H; try done.
- by eexists _, _.
- by injection H as ->.
Qed.

(** [submission] on an array of one dimension: an empty one gives a file
  with the header alone, another one has no second axis to ask for. *)
Lemma submission_array_run filename prob_matrix (a : list cell) w :
heap w !! prob_matrix = Some (OArray a) →
if bool_decide (a = [])
then ∃ w', run (pandas E) (submission filename prob_matrix) w = Ok (tt, w')
else run (pandas E) (submission filename prob_matrix) w = Raise IndexError.
Proof.
intros Ha.
assert (∀ P : result (unit * world) → Prop,
          (∀ f w0, heap w0 !! f = Some (OFile filename false) →
                   heap w0 !! prob_matrix = Some (OArray a) →
                   P (run (pandas E)
                        (_ ← perform (Write f (header_line +:+ nl));
                         n_sample ← perform (Shape prob_matrix 0);
                         _ ← for_each (range n_sample) (λ i,
                           _ ← perform (Write f (str_Z i +:+ ","));
                           n_class ← perform (Shape prob_matrix 1);
                           _ ← for_each (range n_class) (λ j,
                             p ← perform (Item2 prob_matrix i j);
                             s ← perform (Str p);
                             _ ← perform (Write f s);
                             if bool_decide (j < 8)%Z then perform (Write f ",")
                             else mret tt);
                           perform (Write f nl));
                         perform (Close f)) w0)) →
          P (run (pandas E) (submission filename prob_matrix) w)) as Hopen.
{ intros P HP. unfold submission. rewrite run_step, Open_eval by by left.
  match goal with
  | |- context [alloc ?o ?w1] => destruct (alloc_total o w1) as (f & w0 & A); rewrite A
  end.
  apply HP; [by apply (alloc_lookup _ _ _ _ A) |].
  by apply (alloc_keeps _ _ _ _ _ _ A). }
pattern (run (pandas E) (submission filename prob_matrix) w).
apply Hopen. clear Hopen. intros f w0 Hf Hm.
rewrite run_step, (Write_eval _ _ _ _ _ Hf). cbv beta iota.
rewrite run_step. erewrite Shape_eval by exact Hm. simpl rbind. cbv beta iota.
rewrite range_of_nat. destruct a as [| x a]; simpl bool_decide; cbv iota.
- apply finished_unit. simpl length. simpl seq. rewrite fmap_nil.
  rewrite run_bind, run_for_each_nil, run_perform.
  by erewrite Close_eval by exact Hf.
- simpl length. rewrite <-cons_seq, fmap_cons.
  rewrite run_bind, run_for_each_cons.
  rewrite run_step. erewrite Write_eval by exact Hf. cbv beta iota.
  rewrite run_step. erewrite Shape_eval by exact Hm. done.
Qed.

Lemma plot_roc_curve_shape y_test y_score w o e :
heap w !! y_test = Some o → shape_of o 1 = Raise e →
run (pandas E) (plot_roc_curve y_test y_score) w = Raise e.
Proof.
intros Ho He. unfold plot_roc_curve.
do 5 (rewrite run_step, Import_eval; cbv beta iota).
by rewrite run_step, (Shape_eval _ _ _ _ _ Ho), He.
Qed.

(** Where pandas and NumPy decide, a helper fails exactly as they do. *)
Lemma helper_outcome (i : invocation) (w : world) (r : result unit) :
pandas_outcome E i w = Some r →
match r with
| Ok _ => ∃ x w', run (pandas E) (body i) w = Ok (x, w')
| Raise e => run (pandas E) (body i) w = Raise e
end.
Proof.
destruct i as [variants_df text_df cls save suppress_output | | vf tf | y_test y_score
              | vf tf | vf tf | | filename prob_matrix | vf tf];
  cbn [pandas_outcome body]; try done.
- destruct (heap w !! variants_df) as [[V | | | | | |] |] eqn:HV; try done.
  destruct (heap w !! text_df) as [[T | | | | | |] |] eqn:HT; try done.
  intros [= <-].
  pose proof (get_unique_text_run E _ _ cls save suppress_output _ _ _ HV HT) as H.
  destruct (rbind (class_texts V T cls) (join_cells nl)) as [s |]; simpl; [| done].
  destruct H as (w' & H). by eexists _, _.
- intros [= <-]. pose proof (train_test_split_run vf tf w) as H.
  by destruct (split_tables _ _ _ _ _).
- destruct (heap w !! y_test) as [o |] eqn:Ho; [| done].
  destruct (shape_of o 1) as [n | e] eqn:He; [done |]. intros [= <-].
  by eapply plot_roc_curve_shape.
- intros [= <-]. pose proof (get_part_run Training vf tf w) as H.
  by destruct (part_tables _ _ _ _).
- intros [= <-]. pose proof (get_part_run Test vf tf w) as H.
  by destruct (part_tables _ _ _ _).
- destruct (heap w !! prob_matrix) as [[| | | a | M | |] |] eqn:Hm; try done.
  + intros [= <-]. pose proof (submission_array_run filename _ _ _ Hm) as H.
    destruct a as [| x a]; simpl in H |- *; [| done].
    destruct H as (w' & H). by eexists _, _.
  + intros [= <-].
    destruct (submission_run E filename _ _ _ Hm) as (w' & H & _). by eexists _, _.
- intros [= <-]. pose proof (get_full_table_run vf tf w) as H.
  by destruct (merged_table _ _ _).
Qed.

End library_outcomes.

(** ** When a function of scikit-learn or matplotlib fails *)

Section loops.
Context (h : handler).

Lemma for_fold_grows {A St} (m : St → nat) (body : St → A → prog St) :
(∀ s x w, ∃ s' w', run h (body s x) w = Ok (s', w') ∧ m s' = S (m s)) →
∀ l s w, ∃ s' w',
  run h (for_fold l s body) w = Ok (s', w') ∧ m s' = (m s + length l)%nat.
Proof.
intros Hbody l. induction l as [| x l IH]; intros s w.
- exists s, w. split; [done | simpl; lia].
- rewrite run_for_fold_cons. destruct (Hbody s x w) as (s1 & w1 & -> & Hm).
  destruct (IH s1 w1) as (s' & w' & -> & Hm'). exists s', w'.
  split; [done | simpl; lia].
Qed.

Lemma for_fold_returns {A St} (body : St → A → prog St) :
(∀ s x w, ∃ s' w', run h (body s x) w = Ok (s', w')) →
∀ l s w, ∃ s' w', run h (for_fold l s body) w = Ok (s', w').
Proof.
intros Hbody l. induction l as [| x l IH]; intros s w.
- by exists s, w.
- rewrite run_for_fold_cons. destruct (Hbody s x w) as (s1 & w1 & ->).
  apply IH.
Qed.

Lemma for_each_returns {A} (body : A → prog unit) :
(∀ x w, ∃ w', run h (body x) w = Ok (tt, w')) →
∀ l w, ∃ w', run h (for_each l body) w = Ok (tt, w').
Proof.
intros Hbody l. induction l as [| x l IH]; intros w.
- by exists w.
- rewrite run_for_each_cons. destruct (Hbody x w) as (w1 & ->). apply IH.
Qed.

End loops.

Lemma range_cons (n : nat) :
  (0 < n)%nat → ∃ l, range (Z.of_nat n) = 0%Z :: l.
Proof.
  intros Hn. rewrite range_of_nat. destruct n as [| n]; [lia |]. by eexists.
Qed.

(** One call of a library function: it raises if it is the failing one,
    and returns otherwise. *)
Ltac foreign_step Hfail Hothers :=
  rewrite run_step;
  lazymatch goal with
  | |- context [pandas ?E ?X ?c ?w] =>
      change (pandas E X c w) with (foreign E X c w);
      first
        [ rewrite (Hfail X c w eq_refl); reflexivity
        | let x := fresh "x" in
          let u := fresh "u" in
          let Hc := fresh "Hc" in
          destruct (Hothers X c w _ eq_refl ltac:(done)) as (x & u & Hc);
          rewrite Hc; cbv beta iota;
          cbn in x;
          lazymatch type of x with
          | (_ * _ * _)%type => destruct x as [[? ?] ?]
          | _ => idtac
          end ]
  end.

Ltac last_step Hfail Hothers :=
  rewrite run_perform;
  lazymatch goal with
  | |- context [pandas ?E ?X ?c ?w] =>
      change (pandas E X c w) with (foreign E X c w);
      rewrite (Hfail X c w eq_refl); reflexivity
  end.

Section function_fails.
Context (E : externals) (name : string) (e : exn).
Hypothesis Hfail : fails_in E name e.
Hypothesis Hothers : others_return E name.

Lemma get_number_instances_function_fails docs vocabulary w :
name ∈ library_functions (Call_get_number_instances docs vocabulary) →
run (pandas E) (get_number_instances docs vocabulary) w = Raise e.
Proof.
intros Hn. unfold get_number_instances. cbn [library_functions] in Hn.
repeat (apply elem_of_cons in Hn as [-> | Hn]);
  [.. | by apply elem_of_nil in Hn];
  repeat foreign_step Hfail Hothers.
Qed.

Lemma kfold_score_function_fails clf X y splits w :
(∀ k_fold X0 u folds u',
   foreign E _ (KFoldSplit k_fold X0) u = Ok (folds, u') → folds ≠ []) →
name ∈ library_functions (Call_kfold_score clf X y splits) →
run (pandas E) (kfold_score clf X y splits) w = Raise e.
Proof.
intros Hfolds Hn. unfold kfold_score. cbn [library_functions] in Hn.
repeat (apply elem_of_cons in Hn as [-> | Hn]);
  [.. | by apply elem_of_nil in Hn];
  repeat foreign_step Hfail Hothers;
  rewrite run_bind;
  match goal with
  | Hc : foreign E _ (KFoldSplit _ _) _ = Ok (?folds, _) |- _ =>
      pose proof (Hfolds _ _ _ _ _ Hc); destruct folds as [| [train test] folds]; [done |]
  end;
  rewrite run_for_fold_cons;
  repeat foreign_step Hfail Hothers.
Qed.

(** The three loops of [plot_roc_curve] complete when the functions they
  call return. *)
Ltac body_returns :=
intros; cbv beta; repeat foreign_step Hfail Hothers;
try (rewrite run_perform;
     lazymatch goal with
     | |- context [pandas ?E ?X ?c ?w] =>
         change (pandas E X c w) with (foreign E X c w);
         let x := fresh "x" in
         let u := fresh "u" in
         let Hc := fresh "Hc" in
         destruct (Hothers X c w _ eq_refl ltac:(done)) as (x & u & Hc);
         rewrite Hc
     end);
eexists _, _;
first [ reflexivity | split; [reflexivity | rewrite ?length_app; simpl; lia] ].

Ltac each_returns :=
intros [? ?] ?; cbv beta iota; repeat foreign_step Hfail Hothers;
rewrite run_perform;
lazymatch goal with
| |- context [pandas ?E ?X ?c ?w] =>
    change (pandas E X c w) with (foreign E X c w);
    let x := fresh "x" in
    let u := fresh "u" in
    let Hc := fresh "Hc" in
    destruct (Hothers X c w _ eq_refl ltac:(done)) as (x & u & Hc);
    rewrite Hc; cbn in x; destruct x; by eexists
end.

Lemma plot_roc_curve_function_fails y_test y_score w M :
heap w !! y_test = Some (OMatrix M) → (0 < shape1 M)%nat →
name ∈ library_functions (Call_plot_roc_curve y_test y_score) →
run (pandas E) (plot_roc_curve y_test y_score) w = Raise e.
Proof.
intros Hm Hpos Hn. unfold plot_roc_curve. cbn [library_functions] in Hn.
do 5 (rewrite run_step, Import_eval; cbv beta iota).
rewrite run_step, (Shape_eval _ _ _ _ _ Hm). simpl rbind. cbv beta iota.
destruct (range_cons _ Hpos) as (l & Hrange).
repeat (apply elem_of_cons in Hn as [-> | Hn]);
  [.. | by apply elem_of_nil in Hn].
all: rewrite run_bind.
all: try solve [rewrite Hrange, run_for_fold_cons; repeat foreign_step Hfail Hothers].
all: match goal with
     | |- context [run (pandas E) (for_fold ?l ?s ?body) ?w] =>
         destruct (for_fold_grows (pandas E) length body ltac:(body_returns) l s w)
           as (per_class & u0 & Hloop & Hlen);
         rewrite Hloop; cbv beta iota
     end.
all: repeat foreign_step Hfail Hothers.
all: rewrite run_bind.
all: try solve [
       destruct per_class as [| entry per_class];
         [rewrite Hrange in Hlen; simpl in Hlen; lia |];
       rewrite run_for_fold_cons; repeat foreign_step Hfail Hothers;
       last_step Hfail Hothers ].
all: match goal with
     | |- context [run (pandas E) (for_fold ?l ?s ?body) ?w] =>
         destruct (for_fold_returns (pandas E) body ltac:(body_returns) l s w)
           as (summed & u' & Hloop2);
         rewrite Hloop2; cbv beta iota
     end.
all: repeat foreign_step Hfail Hothers.
all: rewrite run_bind.
all: match goal with
     | |- context [run (pandas E) (for_each ?l ?body) ?w] =>
         destruct (for_each_returns (pandas E) body ltac:(each_returns) l w)
           as (u'' & Hloop3);
         rewrite Hloop3; cbv beta iota
     end.
all: repeat foreign_step Hfail Hothers.
all: last_step Hfail Hothers.
Qed.

End function_fails.

(** C7. For every input on which an underlying library call fails, the
    helper fails with the exception of the library, unchanged: when pandas
    or NumPy fail on the input (a missing file, a malformed CSV, a missing
    column, a position out of range, tables or arrays of the wrong shape),
    or when a function of scikit-learn or matplotlib that the helper calls
    fails, then the helper raises that exception.  It holds of each of the
    nine helpers; none returns a value in place of the failure, and none
    raises an exception of its own in its place. *)
Theorem helpers_propagate_failures (E : externals) (i : invocation) (w : world) (e : exn) :
  library_fails E i w e → run (pandas E) (body i) w = Raise e.
Proof.
  intros [e' Hinput | name e' Hname Hloops Hfail Hothers].
  - apply (helper_outcome E i w (Raise e') Hinput).
  - destruct i as [| docs vocabulary | | y_test y_score | | | clf X y splits | |];
      try (by apply elem_of_nil in Hname); cbn [body].
    + by apply (get_number_instances_function_fails E name).
    + destruct Hloops as (M & Hm & Hpos).
      by apply (plot_roc_curve_function_fails E name e' Hfail Hothers _ _ _ M).
    + by apply (kfold_score_function_fails E name).
Qed.

Lemma failing_fails_in (name : string) (e : exn) : fails_in (Cases.E_failing name e) name e.
Proof.
  intros X c u Hc. simpl. unfold Cases.failing. by rewrite bool_decide_eq_true_2.
Qed.

Lemma failing_others_return (name : string) (e : exn) :
  others_return (Cases.E_failing name e) name.
Proof.
  intros X c u other Hc Hother. simpl. unfold Cases.failing.
  rewrite bool_decide_eq_false_2 by congruence.
  destruct c; try done; simpl; by eexists _, _.
Qed.

(** A classifier whose [predict_proba] raises is a failure of the library
    in this sense. *)
Example predict_proba_failure :
  library_fails (Cases.E_failing "predict_proba" ValueError)
    (Call_kfold_score 1%positive 2%positive 3%positive 3) Sample.files ValueError.
Proof.
  apply (function_fails _ _ _ "predict_proba").
  - cbn [library_functions]. set_solver.
  - intros k_fold X u folds u' H. vm_compute in H. by injection H as <- _.
  - apply failing_fails_in.
  - apply failing_others_return.
Qed.

Lemma helpers_propagate_failures_witness :
  library_fails Sample.E (Call_get_full_table "missing.csv" "training_text")
    Sample.files (FileNotFoundError "missing.csv") ∧
  run (pandas Sample.E) (body (Call_get_full_table "missing.csv" "training_text"))
    Sample.files = Raise (FileNotFoundError "missing.csv").
Proof.
  assert (library_fails Sample.E (Call_get_full_table "missing.csv" "training_text")
            Sample.files (FileNotFoundError "missing.csv")) as Hfails.
  { apply input_fails. vm_compute. reflexivity. }
  split; [exact Hfails |].
  exact (helpers_propagate_failures _ _ _ _ Hfails).
Defined.

(* ===================================================================== *)
(** * Further properties of the loaders                                   *)
(* ===================================================================== *)














(* ===================================================================== *)
(** * The rows of the merged table                                        *)
(* ===================================================================== *)






(* ===================================================================== *)
(** * The parts of a split                                                *)
(* ===================================================================== *)


(* ===================================================================== *)
(** * The data lines of a submission with fewer than nine classes         *)
(* ===================================================================== *)





(* ===================================================================== *)
(** * What [submission] leaves alone                                      *)
(* ===================================================================== *)


Section submission_frame.
Context (E : externals) (f : loc) (path : string).



End submission_frame.


(* ===================================================================== *)
(** * The classifier of [kfold_score]                                     *)
(* ===================================================================== *)


Section kfold_score_fits.
Context (E : externals).


End kfold_score_fits.


(* ===================================================================== *)
(** * The curves of [plot_roc_curve]                                      *)
(* ===================================================================== *)

Section counting.
Context (h : handler).





End counting.




(** ** The properties of [get_unique_text] on the sample tables *)





(** On the sample tables, class 2: two rows of two cells, one text. *)
Example get_unique_text_report_lines :
  ∃ s w',
    run (pandas Sample.E) (get_unique_text 1%positive 2%positive 2 None false)
      Sample.tables = Ok (s, w') ∧
    s = "Abstract Background" ∧
    stdout w' = ["Number of entries in class 2: 4"; "Number of unique texts: 1"].
Proof. eexists _, _. split_and!; vm_compute; reflexivity. Qed.






(** ** The properties of the loaders on the sample files *)







(** ** Further properties, on the sample data *)






